(** * Foxblat plugin manager: device matching, plugin loading, panel lifecycle

    A shallow embedding of [src/foxblat/plugin_manager.py]:
    - [PluginMatcher.matches] as a function into an error type,
    - [PluginManager] as explicit state passing in a state-and-exception
      monad; every call into plugin-supplied code, every dispatched event,
      every [print] and every [sleep] is appended to an event log,
    - the device scan loop as a function of what the worker observes at
      each iteration.

    Python exceptions are values of [PyExn]; only instances of [Exception]
    are modelled (what [except Exception] catches). *)

From Stdlib Require Import String Ascii ZArith List Bool Lia Arith Permutation.
Import ListNotations.

Local Open Scope string_scope.
Local Open Scope Z_scope.
Local Open Scope list_scope.

Ltac splits := repeat match goal with |- _ /\ _ => split end.

(** ** Python values shared by the whole module *)

Inductive ExnClass :=
| ValueError
| TypeError
| JSONDecodeError
| ReError
| OtherException.

Record PyExn := mkExn { exn_class : ExnClass; exn_msg : string }.

(** [str(e)] as used by the f-strings of the source. *)
Definition str_exn (e : PyExn) : string := exn_msg e.

Inductive Result (A : Type) :=
| Ok (a : A)
| Raise (e : PyExn).

Arguments Ok {A} a.
Arguments Raise {A} e.

Definition is_ok {A} (r : Result A) : bool :=
  match r with Ok _ => true | Raise _ => false end.

(** ** [int(s, 16)]

    The builtin, for ASCII text: optional surrounding whitespace, an
    optional sign, an optional [0x]/[0X] prefix, then hexadecimal digits in
    which single underscores may separate digits (and one may follow the
    prefix).  Anything else is a [ValueError]. *)

Definition Py_ISSPACE (c : ascii) : bool :=
  let n := N_of_ascii c in
  (N.eqb n 32 || (N.leb 9 n && N.leb n 13))%N%bool.

Definition digit_value (c : ascii) : option Z :=
  let n := Z.of_N (N_of_ascii c) in
  if (48 <=? n) && (n <=? 57) then Some (n - 48)
  else if (97 <=? n) && (n <=? 122) then Some (n - 87)
  else if (65 <=? n) && (n <=? 90) then Some (n - 55)
  else None.

Fixpoint lstrip (s : string) : string :=
  match s with
  | String c rest => if Py_ISSPACE c then lstrip rest else s
  | EmptyString => EmptyString
  end.

(** The digit run.  [prev_us] records that the previous character was an
    underscore; the result is the value, the number of digits read and the
    unread rest. *)
Fixpoint scan_digits (s : string) (prev_us : bool) (acc : Z) (ndigits : nat)
  : option (Z * nat * string) :=
  let stop := if prev_us then None else Some (acc, ndigits, s) in
  match s with
  | EmptyString => stop
  | String c rest =>
      if Ascii.eqb c "_" then
        if prev_us then None else scan_digits rest true acc ndigits
      else
        match digit_value c with
        | Some d =>
            if d <? 16 then scan_digits rest false (16 * acc + d) (S ndigits)
            else stop
        | None => stop
        end
  end.

Definition strip_sign (s : string) : bool * string :=
  match s with
  | String c rest =>
      if Ascii.eqb c "+" then (false, rest)
      else if Ascii.eqb c "-" then (true, rest)
      else (false, s)
  | EmptyString => (false, s)
  end.

Definition starts_with_underscore (s : string) : bool :=
  match s with
  | String c _ => Ascii.eqb c "_"
  | EmptyString => false
  end.

Definition strip_hex_prefix (s : string) : string :=
  match s with
  | String c (String x rest) =>
      if Ascii.eqb c "0" && (Ascii.eqb x "x" || Ascii.eqb x "X") then
        match rest with
        | String u rest' => if Ascii.eqb u "_" then rest' else rest
        | EmptyString => rest
        end
      else s
  | _ => s
  end.

Definition invalid_literal : PyExn :=
  mkExn ValueError "invalid literal for int() with base 16".

Definition int_base16 (s : string) : Result Z :=
  let '(negative, body) := strip_sign (lstrip s) in
  let digits := strip_hex_prefix body in
  if starts_with_underscore digits then Raise invalid_literal
  else
    match scan_digits digits false 0 0 with
    | None => Raise invalid_literal
    | Some (v, n, rest) =>
        if Nat.eqb n 0 then Raise invalid_literal
        else
          match lstrip rest with
          | EmptyString => Ok (if negative then - v else v)
          | _ => Raise invalid_literal
          end
    end.

(** ** Devices and match rules *)

(** [evdev.InputDevice]: the fields the manager reads ([path], [name],
    [info.vendor], [info.product]). *)
Record InputDevice := mkInputDevice {
  dev_path : string;
  dev_name : string;
  dev_vendor : Z;
  dev_product : Z
}.

(** A rule value as it stands in [plugin.json]: an integer or a string. *)
Inductive IdValue :=
| IdInt (n : Z)
| IdStr (s : string).

(** One entry of [metadata["devices"]]; an absent key and [null] both read
    as [None] through [rule.get]. *)
Record Rule := mkRule {
  vendor_id : option IdValue;
  product_id : option IdValue;
  name_pattern : option string
}.

Record PluginMatcher := mkMatcher {
  plugin_name : string;
  devices : list Rule
}.

(** ** Panels, events and plugin records *)

(** [PluginDeviceInfo] of [foxblat/plugin_base.py] (not among the sources),
    with the four fields the manager passes when it builds one from an
    [InputDevice]. *)
Record PluginDeviceInfo := mkDeviceInfo {
  info_name : string;
  info_vendor_id : Z;
  info_product_id : Z;
  info_path : string
}.

(** [PluginContext] of [foxblat/plugin_base.py]: the two paths the manager
    passes; the HID and settings handlers are opaque to it and left out. *)
Record PluginContext := mkContext {
  plugin_path : string;
  config_path : string
}.

(** The host's button callback and a preset dictionary are opaque too. *)
Definition Callback := nat.
Definition Settings := list (string * string).

(** A call from the manager into plugin-supplied code: the constructor of
    the panel class and the methods of the panel instance. *)
Inductive PanelCall :=
| Construct (title : string) (button_callback : option Callback) (context : PluginContext)
| on_device_connected (device_info : PluginDeviceInfo)
| on_device_disconnected (device_info : PluginDeviceInfo)
| active (signal : Z)
| shutdown
| get_preset_settings
| on_preset_loaded (settings : Settings).

Inductive DispatchArg :=
| ArgPanel (instance : option nat)
| ArgMessage (message : string).

(** What the manager does that the outside can observe, in order. *)
Inductive Event :=
| EvCall (plugin : string) (instance : option nat) (call : PanelCall)
| EvDispatch (event : string) (plugin : string) (arg : DispatchArg)
| EvPrint (message : string)
| EvSleep (seconds : Z).

Inductive Outcome :=
| Returns
| Raises (e : PyExn).

(** Modelled from the spec: the panel capability ([PluginPanel] of
    [foxblat/plugin_base.py], which is not among the sources).  A panel is
    constructed from a title, the UI callback and a context, and offers
    [on_device_connected], [on_device_disconnected], [active], [shutdown],
    a read-only preset identity, [get_preset_settings] and
    [on_preset_loaded].  What these do is plugin code and arbitrary:
    whether a call returns or raises may depend on everything that happened
    before ([behaviour] reads the event history).  [extends_PluginPanel] is
    the answer of [issubclass(cls, PluginPanel)]; [preset_device_name] and
    [preset_settings] are what the attribute and [get_preset_settings()]
    evaluate to (reading the attribute is taken not to raise). *)
Record PanelClass := mkPanelClass {
  extends_PluginPanel : bool;
  preset_device_name : string;
  preset_settings : list Event -> Settings;
  behaviour : list Event -> PanelCall -> Outcome
}.

(** The parsed [plugin.json], at the types the bundle layout declares;
    [None] is an absent key. *)
Record Metadata := mkMetadata {
  md_name : option string;
  md_panel_class : option string;
  md_panel_title : option string;
  md_devices : option (list Rule)
}.

(** [LoadedPlugin].  A panel instance is an object identity; [module] is
    only stored by the source and not represented. *)
Record LoadedPlugin := mkLoadedPlugin {
  name : string;
  metadata : Metadata;
  panel_class : PanelClass;
  matcher : PluginMatcher;
  path : string;
  panel_instance : option nat;
  connected_devices : list PluginDeviceInfo
}.

Definition set_panel_instance (p : LoadedPlugin) (i : option nat) : LoadedPlugin :=
  mkLoadedPlugin (name p) (metadata p) (panel_class p) (matcher p) (path p)
    i (connected_devices p).

Definition set_connected_devices (p : LoadedPlugin) (l : list PluginDeviceInfo)
  : LoadedPlugin :=
  mkLoadedPlugin (name p) (metadata p) (panel_class p) (matcher p) (path p)
    (panel_instance p) l.

(** The fields of [PluginManager] the modelled methods read or write.
    [_plugins] is the dict in insertion order, keyed by [name]. *)
Record PluginManager := mkManager {
  _config_path : string;
  _plugins_path : string;
  _plugins : list LoadedPlugin;
  _running : bool;
  _button_callback : option Callback
}.

Definition set_plugins (s : PluginManager) (ps : list LoadedPlugin) : PluginManager :=
  mkManager (_config_path s) (_plugins_path s) ps (_running s) (_button_callback s).

Definition set_running (s : PluginManager) (b : bool) : PluginManager :=
  mkManager (_config_path s) (_plugins_path s) (_plugins s) b (_button_callback s).

Definition set_button_callback (s : PluginManager) (cb : option Callback)
  : PluginManager :=
  mkManager (_config_path s) (_plugins_path s) (_plugins s) (_running s) cb.

(** [PluginManager.__init__], with the paths already expanded. *)
Definition new_manager (cfg : string) : PluginManager :=
  mkManager cfg (cfg ++ "/plugins")%string [] false None.

(** ** The monad of manager code

    A computation reads the event history so far and a state, and yields a
    value or an exception, the new state, and the events it emitted. *)

Definition M (S A : Type) : Type :=
  list Event -> S -> Result A * S * list Event.

Definition ret {S A} (a : A) : M S A := fun _ s => (Ok a, s, []).

Definition bind {S A B} (m : M S A) (f : A -> M S B) : M S B :=
  fun h s =>
    match m h s with
    | (Ok a, s1, d1) =>
        match f a (h ++ d1) s1 with
        | (r, s2, d2) => (r, s2, d1 ++ d2)
        end
    | (Raise e, s1, d1) => (Raise e, s1, d1)
    end.

Declare Scope py_scope.
Delimit Scope py_scope with py.
Notation "x <- m ;; k" := (bind m (fun x => k))
  (at level 100, m at next level, right associativity) : py_scope.
Notation "m ;; k" := (bind m (fun _ => k))
  (at level 100, right associativity) : py_scope.
Local Open Scope py_scope.

(** [try: body  except Exception as e: handler(e)] *)
Definition try_except {S A} (body : M S A) (handler : PyExn -> M S A) : M S A :=
  fun h s =>
    match body h s with
    | (Ok a, s1, d1) => (Ok a, s1, d1)
    | (Raise e, s1, d1) =>
        match handler e (h ++ d1) s1 with
        | (r, s2, d2) => (r, s2, d1 ++ d2)
        end
    end.

Definition raise {S A} (e : PyExn) : M S A := fun _ s => (Raise e, s, []).
Definition get {S} : M S S := fun _ s => (Ok s, s, []).
Definition put {S} (s : S) : M S unit := fun _ _ => (Ok tt, s, []).
Definition emit {S} (ev : Event) : M S unit := fun _ s => (Ok tt, s, [ev]).
Definition when {S} (b : bool) (m : M S unit) : M S unit :=
  if b then m else ret tt.

Definition print {S} (message : string) : M S unit := emit (EvPrint message).
Definition sleep {S} (seconds : Z) : M S unit := emit (EvSleep seconds).

(** Modelled from the spec: [EventDispatcher._dispatch] of
    [foxblat/subscription.py], which is not among the sources.  The manager
    emits named lifecycle events to the host; an emission is recorded in the
    event log. *)
Definition _dispatch {S} (event plugin : string) (arg : DispatchArg) : M S unit :=
  emit (EvDispatch event plugin arg).

(** [for x in l: body(x)], without [break] or [return]. *)
Fixpoint for_each {S A} (l : list A) (body : A -> M S unit) : M S unit :=
  match l with
  | [] => ret tt
  | x :: rest => body x ;; for_each rest body
  end.

(** [for plugin in self._plugins.values(): body], the records being mutated
    in place: whatever the body did to a record stays done when the body (or
    a later one) raises.  [X] is what the loop carries besides the records;
    a body that yields [Some r] executes [return r]. *)
Fixpoint for_plugins {X R} (body : M (LoadedPlugin * X) (option R))
    (ps : list LoadedPlugin) (h : list Event) (x : X)
  : Result (option R) * (list LoadedPlugin * X) * list Event :=
  match ps with
  | [] => (Ok None, ([], x), [])
  | p :: rest =>
      match body h (p, x) with
      | (Raise e, (p1, x1), d1) => (Raise e, (p1 :: rest, x1), d1)
      | (Ok (Some r), (p1, x1), d1) => (Ok (Some r), (p1 :: rest, x1), d1)
      | (Ok None, (p1, x1), d1) =>
          match for_plugins body rest (h ++ d1) x1 with
          | (r, (rest1, x2), d2) => (r, (p1 :: rest1, x2), d1 ++ d2)
          end
      end
  end.

(** The loop run on the manager's registry. *)
Definition with_plugins {X R} (x0 : X) (body : M (LoadedPlugin * X) (option R))
  : M PluginManager (option R * X) :=
  fun h s =>
    match for_plugins body (_plugins s) h x0 with
    | (Ok r, (ps, x), d) => (Ok (r, x), set_plugins s ps, d)
    | (Raise e, (ps, _), d) => (Raise e, set_plugins s ps, d)
    end.

(** Access to the record a loop body works on. *)
Definition plugin {X} : M (LoadedPlugin * X) LoadedPlugin :=
  fun _ s => (Ok (fst s), s, []).

Definition update_plugin {X} (f : LoadedPlugin -> LoadedPlugin)
  : M (LoadedPlugin * X) unit :=
  fun _ s => (Ok tt, (f (fst s), snd s), []).

Definition carried {X} : M (LoadedPlugin * X) X :=
  fun _ s => (Ok (snd s), s, []).

Definition set_carried {X} (x : X) : M (LoadedPlugin * X) unit :=
  fun _ s => (Ok tt, (fst s, x), []).

(** A method call on [plugin.panel_instance]: logged, then it returns or
    raises as the plugin's code decides. *)
Definition call_panel {X} (c : PanelCall) : M (LoadedPlugin * X) unit :=
  fun h s =>
    let p := fst s in
    let ev := EvCall (name p) (panel_instance p) c in
    match behaviour (panel_class p) h c with
    | Returns => (Ok tt, s, [ev])
    | Raises e => (Raise e, s, [ev])
    end.

(** [plugin.panel_instance = plugin.panel_class(title, callback, context)]:
    when the constructor returns, the record holds a new object, identified
    by the position of the constructor call in the history. *)
Definition construct_panel {X} (c : PanelCall) : M (LoadedPlugin * X) unit :=
  fun h s =>
    let p := fst s in
    let ev := EvCall (name p) None c in
    match behaviour (panel_class p) h c with
    | Returns => (Ok tt, (set_panel_instance p (Some (length h)), snd s), [ev])
    | Raises e => (Raise e, s, [ev])
    end.

(** Truth value of [plugin.panel_instance]: [None] is false, a panel object
    is true. *)
Definition truthy (i : option nat) : bool :=
  match i with Some _ => true | None => false end.

(** Equality of device descriptors, field by field.  (Were descriptors
    compared by identity instead, [remove] below would drop the same
    element: it is only called on the first element of the list that has
    the disconnected path.) *)
Definition device_info_eqb (a b : PluginDeviceInfo) : bool :=
  String.eqb (info_name a) (info_name b)
  && (info_vendor_id a =? info_vendor_id b)
  && (info_product_id a =? info_product_id b)
  && String.eqb (info_path a) (info_path b).

(** [list.remove(x)]: drops the first element equal to [x]. *)
Fixpoint list_remove (x : PluginDeviceInfo) (l : list PluginDeviceInfo)
  : list PluginDeviceInfo :=
  match l with
  | [] => []
  | y :: rest => if device_info_eqb y x then rest else y :: list_remove x rest
  end.

(** [metadata.get("panel_title", plugin.name)] *)
Definition panel_title (p : LoadedPlugin) : string :=
  match md_panel_title (metadata p) with
  | Some t => t
  | None => name p
  end.

(** [re.IGNORECASE] *)
Definition IGNORECASE : Z := 2.

Section Foxblat.

Local Set Default Proof Using "Type".

(** [re.search(pattern, string, flags)] of the Python standard library,
    observed through what the source uses of it: it raises ([re.error] on a
    pattern that does not compile) or returns a match object or [None];
    [Ok true] stands for a match object, which is always truthy. *)
Variable re_search : string -> string -> Z -> Result bool.

(** [int(v, 16) if isinstance(v, str) else v] *)
Definition id_int (v : IdValue) : Result Z :=
  match v with
  | IdStr s => int_base16 s
  | IdInt n => Ok n
  end.

(** The name-pattern half of the loop body of [matches]. *)
Definition pattern_check (rule : Rule) (device : InputDevice) : Result bool :=
  match name_pattern rule with
  | Some pattern => re_search pattern (dev_name device) IGNORECASE
  | None => Ok false
  end.

(** The VID/PID half: [Ok true] when the body executes [return True]. *)
Definition vidpid_check (rule : Rule) (device : InputDevice) : Result bool :=
  match vendor_id rule, product_id rule with
  | Some vid, Some pid =>
      match id_int vid with
      | Raise e => Raise e
      | Ok vid_int =>
          match id_int pid with
          | Raise e => Raise e
          | Ok pid_int =>
              Ok ((dev_vendor device =? vid_int) && (dev_product device =? pid_int))
          end
      end
  | _, _ => Ok false
  end.

(** One iteration of [for rule in self.devices]: [Ok true] is [return True],
    [Ok false] falls through to the next rule. *)
Definition rule_matches (rule : Rule) (device : InputDevice) : Result bool :=
  match vidpid_check rule device with
  | Raise e => Raise e
  | Ok true => Ok true
  | Ok false => pattern_check rule device
  end.

Fixpoint matches_rules (rules : list Rule) (device : InputDevice) : Result bool :=
  match rules with
  | [] => Ok false
  | rule :: rest =>
      match rule_matches rule device with
      | Raise e => Raise e
      | Ok true => Ok true
      | Ok false => matches_rules rest device
      end
  end.

(** [PluginMatcher.matches] *)
Definition matches (m : PluginMatcher) (device : InputDevice) : Result bool :=
  matches_rules (devices m) device.

(** ** Panel lifecycle *)

Definition lift {S A} (r : Result A) : M S A := fun _ s => (r, s, []).

Definition is_none {A} (o : option A) : bool :=
  match o with None => true | Some _ => false end.

Definition len {A} (l : list A) : Z := Z.of_nat (length l).

Definition device_info_of (device : InputDevice) : PluginDeviceInfo :=
  mkDeviceInfo (dev_name device) (dev_vendor device) (dev_product device)
    (dev_path device).

(** Body of the replay loop of [_instantiate_plugin_panel]. *)
Definition notify_existing_device {X} (device_info : PluginDeviceInfo)
  : M (LoadedPlugin * X) unit :=
  try_except
    (call_panel (on_device_connected device_info))
    (fun e =>
       print ("[PluginManager] Error notifying panel of device: "
              ++ str_exn e)%string).

(** [PluginManager._instantiate_plugin_panel]; [self] is the manager as the
    caller sees it (its callback and configuration path are read). *)
Definition _instantiate_plugin_panel {X} (self : PluginManager)
  : M (LoadedPlugin * X) unit :=
  try_except
    (p <- plugin ;;
     let context := mkContext (path p) (_config_path self) in
     let title := panel_title p in
     construct_panel (Construct title (_button_callback self) context) ;;
     call_panel (active (-2)) ;;
     p <- plugin ;;
     for_each (connected_devices p) notify_existing_device ;;
     p <- plugin ;;
     when (0 <? len (connected_devices p)) (call_panel (active 1)) ;;
     p <- plugin ;;
     _dispatch "plugin-panel-available" (name p) (ArgPanel (panel_instance p)))
    (fun e =>
       p <- plugin ;;
       _dispatch "plugin-load-error" (name p)
         (ArgMessage ("Failed to instantiate panel: " ++ str_exn e)%string) ;;
       print ("[PluginManager] Error creating panel for " ++ name p ++ ": "
              ++ str_exn e)%string).

(** Body of the loop of [_handle_device_connected]. *)
Definition connected_body (self : PluginManager) (device : InputDevice)
  : M (LoadedPlugin * unit) (option unit) :=
  p <- plugin ;;
  matched <- lift (matches (matcher p) device) ;;
  when matched
    (let device_info := device_info_of device in
     update_plugin (fun p =>
       set_connected_devices p (connected_devices p ++ [device_info])) ;;
     print ("[PluginManager] Device matched plugin '" ++ name p ++ "': "
            ++ dev_name device)%string ;;
     p <- plugin ;;
     panel_just_created <-
       (if is_none (panel_instance p) && negb (is_none (_button_callback self))
        then _instantiate_plugin_panel self ;; ret true
        else ret false) ;;
     p <- plugin ;;
     when (truthy (panel_instance p) && negb panel_just_created)
       (try_except
          (call_panel (on_device_connected device_info) ;;
           call_panel (active 1))
          (fun e =>
             print ("[PluginManager] Error notifying panel: " ++ str_exn e)%string))) ;;
  ret None.

(** [PluginManager._handle_device_connected] *)
Definition _handle_device_connected (device : InputDevice) : M PluginManager unit :=
  self <- get ;;
  with_plugins tt (connected_body self device) ;;
  ret tt.

(** Body of the inner loop of [_handle_device_disconnected]. *)
Definition disconnect_device {X} (path_ : string) (device_info : PluginDeviceInfo)
  : M (LoadedPlugin * X) unit :=
  when (String.eqb (info_path device_info) path_)
    (update_plugin (fun p =>
       set_connected_devices p (list_remove device_info (connected_devices p))) ;;
     p <- plugin ;;
     print ("[PluginManager] Device disconnected from plugin '" ++ name p
            ++ "': " ++ info_name device_info)%string ;;
     when (truthy (panel_instance p))
       (try_except
          (call_panel (on_device_disconnected device_info))
          (fun e =>
             print ("[PluginManager] Error notifying panel: " ++ str_exn e)%string)) ;;
     p <- plugin ;;
     when ((len (connected_devices p) =? 0) && truthy (panel_instance p))
       (call_panel (active (-1)))).

(** Body of the outer loop of [_handle_device_disconnected]; the inner loop
    runs over the copy [connected_devices[:]] taken on entry. *)
Definition disconnected_body (path_ : string)
  : M (LoadedPlugin * unit) (option unit) :=
  p <- plugin ;;
  for_each (connected_devices p) (disconnect_device path_) ;;
  ret None.

(** [PluginManager._handle_device_disconnected] *)
Definition _handle_device_disconnected (path_ : string) : M PluginManager unit :=
  with_plugins tt (disconnected_body path_) ;;
  ret tt.

(** A dict from strings, in insertion order: [d[k] = v]. *)
Fixpoint dict_set {V} (k : string) (v : V) (d : list (string * V))
  : list (string * V) :=
  match d with
  | [] => [(k, v)]
  | (k1, v1) :: rest =>
      if String.eqb k1 k then (k, v) :: rest else (k1, v1) :: dict_set k v rest
  end.

Definition panels_body (self : PluginManager)
  : M (LoadedPlugin * list (string * nat)) (option unit) :=
  p <- plugin ;;
  when (0 <? len (connected_devices p))
    (when (is_none (panel_instance p)) (_instantiate_plugin_panel self) ;;
     p <- plugin ;;
     match panel_instance p with
     | Some instance =>
         panels <- carried ;;
         set_carried (dict_set (panel_title p) instance panels)
     | None => ret tt
     end) ;;
  ret None.

(** [PluginManager.get_plugin_panels] *)
Definition get_plugin_panels (button_callback : Callback)
  : M PluginManager (list (string * nat)) :=
  s <- get ;;
  put (set_button_callback s (Some button_callback)) ;;
  self <- get ;;
  r <- with_plugins [] (panels_body self) ;;
  ret (snd r).

Definition stop_body : M (LoadedPlugin * unit) (option unit) :=
  p <- plugin ;;
  when (truthy (panel_instance p))
    (try_except
       (call_panel shutdown)
       (fun e =>
          print ("[PluginManager] Error shutting down " ++ name p ++ ": "
                 ++ str_exn e)%string)) ;;
  ret None.

(** [PluginManager.stop] *)
Definition stop : M PluginManager unit :=
  s <- get ;;
  put (set_running s false) ;;
  with_plugins tt stop_body ;;
  ret tt.

(** [panel_instance.get_preset_settings()] with its return value. *)
Definition call_get_preset_settings {X} : M (LoadedPlugin * X) Settings :=
  fun h s =>
    let p := fst s in
    let ev := EvCall (name p) (panel_instance p) get_preset_settings in
    match behaviour (panel_class p) h get_preset_settings with
    | Returns => (Ok (preset_settings (panel_class p) h), s, [ev])
    | Raises e => (Raise e, s, [ev])
    end.

Definition get_preset_body (device_name : string)
  : M (LoadedPlugin * unit) (option Settings) :=
  p <- plugin ;;
  if truthy (panel_instance p)
     && String.eqb (preset_device_name (panel_class p)) device_name
  then
    try_except
      (r <- call_get_preset_settings ;; ret (Some r))
      (fun e =>
         print ("[PluginManager] Error getting preset settings from "
                ++ device_name ++ ": " ++ str_exn e)%string ;;
         ret None)
  else ret None.

(** [PluginManager.get_plugin_preset_settings] *)
Definition get_plugin_preset_settings (device_name : string)
  : M PluginManager Settings :=
  r <- with_plugins tt (get_preset_body device_name) ;;
  match fst r with
  | Some settings => ret settings
  | None => ret []
  end.

Definition apply_preset_body (device_name : string) (settings : Settings)
  : M (LoadedPlugin * unit) (option unit) :=
  p <- plugin ;;
  if truthy (panel_instance p)
     && String.eqb (preset_device_name (panel_class p)) device_name
  then
    try_except
      (call_panel (on_preset_loaded settings) ;;
       print ("[PluginManager] Applied preset settings to " ++ device_name)%string)
      (fun e =>
         print ("[PluginManager] Error applying preset settings to "
                ++ device_name ++ ": " ++ str_exn e)%string) ;;
    ret (Some tt)
  else ret None.

(** [repr] of a list of strings, for strings without quotes or escapes. *)
Definition repr_list (l : list string) : string :=
  ("[" ++ String.concat ", " (map (fun x => "'" ++ x ++ "'") l) ++ "]")%string.

(** [PluginManager.apply_plugin_preset_settings] *)
Definition apply_plugin_preset_settings (device_name : string) (settings : Settings)
  : M PluginManager unit :=
  r <- with_plugins tt (apply_preset_body device_name settings) ;;
  match fst r with
  | Some _ => ret tt
  | None =>
      s <- get ;;
      let available :=
        map (fun p => preset_device_name (panel_class p))
          (filter (fun p => truthy (panel_instance p)) (_plugins s)) in
      print ("[PluginManager] No plugin found for preset device '" ++ device_name
             ++ "'. Available: " ++ repr_list available)%string
  end.

(** [PluginManager.get_all_loaded_plugins]: a copy of the dict. *)
Definition get_all_loaded_plugins : M PluginManager (list LoadedPlugin) :=
  s <- get ;;
  ret (_plugins s).

(** [PluginManager.get_active_plugins] *)
Definition get_active_plugins : M PluginManager (list (string * nat)) :=
  s <- get ;;
  ret (fold_left
         (fun panels p =>
            match panel_instance p with
            | Some instance =>
                if 0 <? len (connected_devices p)
                then dict_set (preset_device_name (panel_class p)) instance panels
                else panels
            | None => panels
            end)
         (_plugins s) []).

(** [PluginManager.has_active_plugins] *)
Definition has_active_plugins : M PluginManager bool :=
  s <- get ;;
  ret (existsb (fun p => 0 <? len (connected_devices p)) (_plugins s)).

(** ** Plugin loading *)

(** What [getattr(module, panel_class_name)] can resolve to. *)
Inductive PyObject :=
| PyClass (c : PanelClass)
| PyNotClass.

(** One entry of the plugins directory, as the loader observes it:
    [os.path.isdir], [os.path.isfile] on the two files, the outcome of
    [open] and [json.load] on [plugin.json], and the outcome of executing
    [__init__.py] (the attributes of the resulting module). *)
Record Bundle := mkBundle {
  entry : string;
  isdir : bool;
  has_plugin_json : bool;
  has_init_py : bool;
  json_load : Result Metadata;
  exec_module : Result (list (string * PyObject))
}.

(** [os.path.join] *)
Definition path_join (a b : string) : string := (a ++ "/" ++ b)%string.

Definition required_fields : list string := ["name"; "panel_class"; "devices"].

(** [field in metadata] *)
Definition has_field (field : string) (m : Metadata) : bool :=
  if String.eqb field "name" then negb (is_none (md_name m))
  else if String.eqb field "panel_class" then negb (is_none (md_panel_class m))
  else if String.eqb field "panel_title" then negb (is_none (md_panel_title m))
  else if String.eqb field "devices" then negb (is_none (md_devices m))
  else false.

Fixpoint module_getattr (module : list (string * PyObject)) (attr : string)
  : option PyObject :=
  match module with
  | [] => None
  | (k, v) :: rest => if String.eqb k attr then Some v else module_getattr rest attr
  end.

(** The builtin [issubclass(obj, PluginPanel)]: a [TypeError] when the first
    argument is not a class. *)
Definition issubclass_PluginPanel (obj : PyObject) : Result bool :=
  match obj with
  | PyClass c => Ok (extends_PluginPanel c)
  | PyNotClass => Raise (mkExn TypeError "issubclass() arg 1 must be a class")
  end.

(** [self._plugins[name] = plugin] *)
Fixpoint plugins_set (key : string) (p : LoadedPlugin) (ps : list LoadedPlugin)
  : list LoadedPlugin :=
  match ps with
  | [] => [p]
  | q :: rest =>
      if String.eqb (name q) key then p :: rest else q :: plugins_set key p rest
  end.

Definition load_error (name_ message : string) (log_message : string)
  : M PluginManager bool :=
  _dispatch "plugin-load-error" name_ (ArgMessage message) ;;
  print ("[PluginManager] Plugin '" ++ name_ ++ "': " ++ log_message)%string ;;
  ret false.

Definition is_JSONDecodeError (e : PyExn) : bool :=
  match exn_class e with JSONDecodeError => true | _ => false end.

(** [PluginManager._load_plugin] *)
Definition _load_plugin (name_ path_ : string) (dir : Bundle) : M PluginManager bool :=
  if negb (has_plugin_json dir) then
    load_error name_ "Missing plugin.json" "Missing plugin.json"
  else if negb (has_init_py dir) then
    load_error name_ "Missing __init__.py" "Missing __init__.py"
  else
    match json_load dir with
    | Raise e =>
        if is_JSONDecodeError e then
          load_error name_ ("Invalid plugin.json: " ++ str_exn e)%string
            ("Invalid plugin.json: " ++ str_exn e)%string
        else raise e
    | Ok metadata_ =>
        match find (fun field => negb (has_field field metadata_)) required_fields with
        | Some field =>
            load_error name_ ("Missing required field: " ++ field)%string
              ("Missing field: " ++ field)%string
        | None =>
            match exec_module dir with
            | Raise e =>
                load_error name_ ("Failed to load module: " ++ str_exn e)%string
                  ("Failed to load module: " ++ str_exn e)%string
            | Ok module =>
                match md_panel_class metadata_ with
                | None => raise (mkExn OtherException "KeyError: 'panel_class'")
                | Some panel_class_name =>
                    match module_getattr module panel_class_name with
                    | None =>
                        load_error name_
                          ("Panel class not found: " ++ panel_class_name)%string
                          ("Panel class not found: " ++ panel_class_name)%string
                    | Some panel_class_ =>
                        is_panel <- lift (issubclass_PluginPanel panel_class_) ;;
                        if negb is_panel then
                          load_error name_ "Panel class must extend PluginPanel"
                            "Panel class must extend PluginPanel"
                        else
                          match panel_class_ with
                          | PyNotClass =>
                              raise (mkExn TypeError "issubclass() arg 1 must be a class")
                          | PyClass cls =>
                              let matcher_ :=
                                mkMatcher name_
                                  (match md_devices metadata_ with
                                   | Some l => l
                                   | None => []
                                   end) in
                              s <- get ;;
                              put (set_plugins s
                                     (plugins_set name_
                                        (mkLoadedPlugin name_ metadata_ cls matcher_
                                           path_ None [])
                                        (_plugins s))) ;;
                              print ("[PluginManager] Loaded plugin: "
                                     ++ match md_name metadata_ with
                                        | Some n => n
                                        | None => name_
                                        end)%string ;;
                              ret true
                          end
                    end
                end
            end
        end
    end.

(** [PluginManager._discover_plugins]; [listing] is [None] when the plugins
    directory does not exist, else the entries of [os.listdir]. *)
Definition _discover_plugins (listing : option (list Bundle)) : M PluginManager unit :=
  match listing with
  | None => ret tt
  | Some entries =>
      s <- get ;;
      for_each entries (fun dir =>
        let plugin_dir := path_join (_plugins_path s) (entry dir) in
        when (isdir dir) (_load_plugin (entry dir) plugin_dir dir ;; ret tt))
  end.

(** ** Device monitoring *)

(** What one iteration of the scan loop observes: the host operations that
    ran (under the registry lock, hence atomically) since the previous
    iteration, and the outcome of [evdev.list_devices()], each listed path
    with the device [evdev.InputDevice(path)] opens or [None] when opening
    raises. *)
Inductive HostOp :=
| HostGetPanels (button_callback : Callback)
| HostStop
| HostGetPreset (device_name : string)
| HostApplyPreset (device_name : string) (settings : Settings).

Record Observation := mkObservation {
  host_ops : list HostOp;
  list_devices : Result (list (string * option InputDevice))
}.

Definition discard {S A} (m : M S A) : M S unit :=
  fun h s => match m h s with (_, s1, d1) => (Ok tt, s1, d1) end.

(** A host call; an exception it raises goes to the host thread, not to the
    worker. *)
Definition run_host_op (op : HostOp) : M PluginManager unit :=
  match op with
  | HostGetPanels cb => discard (get_plugin_panels cb)
  | HostStop => discard stop
  | HostGetPreset n => discard (get_plugin_preset_settings n)
  | HostApplyPreset n st => discard (apply_plugin_preset_settings n st)
  end.

(** The dict [current_devices] built by the enumeration. *)
Fixpoint open_devices (listing : list (string * option InputDevice))
    (current_devices : list (string * InputDevice))
  : list (string * InputDevice) :=
  match listing with
  | [] => current_devices
  | (path_, Some device) :: rest =>
      open_devices rest (dict_set path_ device current_devices)
  | (_, None) :: rest => open_devices rest current_devices
  end.

(** Set difference; a Python set has no specified iteration order, the
    model iterates in list order. *)
Definition set_minus (a b : list string) : list string :=
  filter (fun x => negb (existsb (String.eqb x) b)) a.

Fixpoint dict_get {V} (d : list (string * V)) (k : string) : option V :=
  match d with
  | [] => None
  | (k1, v) :: rest => if String.eqb k1 k then Some v else dict_get rest k
  end.

(** The normal polling interval and the delay after a failed enumeration,
    the two [sleep] arguments of the loop. *)
Definition poll_interval : Z := 3.
Definition error_backoff : Z := 3.
Definition startup_delay : Z := 1.

(** How a run of the loop over a finite sequence of observations ends. *)
Inductive LoopExit :=
| Stopped
| StillRunning.

(** The [while self._running.is_set()] loop, one observation per
    iteration; [known_devices] is the loop variable. *)
Fixpoint scan_loop (obs : list Observation) (known_devices : list string)
  : M PluginManager LoopExit :=
  match obs with
  | [] => ret StillRunning
  | o :: later =>
      for_each (host_ops o) run_host_op ;;
      s <- get ;;
      if negb (_running s) then ret Stopped
      else
        match list_devices o with
        | Raise e =>
            print ("[PluginManager] Error listing devices: " ++ str_exn e)%string ;;
            sleep error_backoff ;;
            scan_loop later known_devices
        | Ok listing =>
            let current_devices := open_devices listing [] in
            let current_paths := map fst current_devices in
            let new_paths := set_minus current_paths known_devices in
            for_each new_paths (fun path_ =>
              match dict_get current_devices path_ with
              | Some device => _handle_device_connected device
              | None => raise (mkExn OtherException "KeyError")
              end) ;;
            let removed_paths := set_minus known_devices current_paths in
            for_each removed_paths _handle_device_disconnected ;;
            sleep poll_interval ;;
            scan_loop later current_paths
        end
  end.

(** [PluginManager._device_scan_loop] *)
Definition _device_scan_loop (obs : list Observation) : M PluginManager LoopExit :=
  sleep startup_delay ;;
  scan_loop obs [].

(** [PluginManager._start_device_monitoring]: sets the flag; the worker is
    [_device_scan_loop]. *)
Definition _start_device_monitoring : M PluginManager unit :=
  s <- get ;;
  put (set_running s true).

(** [PluginManager.start]; [_ensure_plugins_directory] creates the
    directory when it is missing, so discovery always finds one. *)
Definition start (listing : option (list Bundle)) : M PluginManager unit :=
  _discover_plugins (Some (match listing with Some l => l | None => [] end)) ;;
  _start_device_monitoring.

(** ** Manager operations as data *)

Inductive Op :=
| OpConnect (device : InputDevice)
| OpDisconnect (path_ : string)
| OpGetPanels (button_callback : Callback)
| OpGetPreset (device_name : string)
| OpApplyPreset (device_name : string) (settings : Settings)
| OpStop.

Definition run_op (op : Op) : M PluginManager unit :=
  match op with
  | OpConnect device => _handle_device_connected device
  | OpDisconnect path_ => _handle_device_disconnected path_
  | OpGetPanels cb => get_plugin_panels cb ;; ret tt
  | OpGetPreset n => get_plugin_preset_settings n ;; ret tt
  | OpApplyPreset n st => apply_plugin_preset_settings n st
  | OpStop => stop
  end.

(** A sequence of operations, each one run whatever the previous one
    returned or raised. *)
Fixpoint run_ops (ops : list Op) : M PluginManager unit :=
  match ops with
  | [] => ret tt
  | op :: rest => discard (run_op op) ;; run_ops rest
  end.

(** ** Vocabulary of the statements *)

(** [self._plugins.get(n)] *)
Definition find_plugin (n : string) (ps : list LoadedPlugin) : option LoadedPlugin :=
  find (fun p => String.eqb (name p) n) ps.

(** The calls into the code of plugin [n] among some events, in order. *)
Definition calls_of (n : string) (evs : list Event) : list (option nat * PanelCall) :=
  flat_map (fun ev =>
    match ev with
    | EvCall m i c => if String.eqb m n then [(i, c)] else []
    | _ => []
    end) evs.

(** The payloads of the events named [event] dispatched for plugin [n]. *)
Definition dispatched (event n : string) (evs : list Event) : list DispatchArg :=
  flat_map (fun ev =>
    match ev with
    | EvDispatch e m a =>
        if String.eqb e event && String.eqb m n then [a] else []
    | _ => []
    end) evs.

Definition panel_available (n : string) (evs : list Event) : list DispatchArg :=
  dispatched "plugin-panel-available" n evs.

Definition load_errors (n : string) (evs : list Event) : list DispatchArg :=
  dispatched "plugin-load-error" n evs.

(** The constructor calls made for plugin [n]. *)
Definition constructions (n : string) (evs : list Event) : list PanelCall :=
  flat_map (fun ev =>
    match ev with
    | EvCall m None (Construct t cb ctx) =>
        if String.eqb m n then [Construct t cb ctx] else []
    | _ => []
    end) evs.

(** The keys of the registry are distinct, as those of a dict are. *)
Definition registry_ok (s : PluginManager) : Prop :=
  NoDup (map name (_plugins s)).

(** Plugin code that never raises. *)
Definition quiet (p : LoadedPlugin) : Prop :=
  forall h c, behaviour (panel_class p) h c = Returns.

Definition construct_call (self : PluginManager) (p : LoadedPlugin) : PanelCall :=
  Construct (panel_title p) (_button_callback self)
    (mkContext (path p) (_config_path self)).

Definition instantiation_failed (p : LoadedPlugin) (e : PyExn) : list Event :=
  [EvDispatch "plugin-load-error" (name p)
     (ArgMessage ("Failed to instantiate panel: " ++ str_exn e)%string);
   EvPrint ("[PluginManager] Error creating panel for " ++ name p ++ ": "
            ++ str_exn e)%string].

(** The events of the replay loop: one [on_device_connected] call per
    device, each followed by a log line when it raised. *)
Inductive Replayed (n : string) (i : option nat)
  : list PluginDeviceInfo -> list Event -> Prop :=
| Replayed_nil : Replayed n i [] []
| Replayed_returned di devs evs :
    Replayed n i devs evs ->
    Replayed n i (di :: devs) (EvCall n i (on_device_connected di) :: evs)
| Replayed_raised di devs evs msg :
    Replayed n i devs evs ->
    Replayed n i (di :: devs)
      (EvCall n i (on_device_connected di) :: EvPrint msg :: evs).

(** The four ways [_instantiate_plugin_panel] runs on a record [p] at
    history [h]: the record afterwards and the events emitted. *)
Inductive Instantiated (self : PluginManager) (h : list Event) (p : LoadedPlugin)
  : LoadedPlugin -> list Event -> Prop :=
| Inst_constructor_raises e :
    behaviour (panel_class p) h (construct_call self p) = Raises e ->
    Instantiated self h p p
      (EvCall (name p) None (construct_call self p) :: instantiation_failed p e)
| Inst_init_raises e :
    behaviour (panel_class p) h (construct_call self p) = Returns ->
    behaviour (panel_class p)
      (h ++ [EvCall (name p) None (construct_call self p)]) (active (-2)) = Raises e ->
    Instantiated self h p (set_panel_instance p (Some (length h)))
      (EvCall (name p) None (construct_call self p)
       :: EvCall (name p) (Some (length h)) (active (-2))
       :: instantiation_failed p e)
| Inst_activate_raises e notes h1 :
    Replayed (name p) (Some (length h)) (connected_devices p) notes ->
    connected_devices p <> [] ->
    behaviour (panel_class p) h1 (active 1) = Raises e ->
    Instantiated self h p (set_panel_instance p (Some (length h)))
      (EvCall (name p) None (construct_call self p)
       :: EvCall (name p) (Some (length h)) (active (-2))
       :: notes
       ++ EvCall (name p) (Some (length h)) (active 1)
       :: instantiation_failed p e)
| Inst_done notes :
    Replayed (name p) (Some (length h)) (connected_devices p) notes ->
    Instantiated self h p (set_panel_instance p (Some (length h)))
      (EvCall (name p) None (construct_call self p)
       :: EvCall (name p) (Some (length h)) (active (-2))
       :: notes
       ++ (if 0 <? len (connected_devices p)
           then [EvCall (name p) (Some (length h)) (active 1)] else [])
       ++ [EvDispatch "plugin-panel-available" (name p)
             (ArgPanel (Some (length h)))]).

(** The plugin an event concerns. *)
Definition subject (ev : Event) : option string :=
  match ev with
  | EvCall m _ _ => Some m
  | EvDispatch _ m _ => Some m
  | _ => None
  end.

(** Events that concern plugin [n] or no plugin at all. *)
Definition about (n : string) (evs : list Event) : Prop :=
  Forall (fun ev => subject ev = Some n \/ subject ev = None) evs.

(** A projection of events that only keeps events of plugin [n]. *)
Definition selects {A} (n : string) (g : Event -> list A) : Prop :=
  forall ev, subject ev <> Some n -> g ev = [].

(** What a run of [for_plugins] does, record by record: [T h r p p' d] says
    that one run of the body at history [h] on record [p] gave [r], left
    [p'] and emitted [d].  The loop goes on after [Ok None] and is left
    otherwise, the remaining records untouched. *)
Inductive Ran {R}
    (T : list Event -> Result (option R) -> LoadedPlugin -> LoadedPlugin
         -> list Event -> Prop)
  : list Event -> Result (option R) -> list LoadedPlugin -> list LoadedPlugin
    -> list Event -> Prop :=
| Ran_nil h : Ran T h (Ok None) [] [] []
| Ran_next h p p' d r ps ps' ds :
    T h (Ok None) p p' d ->
    Ran T (h ++ d) r ps ps' ds ->
    Ran T h r (p :: ps) (p' :: ps') (d ++ ds)
| Ran_exit h p p' d r ps :
    T h r p p' d ->
    r <> Ok None ->
    Ran T h r (p :: ps) (p' :: ps) d.

Definition matched_line (p : LoadedPlugin) (device : InputDevice) : Event :=
  EvPrint ("[PluginManager] Device matched plugin '" ++ name p ++ "': "
           ++ dev_name device)%string.

(** [plugin.connected_devices.append(device_info)] *)
Definition add_device (p : LoadedPlugin) (device : InputDevice) : LoadedPlugin :=
  set_connected_devices p (connected_devices p ++ [device_info_of device]).

(** The events of forwarding one device to an existing panel. *)
Inductive Forwarded (n : string) (i : nat) (di : PluginDeviceInfo)
  : list Event -> Prop :=
| Fwd_done :
    Forwarded n i di
      [EvCall n (Some i) (on_device_connected di); EvCall n (Some i) (active 1)]
| Fwd_activation_raised msg :
    Forwarded n i di
      [EvCall n (Some i) (on_device_connected di); EvCall n (Some i) (active 1);
       EvPrint msg]
| Fwd_notification_raised msg :
    Forwarded n i di [EvCall n (Some i) (on_device_connected di); EvPrint msg].

(** One run of the loop body of [_handle_device_connected]. *)
Inductive Connected (self : PluginManager) (device : InputDevice)
    (h : list Event) (p : LoadedPlugin)
  : Result (option unit) -> LoadedPlugin -> list Event -> Prop :=
| Conn_error e :
    matches (matcher p) device = Raise e ->
    Connected self device h p (Raise e) p []
| Conn_no_match :
    matches (matcher p) device = Ok false ->
    Connected self device h p (Ok None) p []
| Conn_create p1 evs :
    matches (matcher p) device = Ok true ->
    panel_instance p = None ->
    _button_callback self <> None ->
    Instantiated self (h ++ [matched_line p device]) (add_device p device) p1 evs ->
    Connected self device h p (Ok None) p1 (matched_line p device :: evs)
| Conn_pending :
    matches (matcher p) device = Ok true ->
    panel_instance p = None ->
    _button_callback self = None ->
    Connected self device h p (Ok None) (add_device p device) [matched_line p device]
| Conn_forward i evs :
    matches (matcher p) device = Ok true ->
    panel_instance p = Some i ->
    Forwarded (name p) i (device_info_of device) evs ->
    Connected self device h p (Ok None) (add_device p device)
      (matched_line p device :: evs).

(** The events the disconnect handling of record [p] can emit. *)
Definition disconnect_event (p : LoadedPlugin) (ev : Event) : Prop :=
  match ev with
  | EvPrint _ => True
  | EvCall n i (on_device_disconnected _) => n = name p /\ i = panel_instance p
  | EvCall n i (active signal) =>
      n = name p /\ i = panel_instance p /\ signal = -1
  | _ => False
  end.

(** The devices a disconnect of [path_] leaves in a device list. *)
Definition other_paths (path_ : string) (l : list PluginDeviceInfo)
  : list PluginDeviceInfo :=
  filter (fun di => negb (String.eqb (info_path di) path_)) l.

(** One run of the loop body of [_handle_device_disconnected] on [p]. *)
Definition Disconnected (path_ : string) (h : list Event)
    (r : Result (option unit)) (p p' : LoadedPlugin) (evs : list Event) : Prop :=
  p' = set_connected_devices p (connected_devices p')
  /\ (r = Ok None \/ exists e, r = Raise e)
  /\ (r = Ok None -> connected_devices p' = other_paths path_ (connected_devices p))
  /\ (forall e, r = Raise e ->
        exists h1, behaviour (panel_class p) h1 (active (-1)) = Raises e)
  /\ (connected_devices p' = [] -> connected_devices p <> [] ->
      forall i, panel_instance p = Some i ->
        In (EvCall (name p) (Some i) (active (-1))) evs)
  /\ Forall (disconnect_event p) evs.

(** One run of the loop body of [get_plugin_panels]. *)
Inductive Demanded (self : PluginManager) (h : list Event) (p : LoadedPlugin)
  : LoadedPlugin -> list Event -> Prop :=
| Dem_no_device :
    connected_devices p = [] -> Demanded self h p p []
| Dem_existing i :
    connected_devices p <> [] -> panel_instance p = Some i ->
    Demanded self h p p []
| Dem_create p1 evs :
    connected_devices p <> [] -> panel_instance p = None ->
    Instantiated self h p p1 evs ->
    Demanded self h p p1 evs.

(** The events of the loop body of [stop] on record [p]. *)
Inductive ShutDown (p : LoadedPlugin) : list Event -> Prop :=
| Shut_no_panel :
    panel_instance p = None -> ShutDown p []
| Shut_returned i :
    panel_instance p = Some i ->
    ShutDown p [EvCall (name p) (Some i) shutdown]
| Shut_raised i msg :
    panel_instance p = Some i ->
    ShutDown p [EvCall (name p) (Some i) shutdown; EvPrint msg].

(** The events preset access to record [p] can emit. *)
Definition preset_event (p : LoadedPlugin) (ev : Event) : Prop :=
  match ev with
  | EvPrint _ => True
  | EvCall n i get_preset_settings => n = name p /\ i = panel_instance p
  | EvCall n i (on_preset_loaded _) => n = name p /\ i = panel_instance p
  | _ => False
  end.

(** The relations above as what [for_plugins] is run with. *)
Definition T_connected (self : PluginManager) (device : InputDevice)
    (h : list Event) (r : Result (option unit)) (p p' : LoadedPlugin)
    (d : list Event) : Prop :=
  Connected self device h p r p' d.

Definition T_disconnected (path_ : string)
    (h : list Event) (r : Result (option unit)) (p p' : LoadedPlugin)
    (d : list Event) : Prop :=
  Disconnected path_ h r p p' d.

Definition T_demanded (self : PluginManager)
    (h : list Event) (r : Result (option unit)) (p p' : LoadedPlugin)
    (d : list Event) : Prop :=
  r = Ok None /\ Demanded self h p p' d.

Definition T_stopped
    (h : list Event) (r : Result (option unit)) (p p' : LoadedPlugin)
    (d : list Event) : Prop :=
  r = Ok None /\ p' = p /\ ShutDown p d.

Definition T_preset {R}
    (h : list Event) (r : Result (option R)) (p p' : LoadedPlugin)
    (d : list Event) : Prop :=
  (exists o, r = Ok o) /\ p' = p /\ Forall (preset_event p) d.

(** A record keeps its name and, once it has one, its panel. *)
Definition keeps_panel (p p' : LoadedPlugin) : Prop :=
  name p' = name p
  /\ forall i, panel_instance p = Some i -> panel_instance p' = Some i.

(** ** Reference data for the examples

    [literal_search] is [re.search] on the patterns without regular
    expression metacharacters, where searching is looking for a substring
    (letters compared without case under [re.IGNORECASE]); other patterns
    are outside this reference and reported as [re.error]. *)

Definition lower (c : ascii) : ascii :=
  let n := N_of_ascii c in
  if (N.leb 65 n && N.leb n 90)%N then ascii_of_N (n + 32) else c.

Fixpoint is_prefix (eq : ascii -> ascii -> bool) (pattern s : string) : bool :=
  match pattern, s with
  | EmptyString, _ => true
  | String a pattern', String b s' => eq a b && is_prefix eq pattern' s'
  | String _ _, EmptyString => false
  end.

Fixpoint is_substring (eq : ascii -> ascii -> bool) (pattern s : string) : bool :=
  is_prefix eq pattern s
  || match s with
     | String _ s' => is_substring eq pattern s'
     | EmptyString => false
     end.

Definition is_metachar (c : ascii) : bool :=
  existsb (Ascii.eqb c)
    (list_ascii_of_string ".^$*+?{}[]\|()").

Definition literal_search (pattern s : string) (flags : Z) : Result bool :=
  if existsb is_metachar (list_ascii_of_string pattern) then
    Raise (mkExn ReError "pattern outside the literal fragment")
  else if Z.testbit flags 1 then
    Ok (is_substring (fun a b => Ascii.eqb (lower a) (lower b)) pattern s)
  else
    Ok (is_substring Ascii.eqb pattern s).

(** The scenario of the specification: plugin ["wheel"] with the rule
    [{vendor_id: "0x1234", product_id: "0x5678"}] and the device
    ["ACME Wheel"] at [/dev/input/event7]. *)
Definition well_behaved : PanelClass :=
  mkPanelClass true "wheel-preset" (fun _ => []) (fun _ _ => Returns).

Definition wheel_rule : Rule :=
  mkRule (Some (IdStr "0x1234")) (Some (IdStr "0x5678")) None.

Definition wheel_metadata : Metadata :=
  mkMetadata (Some "wheel") (Some "WheelPanel") None (Some [wheel_rule]).

Definition wheel_plugin : LoadedPlugin :=
  mkLoadedPlugin "wheel" wheel_metadata well_behaved (mkMatcher "wheel" [wheel_rule])
    "/cfg/plugins/wheel" None [].

Definition acme_wheel : InputDevice :=
  mkInputDevice "/dev/input/event7" "ACME Wheel" 0x1234 0x5678.

(** A second plugin that claims any device whose name contains "wheel". *)
Definition pedals_rule : Rule := mkRule None None (Some "Wheel").

Definition pedals_plugin : LoadedPlugin :=
  mkLoadedPlugin "pedals"
    (mkMetadata (Some "pedals") (Some "PedalsPanel") (Some "Pedals")
       (Some [pedals_rule]))
    well_behaved (mkMatcher "pedals" [pedals_rule]) "/cfg/plugins/pedals" None [].

Definition wheel_manager : PluginManager :=
  mkManager "/cfg" "/cfg/plugins" [wheel_plugin; pedals_plugin] true None.

Definition wheel_session : list Op :=
  [OpConnect acme_wheel; OpGetPanels 7%nat; OpGetPreset "wheel-preset";
   OpDisconnect "/dev/input/event7"; OpConnect acme_wheel; OpStop].

(** What one loop-body run on record [p] guarantees about the panel of
    [p]: at most one constructor call, answered by exactly one of "panel
    available" and a load error; a panel appears only through it, with a
    device present and a callback known; and "panel available" carries the
    new instance, activated. *)
Definition lifecycle_step (callback : option Callback) (p p' : LoadedPlugin)
    (d : list Event) : Prop :=
  (length (constructions (name p) d) <= 1)%nat
  /\ (length (panel_available (name p) d) + length (load_errors (name p) d)
      = length (constructions (name p) d))%nat
  /\ (panel_instance p <> None -> constructions (name p) d = [])
  /\ (panel_instance p = None -> forall i, panel_instance p' = Some i ->
        length (constructions (name p) d) = 1%nat
        /\ connected_devices p' <> [] /\ callback <> None)
  /\ (forall a, In a (panel_available (name p) d) ->
        exists i, a = ArgPanel (Some i)
                  /\ panel_instance p = None /\ panel_instance p' = Some i
                  /\ connected_devices p' <> [] /\ callback <> None
                  /\ In (EvCall (name p) (Some i) (active 1)) d).

(** Events that are neither a constructor call nor a dispatch. *)
Definition plain_event (ev : Event) : Prop :=
  match ev with
  | EvCall _ _ (Construct _ _ _) => False
  | EvDispatch _ _ _ => False
  | _ => True
  end.

Definition is_demand (op : Op) : Prop :=
  match op with
  | OpConnect _ | OpGetPanels _ => True
  | _ => False
  end.

Definition same_panel (p p' : LoadedPlugin) : Prop :=
  panel_instance p' = panel_instance p.

(** A constructor call is only made for a record that has no panel. *)
Definition constructs_only_without_panel (ps : list LoadedPlugin) (ev : Event) : Prop :=
  match ev with
  | EvCall m None (Construct _ _ _) =>
      exists p, In p ps /\ name p = m /\ panel_instance p = None
  | _ => True
  end.

(** Hexadecimal notation as the specification means it: a non-empty run of
    hexadecimal digits, with or without the prefix [0x], denotes the number
    it spells in base sixteen; a rule value given as an integer denotes
    itself. *)
Definition hex_digit (c : ascii) : option Z :=
  match digit_value c with
  | Some d => if d <? 16 then Some d else None
  | None => None
  end.

Fixpoint hex_value (digits : list ascii) (acc : Z) : option Z :=
  match digits with
  | [] => Some acc
  | c :: rest =>
      match hex_digit c with
      | Some d => hex_value rest (16 * acc + d)
      | None => None
      end
  end.

Inductive denotes_hex : string -> Z -> Prop :=
| hex_plain digits n :
    digits <> [] -> hex_value digits 0 = Some n ->
    denotes_hex (string_of_list_ascii digits) n
| hex_prefixed x digits n :
    x = "x"%char \/ x = "X"%char ->
    digits <> [] -> hex_value digits 0 = Some n ->
    denotes_hex (String "0" (String x (string_of_list_ascii digits))) n.

Inductive denotes : IdValue -> Z -> Prop :=
| denotes_int n : denotes (IdInt n) n
| denotes_str s n : denotes_hex s n -> denotes (IdStr s) n.

(** The log line of a failed enumeration. *)
Definition listing_error (e : PyExn) : Event :=
  EvPrint ("[PluginManager] Error listing devices: " ++ str_exn e)%string.

(** A panel class whose [active(-1)] raises, one whose
    [on_device_disconnected] raises, and a registry in which two plugins
    with panels share the device of the scenario. *)
Definition deactivation_failed : PyExn := mkExn OtherException "deactivation failed".

Definition raises_on_deactivate : PanelClass :=
  mkPanelClass true "wheel-preset" (fun _ => [])
    (fun _ c =>
       match c with
       | active signal => if signal =? -1 then Raises deactivation_failed else Returns
       | _ => Returns
       end).

Definition raises_on_notify : PanelClass :=
  mkPanelClass true "wheel-preset" (fun _ => [])
    (fun _ c =>
       match c with
       | on_device_disconnected _ => Raises (mkExn OtherException "notification failed")
       | _ => Returns
       end).

Definition acme_info : PluginDeviceInfo :=
  mkDeviceInfo "ACME Wheel" 0x1234 0x5678 "/dev/input/event7".

Definition with_panel (cls : PanelClass) (i : nat) (p : LoadedPlugin) : LoadedPlugin :=
  mkLoadedPlugin (name p) (metadata p) cls (matcher p) (path p) (Some i) [acme_info].

Definition fragile_manager : PluginManager :=
  mkManager "/cfg" "/cfg/plugins"
    [with_panel raises_on_deactivate 0 wheel_plugin;
     with_panel well_behaved 1 pedals_plugin]
    true (Some 7%nat).

Definition noisy_manager : PluginManager :=
  mkManager "/cfg" "/cfg/plugins"
    [with_panel raises_on_notify 0 wheel_plugin;
     with_panel well_behaved 1 pedals_plugin]
    true (Some 7%nat).

(** Bundles: two that load, one without [plugin.json], one whose
    [panel_class] names a function of the module, one whose class does not
    extend [PluginPanel]. *)
Definition wheel_bundle : Bundle :=
  mkBundle "wheel" true true true (Ok wheel_metadata)
    (Ok [("WheelPanel", PyClass well_behaved)]).

Definition pedals_bundle : Bundle :=
  mkBundle "pedals" true true true (Ok (metadata pedals_plugin))
    (Ok [("PedalsPanel", PyClass well_behaved)]).

Definition no_metadata_bundle : Bundle :=
  mkBundle "broken" true false true
    (Raise (mkExn OtherException "FileNotFoundError")) (Ok []).

Definition function_factory_bundle : Bundle :=
  mkBundle "gearbox" true true true
    (Ok (mkMetadata (Some "gearbox") (Some "make_panel") None (Some [])))
    (Ok [("make_panel", PyNotClass)]).

Definition unrelated_class_bundle : Bundle :=
  mkBundle "gearbox" true true true
    (Ok (mkMetadata (Some "gearbox") (Some "Gearbox") None (Some [])))
    (Ok [("Gearbox", PyClass (mkPanelClass false "" (fun _ => []) (fun _ _ => Returns)))]).

Definition not_a_class : PyExn := mkExn TypeError "issubclass() arg 1 must be a class".

(** Observations of the scan loop: a failed and an empty enumeration. *)
Definition failed_scan : Observation :=
  mkObservation [] (Raise (mkExn OtherException "device subsystem unavailable")).

Definition empty_scan : Observation := mkObservation [] (Ok []).

(** The registry of the scenario once the host has supplied its callback,
    and once both plugins have a panel and the device. *)
Definition ready_manager : PluginManager :=
  mkManager "/cfg" "/cfg/plugins" [wheel_plugin; pedals_plugin] true (Some 7%nat).

Definition active_manager : PluginManager :=
  mkManager "/cfg" "/cfg/plugins"
    [with_panel well_behaved 0 wheel_plugin;
     with_panel well_behaved 1 pedals_plugin]
    true (Some 7%nat).

Definition racing_wheel : InputDevice :=
  mkInputDevice "/dev/input/event9" "Racing WHEEL Pro" 1 2.

(** What the loader decides for a bundle: a record, a reported load error
    (the dispatched message and the log line), or an exception that nothing
    catches. *)
Inductive LoadOutcome :=
| Loaded (p : LoadedPlugin)
| Rejected (message log_line : string)
| Crashed (e : PyExn).

Definition load_outcome (name_ path_ : string) (dir : Bundle) : LoadOutcome :=
  if negb (has_plugin_json dir) then
    Rejected "Missing plugin.json" "Missing plugin.json"
  else if negb (has_init_py dir) then
    Rejected "Missing __init__.py" "Missing __init__.py"
  else
    match json_load dir with
    | Raise e =>
        if is_JSONDecodeError e
        then Rejected ("Invalid plugin.json: " ++ str_exn e)%string
               ("Invalid plugin.json: " ++ str_exn e)%string
        else Crashed e
    | Ok md =>
        match find (fun field => negb (has_field field md)) required_fields with
        | Some field =>
            Rejected ("Missing required field: " ++ field)%string
              ("Missing field: " ++ field)%string
        | None =>
            match exec_module dir with
            | Raise e =>
                Rejected ("Failed to load module: " ++ str_exn e)%string
                  ("Failed to load module: " ++ str_exn e)%string
            | Ok module =>
                match md_panel_class md with
                | None => Crashed (mkExn OtherException "KeyError: 'panel_class'")
                | Some cls_name =>
                    match module_getattr module cls_name with
                    | None =>
                        Rejected ("Panel class not found: " ++ cls_name)%string
                          ("Panel class not found: " ++ cls_name)%string
                    | Some PyNotClass =>
                        Crashed (mkExn TypeError "issubclass() arg 1 must be a class")
                    | Some (PyClass cls) =>
                        if extends_PluginPanel cls then
                          Loaded
                            (mkLoadedPlugin name_ md cls
                               (mkMatcher name_
                                  (match md_devices md with
                                   | Some l => l
                                   | None => []
                                   end))
                               path_ None [])
                        else
                          Rejected "Panel class must extend PluginPanel"
                            "Panel class must extend PluginPanel"
                    end
                end
            end
        end
    end.

Definition loads (plugins_path : string) (b : Bundle) : bool :=
  match load_outcome (entry b) (path_join plugins_path (entry b)) b with
  | Loaded _ => true
  | _ => false
  end.

Definition rejected (plugins_path : string) (b : Bundle) : bool :=
  match load_outcome (entry b) (path_join plugins_path (entry b)) b with
  | Rejected _ _ => true
  | _ => false
  end.

Definition crashes (plugins_path : string) (b : Bundle) : bool :=
  match load_outcome (entry b) (path_join plugins_path (entry b)) b with
  | Crashed _ => true
  | _ => false
  end.

(** The load errors dispatched among some events, with the plugin named. *)
Definition all_load_errors (d : list Event) : list (string * DispatchArg) :=
  flat_map (fun ev =>
    match ev with
    | EvDispatch e m a =>
        if String.eqb e "plugin-load-error" then [(m, a)] else []
    | _ => []
    end) d.

(** ** Vocabulary of the further properties *)

(** [True] returned, as opposed to [False] or an exception. *)
Definition yields_true (r : Result bool) : bool :=
  match r with Ok true => true | _ => false end.

(** A rule with a vendor name where a hexadecimal id belongs, the plugin that
    ships it, and a registry where that plugin sits between the two plugins
    of the scenario. *)
Definition vendor_only_rule : Rule := mkRule (Some (IdStr "logitech")) None None.

Definition shifter_rule : Rule :=
  mkRule (Some (IdStr "logitech")) (Some (IdInt 1)) (Some "Wheel").

Definition shifter_plugin : LoadedPlugin :=
  mkLoadedPlugin "shifter"
    (mkMetadata (Some "shifter") (Some "ShifterPanel") None (Some [shifter_rule]))
    well_behaved (mkMatcher "shifter" [shifter_rule]) "/cfg/plugins/shifter" None [].

Definition misconfigured_manager : PluginManager :=
  mkManager "/cfg" "/cfg/plugins" [wheel_plugin; shifter_plugin; pedals_plugin]
    true (Some 7%nat).

(** Observations of the scan loop in which the wheel is listed, and one in
    which the host has called [stop]. *)
Definition wheel_scan : Observation :=
  mkObservation [] (Ok [("/dev/input/event7", Some acme_wheel)]).

Definition stop_scan : Observation :=
  mkObservation [HostStop] (Ok [("/dev/input/event7", Some acme_wheel)]).

(** The test both preset operations apply to a record: it has a panel, and
    the panel's [preset_device_name] is the name asked for. *)
Definition handles_preset (device_name : string) (p : LoadedPlugin) : bool :=
  truthy (panel_instance p)
  && String.eqb (preset_device_name (panel_class p)) device_name.

(** A panel class whose [get_preset_settings] raises, and a registry where
    it comes first of two panels that answer to the same preset name. *)
Definition raises_on_get_preset : PanelClass :=
  mkPanelClass true "wheel-preset" (fun _ => [])
    (fun _ c =>
       match c with
       | get_preset_settings => Raises (mkExn OtherException "no settings yet")
       | _ => Returns
       end).

Definition preset_manager : PluginManager :=
  mkManager "/cfg" "/cfg/plugins"
    [with_panel raises_on_get_preset 0 wheel_plugin;
     with_panel well_behaved 1 pedals_plugin]
    true (Some 7%nat).

(** The calls into plugin code among some events, with the plugin
    addressed, in order. *)
Definition plugin_calls (evs : list Event) : list (string * option nat * PanelCall) :=
  flat_map (fun ev =>
    match ev with
    | EvCall m i c => [(m, i, c)]
    | _ => []
    end) evs.

(** A panel class whose [on_device_connected] raises, and a record of it
    that holds two devices and has no panel yet. *)
Definition raises_on_connect_notify : PanelClass :=
  mkPanelClass true "wheel-preset" (fun _ => [])
    (fun _ c =>
       match c with
       | on_device_connected _ => Raises (mkExn OtherException "not ready")
       | _ => Returns
       end).

Definition pedal_info : PluginDeviceInfo :=
  mkDeviceInfo "ACME Pedals" 0x1234 0x9abc "/dev/input/event8".

Definition waiting_plugin : LoadedPlugin :=
  mkLoadedPlugin "wheel" wheel_metadata raises_on_connect_notify
    (mkMatcher "wheel" [wheel_rule]) "/cfg/plugins/wheel" None [acme_info; pedal_info].

(** A panel class whose first [active(-2)] raises, a record of it that holds
    the wheel and has no panel yet, and its registry. *)
Definition init_failed : PyExn := mkExn OtherException "widget tree not built".

Definition raises_on_init : PanelClass :=
  mkPanelClass true "wheel-preset" (fun _ => [])
    (fun _ c =>
       match c with
       | active signal => if signal =? -2 then Raises init_failed else Returns
       | _ => Returns
       end).

Definition stuck_plugin : LoadedPlugin :=
  mkLoadedPlugin "wheel" wheel_metadata raises_on_init
    (mkMatcher "wheel" [wheel_rule]) "/cfg/plugins/wheel" None [acme_info].

Definition stuck_manager : PluginManager :=
  mkManager "/cfg" "/cfg/plugins" [stuck_plugin; pedals_plugin] true None.


(** A second device of the wheel's vendor and product, and a registry in
    which a plugin with a malformed rule comes before the wheel, the wheel
    holding its device and its panel. *)
Definition spare_wheel : InputDevice :=
  mkInputDevice "/dev/input/event9" "ACME Spare" 0x1234 0x5678.


(** ** The monad and the loops *)

Lemma bind_ret {S A B} (a : A) (f : A -> M S B) h s :
  bind (ret a) f h s = f a h s.
Proof.
  unfold bind, ret. rewrite app_nil_r. now destruct (f a h s) as [[r s2] d2].
Qed.

Lemma bind_get {S B} (f : S -> M S B) h s :
  bind get f h s = f s h s.
Proof.
  unfold bind, get. rewrite app_nil_r. now destruct (f s h s) as [[r s2] d2].
Qed.

Lemma bind_put {S B} (s0 : S) (f : unit -> M S B) h s :
  bind (put s0) f h s = f tt h s0.
Proof.
  unfold bind, put. rewrite app_nil_r. now destruct (f tt h s0) as [[r s2] d2].
Qed.

Lemma bind_plugin {X B} (f : LoadedPlugin -> M (LoadedPlugin * X) B) h p x :
  bind plugin f h (p, x) = f p h (p, x).
Proof.
  unfold bind, plugin. cbn [fst]. rewrite app_nil_r.
  now destruct (f p h (p, x)) as [[r s2] d2].
Qed.

Lemma bind_carried {X B} (f : X -> M (LoadedPlugin * X) B) h p x :
  bind carried f h (p, x) = f x h (p, x).
Proof.
  unfold bind, carried. cbn [snd]. rewrite app_nil_r.
  now destruct (f x h (p, x)) as [[r s2] d2].
Qed.

Lemma bind_update_plugin {X B} g (f : unit -> M (LoadedPlugin * X) B) h p x :
  bind (update_plugin g) f h (p, x) = f tt h (g p, x).
Proof.
  unfold bind, update_plugin. cbn [fst snd]. rewrite app_nil_r.
  now destruct (f tt h (g p, x)) as [[r s2] d2].
Qed.

Lemma bind_emit {S B} ev (f : unit -> M S B) h s :
  bind (emit ev) f h s
  = match f tt (h ++ [ev]) s with (r, s2, d2) => (r, s2, ev :: d2) end.
Proof. reflexivity. Qed.

Lemma bind_lift_ok {S A B} (a : A) (f : A -> M S B) h s :
  bind (lift (Ok a)) f h s = f a h s.
Proof.
  unfold bind, lift. rewrite app_nil_r. now destruct (f a h s) as [[r s2] d2].
Qed.

Lemma bind_lift_raise {S A B} e (f : A -> M S B) h (s : S) :
  bind (lift (Raise e)) f h s = (Raise e, s, []).
Proof. reflexivity. Qed.

Lemma bind_assoc {S A B C} (m : M S A) (f : A -> M S B) (g : B -> M S C) h s :
  bind (bind m f) g h s = bind m (fun a => bind (f a) g) h s.
Proof.
  unfold bind.
  destruct (m h s) as [[[a|e] s1] d1]; [|reflexivity].
  destruct (f a (h ++ d1) s1) as [[[b|e] s2] d2]; [|reflexivity].
  rewrite <- app_assoc.
  destruct (g b (h ++ d1 ++ d2) s2) as [[r s3] d3].
  now rewrite app_assoc.
Qed.

Lemma bind_ok {S A B} (m : M S A) (f : A -> M S B) h s a s1 d1 :
  m h s = (Ok a, s1, d1) ->
  bind m f h s = match f a (h ++ d1) s1 with (r, s2, d2) => (r, s2, d1 ++ d2) end.
Proof. intros E. unfold bind. now rewrite E. Qed.

Lemma bind_raise {S A B} (m : M S A) (f : A -> M S B) h s e s1 d1 :
  m h s = (Raise e, s1, d1) ->
  bind m f h s = (Raise e, s1, d1).
Proof. intros E. unfold bind. now rewrite E. Qed.

Lemma call_panel_run {X} c h (p : LoadedPlugin) (x : X) :
  call_panel c h (p, x)
  = (match behaviour (panel_class p) h c with
     | Returns => Ok tt
     | Raises e => Raise e
     end, (p, x), [EvCall (name p) (panel_instance p) c]).
Proof.
  unfold call_panel. cbn [fst]. now destruct (behaviour (panel_class p) h c).
Qed.

Lemma replay_runs {X} (devs : list PluginDeviceInfo) h (p : LoadedPlugin) (x : X) :
  exists notes,
    for_each devs notify_existing_device h (p, x) = (Ok tt, (p, x), notes)
    /\ Replayed (name p) (panel_instance p) devs notes.
Proof.
  revert h. induction devs as [|di devs IH]; intros h.
  - exists []. split; [reflexivity | constructor].
  - cbn [for_each]. unfold bind, notify_existing_device at 1, try_except.
    rewrite call_panel_run.
    destruct (behaviour (panel_class p) h (on_device_connected di)) as [|e].
    + destruct (IH (h ++ [EvCall (name p) (panel_instance p) (on_device_connected di)]))
        as [notes [E R]].
      rewrite E. eexists; split; [reflexivity|]. cbn [app]. now constructor.
    + unfold print, emit.
      match goal with |- context [for_each devs notify_existing_device ?h' _] =>
        destruct (IH h') as [notes [E R]] end.
      rewrite E. eexists; split; [reflexivity|]. cbn [app]. now constructor.
Qed.

Lemma instantiate_runs {X} self h (p : LoadedPlugin) (x : X) :
  exists p' evs,
    _instantiate_plugin_panel self h (p, x) = (Ok tt, (p', x), evs)
    /\ Instantiated self h p p' evs.
Proof.
  unfold _instantiate_plugin_panel, try_except.
  rewrite bind_plugin. fold (construct_call self p).
  unfold bind at 1. unfold construct_panel. cbn [fst snd].
  destruct (behaviour (panel_class p) h (construct_call self p)) as [|e] eqn:Ec.
  2:{ exists p, (EvCall (name p) None (construct_call self p) :: instantiation_failed p e).
      split; [reflexivity | now constructor]. }
  set (p1 := set_panel_instance p (Some (length h))).
  set (ctor := EvCall (name p) None (construct_call self p)).
  unfold bind at 1. rewrite call_panel_run.
  change (name p1) with (name p). change (panel_class p1) with (panel_class p).
  change (panel_instance p1) with (Some (length h)).
  destruct (behaviour (panel_class p) (h ++ [ctor]) (active (-2))) as [|e] eqn:Ei.
  2:{ exists p1, (ctor :: EvCall (name p) (Some (length h)) (active (-2))
                  :: instantiation_failed p e).
      split; [reflexivity | now constructor]. }
  rewrite bind_plugin. change (connected_devices p1) with (connected_devices p).
  unfold bind at 1.
  match goal with |- context [for_each (connected_devices p) notify_existing_device ?h' _] =>
    destruct (replay_runs (connected_devices p) h' p1 x) as [notes [E R]] end.
  rewrite E. change (name p1) with (name p) in R.
  change (panel_instance p1) with (Some (length h)) in R.
  rewrite bind_plugin. change (connected_devices p1) with (connected_devices p).
  unfold when.
  destruct (0 <? len (connected_devices p)) eqn:Hlen.
  - unfold bind at 1. rewrite call_panel_run.
    change (name p1) with (name p). change (panel_class p1) with (panel_class p).
    change (panel_instance p1) with (Some (length h)).
    match goal with |- context [behaviour (panel_class p) ?h' (active 1)] =>
      destruct (behaviour (panel_class p) h' (active 1)) as [|e] eqn:Ea end.
    + rewrite bind_plugin. unfold _dispatch, emit.
      change (name p1) with (name p). change (panel_instance p1) with (Some (length h)).
      eexists p1, _. split; [reflexivity|].
      cbn [app].
      replace (notes ++ [EvCall (name p) (Some (length h)) (active 1);
                         EvDispatch "plugin-panel-available" (name p)
                           (ArgPanel (Some (length h)))])
        with (notes ++ (if 0 <? len (connected_devices p)
                        then [EvCall (name p) (Some (length h)) (active 1)] else [])
                    ++ [EvDispatch "plugin-panel-available" (name p)
                          (ArgPanel (Some (length h)))])
        by (rewrite Hlen; reflexivity).
      now constructor.
    + rewrite bind_plugin. unfold bind, _dispatch, print, emit.
      change (name p1) with (name p).
      eexists p1, _. split; [reflexivity|].
      cbn [app]. rewrite <- !app_assoc. cbn [app].
      eapply Inst_activate_raises; eauto.
      intro Hnil. rewrite Hnil in Hlen. discriminate.
  - rewrite bind_ret. rewrite bind_plugin. unfold _dispatch, emit.
    change (name p1) with (name p). change (panel_instance p1) with (Some (length h)).
    eexists p1, _. split; [reflexivity|].
    cbn [app].
    replace (notes ++ [EvDispatch "plugin-panel-available" (name p)
                           (ArgPanel (Some (length h)))])
        with (notes ++ (if 0 <? len (connected_devices p)
                        then [EvCall (name p) (Some (length h)) (active 1)] else [])
                    ++ [EvDispatch "plugin-panel-available" (name p)
                          (ArgPanel (Some (length h)))])
        by (rewrite Hlen; reflexivity).
    now constructor.
Qed.

Section Loops.

Context {X R : Type}.
Variable body : M (LoadedPlugin * X) (option R).
Variable T : list Event -> Result (option R) -> LoadedPlugin -> LoadedPlugin
             -> list Event -> Prop.
Hypothesis body_T :
  forall h p x r p' x' d, body h (p, x) = (r, (p', x'), d) -> T h r p p' d.

Lemma for_plugins_Ran ps :
  forall h x r ps' x' d,
    for_plugins body ps h x = (r, (ps', x'), d) -> Ran T h r ps ps' d.
Proof using body_T.
  induction ps as [|p ps IH]; intros h x r ps' x' d E; cbn [for_plugins] in E.
  - inversion E; subst. constructor.
  - destruct (body h (p, x)) as [[rb [p1 x1]] d1] eqn:Eb.
    apply body_T in Eb.
    destruct rb as [[r0|]|e].
    + inversion E; subst. apply Ran_exit; [assumption | discriminate].
    + destruct (for_plugins body ps (h ++ d1) x1) as [[r2 [rest1 x2]] d2] eqn:Er.
      inversion E; subst. eapply Ran_next; eauto.
    + inversion E; subst. apply Ran_exit; [assumption | discriminate].
Qed.

Lemma with_plugins_Ran x0 h s r s' d :
  with_plugins x0 body h s = (r, s', d) ->
  exists r0,
    Ran T h r0 (_plugins s) (_plugins s') d
    /\ s' = set_plugins s (_plugins s')
    /\ match r0 with
       | Ok o => exists x, r = Ok (o, x)
       | Raise e => r = Raise e
       end.
Proof using body_T.
  unfold with_plugins. intros E.
  destruct (for_plugins body (_plugins s) h x0) as [[r0 [ps x]] d0] eqn:Ef.
  apply for_plugins_Ran in Ef.
  destruct r0 as [o|e]; inversion E; subst; cbn.
  - exists (Ok o). repeat split; eauto.
  - exists (Raise e). repeat split; eauto.
Qed.

End Loops.

Section RanFacts.

Context {R : Type}.
Variable T : list Event -> Result (option R) -> LoadedPlugin -> LoadedPlugin
             -> list Event -> Prop.

Lemma Ran_Forall2 (Q : LoadedPlugin -> LoadedPlugin -> Prop) :
  (forall p, Q p p) ->
  (forall h r p p' d, T h r p p' d -> Q p p') ->
  forall h r ps ps' d, Ran T h r ps ps' d -> Forall2 Q ps ps'.
Proof.
  intros Qrefl QT h r ps ps' d H. induction H.
  - constructor.
  - constructor; eauto.
  - constructor; eauto. clear - Qrefl. induction ps; constructor; auto.
Qed.

Lemma Ran_events (P : Event -> Prop) :
  (forall h r p p' d, T h r p p' d -> Forall P d) ->
  forall h r ps ps' d, Ran T h r ps ps' d -> Forall P d.
Proof.
  intros PT h r ps ps' d H. induction H.
  - constructor.
  - apply Forall_app; split; eauto.
  - eauto.
Qed.

Lemma Ran_completes :
  forall h r ps ps' d,
    Ran T h r ps ps' d ->
    (forall h1 r1 p p' d1, In p ps -> T h1 r1 p p' d1 -> r1 = Ok None) ->
    r = Ok None.
Proof.
  intros h r ps ps' d H. induction H; intros Hall.
  - reflexivity.
  - apply IHRan. intros. eapply Hall; eauto. now right.
  - eapply Hall; eauto. now left.
Qed.

Lemma about_flat_map {A} (g : Event -> list A) m n evs :
  about m evs -> m <> n -> selects n g -> flat_map g evs = [].
Proof.
  intros Ha Hmn Hg. induction Ha as [|ev evs Hev _ IH]; [reflexivity|].
  cbn [flat_map]. rewrite IH, app_nil_r. apply Hg.
  destruct Hev as [Hev|Hev]; rewrite Hev; congruence.
Qed.

Hypothesis T_name : forall h r p p' d, T h r p p' d -> name p' = name p.
Hypothesis T_about : forall h r p p' d, T h r p p' d -> about (name p) d.

Lemma Ran_names h r ps ps' d :
  Ran T h r ps ps' d -> map name ps' = map name ps.
Proof using T_name.
  intros H. induction H; cbn [map].
  - reflexivity.
  - f_equal; eauto.
  - f_equal; eauto.
Qed.

Lemma Ran_others {A} (g : Event -> list A) n h r ps ps' d :
  Ran T h r ps ps' d ->
  ~ In n (map name ps) -> selects n g -> flat_map g d = [].
Proof using T_about.
  intros H Hn Hg. induction H; cbn [map In] in Hn.
  - reflexivity.
  - rewrite flat_map_app, IHRan by (intros Hx; apply Hn; now right).
    rewrite app_nil_r.
    eapply about_flat_map; eauto.
  - eapply about_flat_map; eauto.
Qed.

(** The record named [n]: either the loop ran the body on it, and what the
    whole loop emitted about [n] is what that run emitted, or the loop was
    left before reaching it. *)
Lemma Ran_at n p h r ps ps' d :
  Ran T h r ps ps' d ->
  NoDup (map name ps) ->
  find_plugin n ps = Some p ->
  exists p',
    find_plugin n ps' = Some p'
    /\ ((exists h1 r1 d1,
           T h1 r1 p p' d1
           /\ (r = Ok None -> r1 = Ok None)
           /\ incl d1 d
           /\ forall A (g : Event -> list A), selects n g ->
                flat_map g d = flat_map g d1)
        \/ (p' = p /\ r <> Ok None
            /\ forall A (g : Event -> list A), selects n g -> flat_map g d = [])).
Proof using T_name T_about.
  unfold find_plugin.
  intros H. induction H; intros Hnd Hf; cbn [map find] in *.
  - discriminate.
  - inversion Hnd as [|? ? Hnotin Hnd']; subst.
    rewrite (T_name _ _ _ _ _ H).
    destruct (String.eqb (name p0) n) eqn:En.
    + inversion Hf; subst p0. apply String.eqb_eq in En. subst n.
      exists p'. split; [reflexivity|]. left. exists h, (Ok None), d.
      splits; auto.
      * apply incl_appl, incl_refl.
      * intros A g Hg. rewrite flat_map_app.
        rewrite (Ran_others g (name p) _ _ _ _ _ H0 Hnotin Hg). now rewrite app_nil_r.
    + destruct (IHRan Hnd' Hf) as [p1 [Hf1 Hcase]].
      exists p1. split; [assumption|].
      assert (Hne : name p0 <> n) by (now apply String.eqb_neq).
      destruct Hcase as [[h1 [r1 [d1 [HT [Hr [Hi Hg]]]]]]|[Heq [Hr Hg]]].
      * left. exists h1, r1, d1. splits; auto.
        -- now apply incl_appr.
        -- intros A g Hsel. rewrite flat_map_app, (Hg A g Hsel).
           now rewrite (about_flat_map g (name p0) n d (T_about _ _ _ _ _ H) Hne Hsel).
      * right. splits; auto.
        intros A g Hsel. rewrite flat_map_app, (Hg A g Hsel).
        now rewrite (about_flat_map g (name p0) n d (T_about _ _ _ _ _ H) Hne Hsel).
  - rewrite (T_name _ _ _ _ _ H).
    destruct (String.eqb (name p0) n) eqn:En.
    + inversion Hf; subst p0.
      exists p'. split; [reflexivity|]. left. exists h, r, d.
      splits; auto. apply incl_refl.
    + exists p. split; [assumption|]. right. splits; auto.
      intros A g Hsel. apply String.eqb_neq in En.
      eapply about_flat_map; eauto.
Qed.

End RanFacts.

Lemma connected_body_runs self device h p x r p' x' d :
  connected_body self device h (p, x) = (r, (p', x'), d) ->
  Connected self device h p r p' d.
Proof.
  unfold connected_body. rewrite bind_plugin.
  destruct (matches (matcher p) device) as [[|]|e] eqn:Em.
  - rewrite bind_lift_ok. unfold when.
    unfold bind at 1. rewrite bind_update_plugin.
    fold (add_device p device). unfold print at 1. rewrite bind_emit.
    fold (matched_line p device).
    rewrite bind_plugin.
    change (panel_instance (add_device p device)) with (panel_instance p).
    destruct (panel_instance p) as [i|] eqn:Ei; cbn [is_none andb].
    + rewrite bind_ret, bind_plugin.
      change (panel_instance (add_device p device)) with (panel_instance p).
      rewrite Ei. cbn [truthy andb negb].
      unfold try_except, bind at 1. rewrite call_panel_run.
      change (name (add_device p device)) with (name p).
      change (panel_class (add_device p device)) with (panel_class p).
      change (panel_instance (add_device p device)) with (panel_instance p).
      rewrite Ei.
      match goal with |- context [behaviour (panel_class p) ?h' (on_device_connected ?di)] =>
        destruct (behaviour (panel_class p) h' (on_device_connected di)) end.
      * rewrite call_panel_run.
        change (name (add_device p device)) with (name p).
        change (panel_class (add_device p device)) with (panel_class p).
        change (panel_instance (add_device p device)) with (panel_instance p).
        rewrite Ei.
        match goal with |- context [behaviour (panel_class p) ?h' (active 1)] =>
          destruct (behaviour (panel_class p) h' (active 1)) end;
          unfold print, emit, ret; cbn [app];
          intros E; inversion E; subst;
          eapply Conn_forward; first [eassumption | constructor].
      * unfold print, emit, ret; cbn [app].
        intros E; inversion E; subst.
        eapply Conn_forward; first [eassumption | constructor].
    + destruct (_button_callback self) as [cb|] eqn:Ecb; cbn [is_none negb].
      * rewrite bind_assoc.
        destruct (instantiate_runs self (h ++ [matched_line p device])
                    (add_device p device) x) as [p1 [evs [E I]]].
        rewrite (bind_ok _ _ _ _ _ _ _ E).
        rewrite bind_ret, bind_plugin. cbn [negb andb].
        rewrite andb_false_r. unfold ret. rewrite !app_nil_r.
        intros E'; inversion E'; subst.
        apply Conn_create; auto. rewrite Ecb. discriminate.
      * rewrite bind_ret, bind_plugin.
        change (panel_instance (add_device p device)) with (panel_instance p).
        rewrite Ei. cbn [truthy andb]. unfold ret.
        intros E'; inversion E'; subst. now apply Conn_pending.
  - rewrite bind_lift_ok. unfold when. rewrite bind_ret. unfold ret.
    intros E; inversion E; subst. now constructor.
  - rewrite bind_lift_raise. intros E; inversion E; subst. now constructor.
Qed.

Lemma device_info_eqb_refl di : device_info_eqb di di = true.
Proof.
  unfold device_info_eqb. now rewrite !String.eqb_refl, !Z.eqb_refl.
Qed.

Lemma device_info_eqb_path a b :
  info_path a <> info_path b -> device_info_eqb a b = false.
Proof.
  intros H. unfold device_info_eqb.
  apply String.eqb_neq in H. rewrite H. now rewrite andb_false_r.
Qed.

Lemma list_remove_middle path_ di front todo :
  Forall (fun d => info_path d <> path_) front ->
  info_path di = path_ ->
  list_remove di (front ++ di :: todo) = front ++ todo.
Proof.
  intros Hf Hp. induction Hf as [|y front Hy _ IH]; cbn [app list_remove].
  - now rewrite device_info_eqb_refl.
  - rewrite device_info_eqb_path by congruence. now rewrite IH.
Qed.

Lemma set_connected_devices_same p :
  set_connected_devices p (connected_devices p) = p.
Proof. now destruct p. Qed.

Lemma disconnect_device_skips {X} path_ di h (p : LoadedPlugin) (x : X) :
  info_path di <> path_ ->
  disconnect_device path_ di h (p, x) = (Ok tt, (p, x), []).
Proof.
  intros H. unfold disconnect_device. apply String.eqb_neq in H. now rewrite H.
Qed.

Lemma disconnect_device_runs {X} path_ di h (p : LoadedPlugin) (x : X) :
  info_path di = path_ ->
  let p1 := set_connected_devices p (list_remove di (connected_devices p)) in
  exists notes,
    Forall (disconnect_event p) notes
    /\ disconnect_device path_ di h (p, x)
       = if (len (connected_devices p1) =? 0) && truthy (panel_instance p)
         then (match behaviour (panel_class p) (h ++ notes) (active (-1)) with
               | Returns => Ok tt
               | Raises e => Raise e
               end, (p1, x),
               notes ++ [EvCall (name p) (panel_instance p) (active (-1))])
         else (Ok tt, (p1, x), notes).
Proof.
  intros Hp p1. unfold disconnect_device.
  apply String.eqb_eq in Hp. rewrite Hp. unfold when at 1.
  rewrite bind_update_plugin. fold p1. rewrite bind_plugin.
  unfold print at 1. rewrite bind_emit.
  change (name p1) with (name p). change (panel_instance p1) with (panel_instance p).
  set (line := EvPrint _).
  assert (Hnote :
    exists notes0, Forall (disconnect_event p) notes0 /\
      when (truthy (panel_instance p))
        (try_except (call_panel (on_device_disconnected di))
           (fun e => print ("[PluginManager] Error notifying panel: " ++ str_exn e)%string))
        (h ++ [line]) (p1, x) = (Ok tt, (p1, x), notes0)).
  { unfold when. destruct (truthy (panel_instance p)).
    - unfold try_except. rewrite call_panel_run.
      change (name p1) with (name p). change (panel_class p1) with (panel_class p).
      change (panel_instance p1) with (panel_instance p).
      destruct (behaviour (panel_class p) (h ++ [line]) (on_device_disconnected di)).
      + eexists; split; [|reflexivity]. repeat constructor.
      + unfold print, emit. eexists; split; [|reflexivity].
        cbn [app]. repeat constructor.
    - exists []. split; [constructor | reflexivity]. }
  destruct Hnote as [notes0 [Hn0 En]].
  rewrite (bind_ok _ _ _ _ _ _ _ En). rewrite bind_plugin.
  change (panel_instance p1) with (panel_instance p).
  exists (line :: notes0). split.
  { constructor; [exact I | assumption]. }
  unfold when.
  destruct ((len (connected_devices p1) =? 0) && truthy (panel_instance p)).
  - rewrite call_panel_run.
    change (name p1) with (name p). change (panel_class p1) with (panel_class p).
    change (panel_instance p1) with (panel_instance p).
    rewrite <- app_assoc. reflexivity.
  - unfold ret. now rewrite app_nil_r.
Qed.

Lemma disconnect_loop_runs {X} path_ todo :
  forall front h (p : LoadedPlugin) (x : X) r p' x' evs,
    connected_devices p = front ++ todo ->
    Forall (fun d => info_path d <> path_) front ->
    for_each todo (disconnect_device path_) h (p, x) = (r, (p', x'), evs) ->
    p' = set_connected_devices p (connected_devices p')
    /\ x' = x
    /\ (r = Ok tt -> connected_devices p' = front ++ other_paths path_ todo)
    /\ (forall e, r = Raise e ->
          exists h1, behaviour (panel_class p) h1 (active (-1)) = Raises e)
    /\ (connected_devices p' = [] -> todo <> [] ->
        forall i, panel_instance p = Some i ->
          In (EvCall (name p) (Some i) (active (-1))) evs)
    /\ Forall (disconnect_event p) evs.
Proof.
  induction todo as [|di todo IH]; intros front h p x r p' x' evs Hcur Hfront E.
  - cbn in E. inversion E; subst. rewrite app_nil_r in Hcur.
    splits; try congruence.
    + now rewrite set_connected_devices_same.
    + intros _. now rewrite Hcur, app_nil_r.
    + constructor.
  - cbn [for_each] in E.
    destruct (String.eqb (info_path di) path_) eqn:Ep.
    + assert (Hkeep : other_paths path_ (di :: todo) = other_paths path_ todo).
      { unfold other_paths. cbn [filter]. now rewrite Ep. }
      apply String.eqb_eq in Ep.
      destruct (disconnect_device_runs path_ di h p x Ep) as [notes [Hnotes Ed]].
      cbv zeta in Ed.
      set (p1 := set_connected_devices p (list_remove di (connected_devices p))) in *.
      assert (Hcur1 : connected_devices p1 = front ++ todo).
      { unfold p1. cbn. rewrite Hcur. now apply list_remove_middle with (path_ := path_). }
      destruct ((len (connected_devices p1) =? 0) && truthy (panel_instance p)) eqn:Elast.
      * destruct (behaviour (panel_class p) (h ++ notes) (active (-1))) as [|e] eqn:Eb.
        -- rewrite (bind_ok _ _ _ _ _ _ _ Ed) in E.
           destruct (for_each todo (disconnect_device path_)
                       (h ++ notes ++ [EvCall (name p) (panel_instance p) (active (-1))])
                       (p1, x)) as [[r2 [p2 x2]] d2] eqn:E2.
           inversion E; subst r2 p2 x2 evs. clear E.
           destruct (IH front _ p1 x r p' x' d2 Hcur1 Hfront E2)
             as [Hp' [Hx [Hok [Hraise [Hlast Hevs]]]]].
           splits.
           ++ exact Hp'.
           ++ exact Hx.
           ++ intros Hr. rewrite Hkeep. auto.
           ++ exact Hraise.
           ++ intros _ _ i Hi. apply in_or_app. left. apply in_or_app. right.
              rewrite Hi. now left.
           ++ apply Forall_app. split; [|assumption].
              apply Forall_app. split; [assumption|].
              constructor; [|constructor]. cbn. auto.
        -- rewrite (bind_raise _ _ _ _ _ _ _ Ed) in E.
           inversion E; subst r p' x' evs. clear E.
           splits.
           ++ reflexivity.
           ++ reflexivity.
           ++ discriminate.
           ++ intros e0 He0. inversion He0; subst. eauto.
           ++ intros _ _ i Hi. apply in_or_app. right. rewrite Hi. now left.
           ++ apply Forall_app. split; [assumption|].
              constructor; [|constructor]. cbn. auto.
      * rewrite (bind_ok _ _ _ _ _ _ _ Ed) in E.
        destruct (for_each todo (disconnect_device path_) (h ++ notes) (p1, x))
          as [[r2 [p2 x2]] d2] eqn:E2.
        inversion E; subst r2 p2 x2 evs. clear E.
        destruct (IH front _ p1 x r p' x' d2 Hcur1 Hfront E2)
          as [Hp' [Hx [Hok [Hraise [Hlast Hevs]]]]].
        splits.
        -- exact Hp'.
        -- exact Hx.
        -- intros Hr. rewrite Hkeep. auto.
        -- exact Hraise.
        -- intros Hnil _ i Hi. apply in_or_app. right.
           apply Hlast; auto.
           intros Htodo. subst todo.
           rewrite Hi in Elast. cbn [truthy] in Elast. rewrite andb_true_r in Elast.
           assert (Hcd : connected_devices p' = connected_devices p1).
           { cbn in E2. inversion E2; subst. reflexivity. }
           rewrite Hcd in Hnil. rewrite Hnil in Elast. discriminate.
        -- apply Forall_app. split; assumption.
    + assert (Hkeep : other_paths path_ (di :: todo) = di :: other_paths path_ todo).
      { unfold other_paths. cbn [filter]. now rewrite Ep. }
      apply String.eqb_neq in Ep.
      rewrite (bind_ok _ _ _ _ _ _ _ (disconnect_device_skips path_ di h p x Ep)) in E.
      rewrite app_nil_r in E.
      destruct (for_each todo (disconnect_device path_) h (p, x))
        as [[r2 [p2 x2]] d2] eqn:E2.
      inversion E; subst r2 p2 x2 evs. clear E.
      assert (Hcur1 : connected_devices p = (front ++ [di]) ++ todo)
        by (now rewrite <- app_assoc).
      assert (Hfront1 : Forall (fun d => info_path d <> path_) (front ++ [di])).
      { apply Forall_app. split; [assumption | now constructor]. }
      destruct (IH (front ++ [di]) _ p x r p' x' d2 Hcur1 Hfront1 E2)
        as [Hp' [Hx [Hok [Hraise [Hlast Hevs]]]]].
      splits.
      * exact Hp'.
      * exact Hx.
      * intros Hr. rewrite (Hok Hr), Hkeep. now rewrite <- app_assoc.
      * exact Hraise.
      * intros Hnil _ i Hi. apply Hlast; auto.
        intros Htodo. subst todo. cbn in E2. inversion E2; subst.
        rewrite Hcur1 in Hnil. destruct front; discriminate.
      * exact Hevs.
Qed.

Lemma disconnected_body_runs path_ h p x r p' x' d :
  disconnected_body path_ h (p, x) = (r, (p', x'), d) ->
  Disconnected path_ h r p p' d.
Proof.
  unfold disconnected_body. rewrite bind_plugin. intros E.
  destruct (for_each (connected_devices p) (disconnect_device path_) h (p, x))
    as [[r1 [p1 x1]] d1] eqn:E1.
  destruct (disconnect_loop_runs path_ (connected_devices p) [] h p x r1 p1 x1 d1
              eq_refl (Forall_nil _) E1) as [Hp' [Hx [Hok [Hraise [Hlast Hevs]]]]].
  destruct r1 as [[]|e].
  - rewrite (bind_ok _ _ _ _ _ _ _ E1) in E. unfold ret in E. inversion E; subst.
    rewrite app_nil_r. unfold Disconnected. splits; auto.
    intros e He. discriminate.
  - rewrite (bind_raise _ _ _ _ _ _ _ E1) in E. inversion E; subst.
    unfold Disconnected. splits; eauto.
    + intros Hr. discriminate.
    + intros e0 He0. inversion He0; subst. eauto.
Qed.

Lemma panels_body_runs self h p x r p' x' d :
  panels_body self h (p, x) = (r, (p', x'), d) ->
  T_demanded self h r p p' d.
Proof.
  unfold panels_body, T_demanded. rewrite bind_plugin. unfold when at 1.
  destruct (0 <? len (connected_devices p)) eqn:Hlen.
  - assert (Hne : connected_devices p <> []).
    { intros Hnil. rewrite Hnil in Hlen. discriminate. }
    unfold when. destruct (panel_instance p) as [i|] eqn:Ei; cbn [is_none].
    + rewrite bind_assoc, bind_ret, bind_assoc, bind_plugin. rewrite Ei.
      rewrite bind_assoc, bind_carried. unfold bind, set_carried, ret. cbn.
      intros E; inversion E; subst. split; [reflexivity|]. eapply Dem_existing; eauto.
    + rewrite bind_assoc.
      destruct (instantiate_runs self h p x) as [p1 [evs [E I]]].
      rewrite (bind_ok _ _ _ _ _ _ _ E). rewrite bind_assoc, bind_plugin.
      destruct (panel_instance p1) as [i|].
      * rewrite bind_assoc, bind_carried. unfold bind, set_carried, ret. cbn.
        rewrite !app_nil_r.
        intros E'; inversion E'; subst. split; [reflexivity|]. now apply Dem_create.
      * rewrite bind_ret. unfold ret. rewrite !app_nil_r.
        intros E'; inversion E'; subst. split; [reflexivity|]. now apply Dem_create.
  - assert (Hnil : connected_devices p = []).
    { destruct (connected_devices p); [reflexivity | discriminate]. }
    rewrite bind_ret. unfold ret. intros E; inversion E; subst.
    split; [reflexivity|]. now apply Dem_no_device.
Qed.

Lemma stop_body_runs h p x r p' x' d :
  stop_body h (p, x) = (r, (p', x'), d) -> T_stopped h r p p' d.
Proof.
  unfold stop_body, T_stopped. rewrite bind_plugin. unfold when.
  destruct (panel_instance p) as [i|] eqn:Ei; cbn [truthy].
  - unfold bind, try_except. rewrite call_panel_run. rewrite Ei.
    destruct (behaviour (panel_class p) h shutdown); unfold print, emit, ret; cbn [app];
      intros E; inversion E; subst; splits; auto.
    + now apply Shut_returned.
    + now apply Shut_raised.
  - rewrite bind_ret. unfold ret. intros E; inversion E; subst.
    splits; auto. now apply Shut_no_panel.
Qed.

Lemma get_preset_body_runs device_name h p x r p' x' d :
  get_preset_body device_name h (p, x) = (r, (p', x'), d) -> T_preset h r p p' d.
Proof.
  unfold get_preset_body, T_preset. rewrite bind_plugin.
  destruct (truthy (panel_instance p)
            && String.eqb (preset_device_name (panel_class p)) device_name).
  - unfold try_except, bind, call_get_preset_settings. cbn [fst].
    destruct (behaviour (panel_class p) h get_preset_settings);
      unfold print, emit, ret; cbn [app];
      intros E; inversion E; subst; splits; eauto; repeat constructor.
  - unfold ret. intros E; inversion E; subst. splits; eauto.
Qed.

Lemma apply_preset_body_runs device_name settings h p x r p' x' d :
  apply_preset_body device_name settings h (p, x) = (r, (p', x'), d) ->
  T_preset h r p p' d.
Proof.
  unfold apply_preset_body, T_preset. rewrite bind_plugin.
  destruct (truthy (panel_instance p)
            && String.eqb (preset_device_name (panel_class p)) device_name).
  - unfold try_except, bind. rewrite call_panel_run.
    destruct (behaviour (panel_class p) h (on_preset_loaded settings));
      unfold print, emit, ret; cbn [app];
      intros E; inversion E; subst; splits; eauto; repeat constructor.
  - unfold ret. intros E; inversion E; subst. splits; eauto.
Qed.

(** *** Names are kept and events concern the record at hand *)

Ltac about_list :=
  unfold about;
  repeat (apply Forall_cons; [cbn; auto|]);
  try apply Forall_nil.

Lemma Replayed_about n i devs notes : Replayed n i devs notes -> about n notes.
Proof.
  intros H. induction H; about_list; assumption.
Qed.

Lemma Instantiated_name self h p p' evs :
  Instantiated self h p p' evs -> name p' = name p.
Proof. intros H. now destruct H. Qed.

Lemma Instantiated_about self h p p' evs :
  Instantiated self h p p' evs -> about (name p) evs.
Proof.
  intros H. destruct H; unfold instantiation_failed.
  - about_list.
  - about_list.
  - about_list. apply Forall_app. split; [eapply Replayed_about; eauto|].
    about_list.
  - about_list. apply Forall_app. split; [eapply Replayed_about; eauto|].
    apply Forall_app. split.
    + destruct (0 <? len (connected_devices p)); about_list.
    + about_list.
Qed.

Lemma Connected_name self device h p r p' d :
  Connected self device h p r p' d -> name p' = name p.
Proof.
  intros H. destruct H; auto.
  match goal with H : Instantiated _ _ _ _ _ |- _ =>
    apply Instantiated_name in H; exact H end.
Qed.

Lemma Connected_about self device h p r p' d :
  Connected self device h p r p' d -> about (name p) d.
Proof.
  intros H. destruct H.
  - about_list.
  - about_list.
  - about_list.
    match goal with H : Instantiated _ _ _ _ _ |- _ =>
      apply Instantiated_about in H; exact H end.
  - about_list.
  - match goal with H : Forwarded _ _ _ _ |- _ => destruct H end; about_list.
Qed.

Lemma Disconnected_name path_ h r p p' d :
  Disconnected path_ h r p p' d -> name p' = name p.
Proof. intros [H _]. rewrite H. reflexivity. Qed.

Lemma Disconnected_about path_ h r p p' d :
  Disconnected path_ h r p p' d -> about (name p) d.
Proof.
  intros (_ & _ & _ & _ & _ & H). unfold about.
  eapply Forall_impl; [|exact H].
  intros [n i c|e n a|m|t] He; cbn in *; auto; try contradiction.
  destruct c; try contradiction; destruct He as [-> _]; auto.
Qed.

Lemma Demanded_name self h p p' d : Demanded self h p p' d -> name p' = name p.
Proof. intros H. destruct H; auto. eapply Instantiated_name; eauto. Qed.

Lemma Demanded_about self h p p' d : Demanded self h p p' d -> about (name p) d.
Proof.
  intros H. destruct H; try (now about_list). eapply Instantiated_about; eauto.
Qed.

Lemma ShutDown_about p d : ShutDown p d -> about (name p) d.
Proof. intros H. destruct H; about_list. Qed.

Lemma preset_about p d : Forall (preset_event p) d -> about (name p) d.
Proof.
  intros H. unfold about. eapply Forall_impl; [|exact H].
  intros [n i c|e n a|m|t] He; cbn in *; auto; try contradiction.
  destruct c; try contradiction; destruct He as [-> _]; auto.
Qed.

(** *** More on the runs of a loop *)

Section RanMore.

Context {R : Type}.
Variable T : list Event -> Result (option R) -> LoadedPlugin -> LoadedPlugin
             -> list Event -> Prop.

Lemma Ran_events_in (P : Event -> Prop) h r ps ps' d :
  Ran T h r ps ps' d ->
  (forall h1 r1 p p' d1, In p ps -> T h1 r1 p p' d1 -> Forall P d1) ->
  Forall P d.
Proof.
  intros H. induction H; intros HP.
  - constructor.
  - apply Forall_app. split.
    + eapply HP; eauto. now left.
    + apply IHRan. intros. eapply HP; eauto. now right.
  - eapply HP; eauto. now left.
Qed.

Lemma Ran_Forall2_complete (Q : LoadedPlugin -> LoadedPlugin -> Prop) h r ps ps' d :
  Ran T h r ps ps' d ->
  r = Ok None ->
  (forall h1 p p' d1, In p ps -> T h1 (Ok None) p p' d1 -> Q p p') ->
  Forall2 Q ps ps'.
Proof.
  intros H. induction H; intros Hr HQ.
  - constructor.
  - constructor.
    + eapply HQ; eauto. now left.
    + apply IHRan; auto. intros. eapply HQ; eauto. now right.
  - contradiction.
Qed.

Lemma Ran_visits h r ps ps' d :
  Ran T h r ps ps' d ->
  r = Ok None ->
  forall p, In p ps ->
    exists h1 p' d1, T h1 (Ok None) p p' d1 /\ In p' ps' /\ incl d1 d.
Proof.
  intros H. induction H; intros Hr q Hq.
  - contradiction.
  - destruct Hq as [<-|Hq].
    + exists h, p', d. splits; auto; [now left | apply incl_appl, incl_refl].
    + destruct (IHRan Hr q Hq) as [h1 [q' [d1 [HT [Hin Hincl]]]]].
      exists h1, q', d1. splits; auto; [now right | now apply incl_appr].
  - contradiction.
Qed.

Hypothesis T_name : forall h r p p' d, T h r p p' d -> name p' = name p.

(** The record named [n], without assuming distinct names: the first one
    is meant, before and after. *)
Lemma Ran_find n p h r ps ps' d :
  Ran T h r ps ps' d ->
  find_plugin n ps = Some p ->
  exists p',
    find_plugin n ps' = Some p'
    /\ ((exists h1 r1 d1,
           T h1 r1 p p' d1 /\ incl d1 d /\ (r = Ok None -> r1 = Ok None))
        \/ (p' = p /\ r <> Ok None)).
Proof using T_name.
  unfold find_plugin.
  intros H. induction H; intros Hf; cbn [find] in *.
  - discriminate.
  - rewrite (T_name _ _ _ _ _ H).
    destruct (String.eqb (name p0) n) eqn:En.
    + inversion Hf; subst p0. exists p'. split; [reflexivity|].
      left. exists h, (Ok None), d. splits; auto. apply incl_appl, incl_refl.
    + destruct (IHRan Hf) as [p1 [Hf1 Hcase]]. exists p1. split; [assumption|].
      destruct Hcase as [[h1 [r1 [d1 [HT [Hincl Hr]]]]]|[Heq Hr]].
      * left. exists h1, r1, d1. splits; auto. now apply incl_appr.
      * right. auto.
  - rewrite (T_name _ _ _ _ _ H).
    destruct (String.eqb (name p0) n) eqn:En.
    + inversion Hf; subst p0. exists p'. split; [reflexivity|].
      left. exists h, r, d. splits; auto. apply incl_refl.
    + exists p. split; [assumption|]. right. auto.
Qed.

End RanMore.

Lemma Forall2_find (Q : LoadedPlugin -> LoadedPlugin -> Prop) n ps ps' p :
  Forall2 (fun p p' => name p' = name p /\ Q p p') ps ps' ->
  find_plugin n ps = Some p ->
  exists p', find_plugin n ps' = Some p' /\ Q p p'.
Proof.
  unfold find_plugin. intros H. induction H as [|q q' ps ps' [Hn HQ] _ IH];
    intros Hf; cbn [find] in *.
  - discriminate.
  - rewrite Hn. destruct (String.eqb (name q) n).
    + inversion Hf; subst. eauto.
    + auto.
Qed.

Lemma find_plugin_In n ps p : find_plugin n ps = Some p -> In p ps /\ name p = n.
Proof.
  unfold find_plugin. intros H. apply find_some in H. destruct H as [Hin Hn].
  split; [assumption | now apply String.eqb_eq].
Qed.

(** *** The operations, as runs of their loops *)

Lemma connect_runs device h s r s' d :
  _handle_device_connected device h s = (r, s', d) ->
  exists r0,
    Ran (T_connected s device) h r0 (_plugins s) (_plugins s') d
    /\ s' = set_plugins s (_plugins s')
    /\ ((r0 = Ok None /\ r = Ok tt) \/ (exists e, r0 = Raise e /\ r = Raise e)).
Proof.
  unfold _handle_device_connected. rewrite bind_get. intros E.
  destruct (with_plugins tt (connected_body s device) h s) as [[r1 s1] d1] eqn:E1.
  destruct (with_plugins_Ran (connected_body s device) (T_connected s device)
              (connected_body_runs s device) tt h s r1 s1 d1 E1)
    as [r0 [HR [Hs Hr]]].
  assert (Hr0 : r0 = Ok None \/ exists e, r0 = Raise e).
  { clear - HR. induction HR.
    - now left.
    - assumption.
    - match goal with H : T_connected _ _ _ _ _ _ _ |- _ => destruct H end;
        try contradiction; eauto. }
  destruct Hr0 as [->|[e ->]].
  - destruct Hr as [x ->]. rewrite (bind_ok _ _ _ _ _ _ _ E1) in E.
    unfold ret in E. inversion E; subst. rewrite app_nil_r.
    exists (Ok None). splits; auto.
  - subst r1. rewrite (bind_raise _ _ _ _ _ _ _ E1) in E. inversion E; subst.
    exists (Raise e). splits; eauto.
Qed.

Lemma disconnect_runs path_ h s r s' d :
  _handle_device_disconnected path_ h s = (r, s', d) ->
  exists r0,
    Ran (T_disconnected path_) h r0 (_plugins s) (_plugins s') d
    /\ s' = set_plugins s (_plugins s')
    /\ ((r0 = Ok None /\ r = Ok tt) \/ (exists e, r0 = Raise e /\ r = Raise e)).
Proof.
  unfold _handle_device_disconnected. intros E.
  destruct (with_plugins tt (disconnected_body path_) h s) as [[r1 s1] d1] eqn:E1.
  destruct (with_plugins_Ran (disconnected_body path_) (T_disconnected path_)
              (disconnected_body_runs path_) tt h s r1 s1 d1 E1)
    as [r0 [HR [Hs Hr]]].
  assert (Hr0 : r0 = Ok None \/ exists e, r0 = Raise e).
  { clear - HR. induction HR.
    - now left.
    - assumption.
    - match goal with H : T_disconnected _ _ _ _ _ _ |- _ =>
        destruct H as (_ & Hr & _) end. exact Hr. }
  destruct Hr0 as [->|[e ->]].
  - destruct Hr as [x ->]. rewrite (bind_ok _ _ _ _ _ _ _ E1) in E.
    unfold ret in E. inversion E; subst. rewrite app_nil_r.
    exists (Ok None). splits; auto.
  - subst r1. rewrite (bind_raise _ _ _ _ _ _ _ E1) in E. inversion E; subst.
    exists (Raise e). splits; eauto.
Qed.

Lemma Ran_always_complete {R}
    (T : list Event -> Result (option R) -> LoadedPlugin -> LoadedPlugin
         -> list Event -> Prop) h r ps ps' d :
  (forall h1 r1 p p' d1, T h1 r1 p p' d1 -> r1 = Ok None) ->
  Ran T h r ps ps' d -> r = Ok None.
Proof.
  intros HT H. eapply Ran_completes; eauto.
Qed.

Lemma get_panels_runs cb h s r s' d :
  get_plugin_panels cb h s = (r, s', d) ->
  let self := set_button_callback s (Some cb) in
  Ran (T_demanded self) h (Ok None) (_plugins s) (_plugins s') d
  /\ s' = set_plugins self (_plugins s')
  /\ exists panels, r = Ok panels.
Proof.
  unfold get_plugin_panels. rewrite bind_get, bind_put, bind_get. intros E.
  cbv zeta. set (self := set_button_callback s (Some cb)) in *.
  destruct (with_plugins [] (panels_body self) h self) as [[r1 s1] d1] eqn:E1.
  destruct (with_plugins_Ran (panels_body self) (T_demanded self)
              (panels_body_runs self) [] h self r1 s1 d1 E1)
    as [r0 [HR [Hs Hr]]].
  assert (Hr0 : r0 = Ok None).
  { eapply Ran_always_complete; [|exact HR]. now intros ? ? ? ? ? [-> _]. }
  subst r0. destruct Hr as [x ->].
  rewrite (bind_ok _ _ _ _ _ _ _ E1) in E. unfold ret in E.
  inversion E; subst. rewrite app_nil_r. splits; eauto.
Qed.

Lemma stop_runs h s r s' d :
  stop h s = (r, s', d) ->
  Ran T_stopped h (Ok None) (_plugins s) (_plugins s') d
  /\ s' = set_plugins (set_running s false) (_plugins s')
  /\ r = Ok tt.
Proof.
  unfold stop. rewrite bind_get, bind_put. intros E.
  set (self := set_running s false) in *.
  destruct (with_plugins tt stop_body h self) as [[r1 s1] d1] eqn:E1.
  destruct (with_plugins_Ran stop_body T_stopped stop_body_runs tt h self r1 s1 d1 E1)
    as [r0 [HR [Hs Hr]]].
  assert (Hr0 : r0 = Ok None).
  { eapply Ran_always_complete; [|exact HR]. now intros ? ? ? ? ? [-> _]. }
  subst r0. destruct Hr as [x ->].
  rewrite (bind_ok _ _ _ _ _ _ _ E1) in E. unfold ret in E.
  inversion E; subst. rewrite app_nil_r. splits; eauto.
Qed.

Lemma Ran_preset_same {R} h (r : Result (option R)) ps ps' d :
  Ran T_preset h r ps ps' d ->
  ps' = ps /\ exists o, r = Ok o.
Proof.
  intros H. induction H.
  - eauto.
  - destruct H as (_ & -> & _). destruct IHRan as [-> Hr]. auto.
  - destruct H as (Hr & -> & _). auto.
Qed.

Lemma get_preset_runs device_name h s r s' d :
  get_plugin_preset_settings device_name h s = (r, s', d) ->
  (exists r0 : Result (option Settings),
     Ran T_preset h r0 (_plugins s) (_plugins s) d)
  /\ s' = s /\ exists settings, r = Ok settings.
Proof.
  unfold get_plugin_preset_settings. intros E.
  destruct (with_plugins tt (get_preset_body device_name) h s) as [[r1 s1] d1] eqn:E1.
  destruct (with_plugins_Ran (get_preset_body device_name) T_preset
              (get_preset_body_runs device_name) tt h s r1 s1 d1 E1)
    as [r0 [HR [Hs Hr]]].
  destruct (Ran_preset_same _ _ _ _ _ HR) as [Hps [o Ho]].
  subst r0. destruct Hr as [x ->].
  assert (s1 = s) by (rewrite Hs, Hps; now destruct s). subst s1.
  rewrite (bind_ok _ _ _ _ _ _ _ E1) in E. cbn [fst] in E.
  destruct o; unfold ret in E; inversion E; subst; rewrite app_nil_r; splits; eauto.
Qed.

Lemma apply_preset_runs device_name settings h s r s' d :
  apply_plugin_preset_settings device_name settings h s = (r, s', d) ->
  (exists (r0 : Result (option unit)) d0 m,
     Ran T_preset h r0 (_plugins s) (_plugins s) d0
     /\ (d = d0 \/ d = d0 ++ [EvPrint m]))
  /\ s' = s /\ r = Ok tt.
Proof.
  unfold apply_plugin_preset_settings. intros E.
  destruct (with_plugins tt (apply_preset_body device_name settings) h s)
    as [[r1 s1] d1] eqn:E1.
  destruct (with_plugins_Ran (apply_preset_body device_name settings) T_preset
              (apply_preset_body_runs device_name settings) tt h s r1 s1 d1 E1)
    as [r0 [HR [Hs Hr]]].
  destruct (Ran_preset_same _ _ _ _ _ HR) as [Hps [o Ho]].
  subst r0. destruct Hr as [x ->].
  assert (s1 = s) by (rewrite Hs, Hps; now destruct s). subst s1.
  rewrite (bind_ok _ _ _ _ _ _ _ E1) in E. cbn [fst] in E.
  destruct o.
  - unfold ret in E. inversion E; subst. rewrite app_nil_r.
    splits; eauto. exists (Ok (Some u)), d1, "". auto.
  - rewrite bind_get in E. unfold print, emit in E. inversion E; subst.
    splits; eauto. eexists _, d1, _. split; [exact HR | right; reflexivity].
Qed.

(** *** A panel, once there, stays *)

Lemma keeps_panel_refl p : keeps_panel p p.
Proof. split; auto. Qed.

Lemma keeps_panel_trans p q r : keeps_panel p q -> keeps_panel q r -> keeps_panel p r.
Proof. intros [N1 P1] [N2 P2]. split; [congruence | auto]. Qed.

Lemma Forall2_keeps_refl ps : Forall2 keeps_panel ps ps.
Proof. induction ps; constructor; auto using keeps_panel_refl. Qed.

Lemma Forall2_keeps_trans ps qs rs :
  Forall2 keeps_panel ps qs -> Forall2 keeps_panel qs rs -> Forall2 keeps_panel ps rs.
Proof.
  intros H. revert rs. induction H; intros rs H2; inversion H2; subst; constructor.
  - eapply keeps_panel_trans; eauto.
  - auto.
Qed.

Lemma Instantiated_devices self h p p' evs :
  Instantiated self h p p' evs -> connected_devices p' = connected_devices p.
Proof. intros H. now destruct H. Qed.

Lemma Connected_keeps self device h p r p' d :
  Connected self device h p r p' d -> keeps_panel p p'.
Proof.
  intros H. destruct H; try apply keeps_panel_refl; split; auto.
  - match goal with H : Instantiated _ _ _ _ _ |- _ =>
      apply Instantiated_name in H; exact H end.
  - congruence.
Qed.

Lemma Disconnected_keeps path_ h r p p' d :
  Disconnected path_ h r p p' d -> keeps_panel p p'.
Proof. intros [H _]. rewrite H. split; auto. Qed.

Lemma Demanded_keeps self h p p' d : Demanded self h p p' d -> keeps_panel p p'.
Proof.
  intros H. destruct H; try apply keeps_panel_refl. split.
  - eapply Instantiated_name; eauto.
  - congruence.
Qed.

Lemma run_op_keeps op h s r s' d :
  run_op op h s = (r, s', d) -> Forall2 keeps_panel (_plugins s) (_plugins s').
Proof.
  destruct op as [device|path_|cb|n|n st|]; cbn [run_op]; intros E.
  - destruct (connect_runs _ _ _ _ _ _ E) as [r0 [HR _]].
    eapply Ran_Forall2; [apply keeps_panel_refl | | exact HR].
    intros. eapply Connected_keeps; eauto.
  - destruct (disconnect_runs _ _ _ _ _ _ E) as [r0 [HR _]].
    eapply Ran_Forall2; [apply keeps_panel_refl | | exact HR].
    intros. eapply Disconnected_keeps; eauto.
  - destruct (get_plugin_panels cb h s) as [[r1 s1] d1] eqn:E1.
    destruct (get_panels_runs _ _ _ _ _ _ E1) as [HR [Hs [panels ->]]].
    rewrite (bind_ok _ _ _ _ _ _ _ E1) in E. unfold ret in E. inversion E; subst s'.
    eapply Ran_Forall2; [apply keeps_panel_refl | | exact HR].
    intros ? ? ? ? ? [_ HD]. eapply Demanded_keeps; eauto.
  - destruct (get_plugin_preset_settings n h s) as [[r1 s1] d1] eqn:E1.
    destruct (get_preset_runs _ _ _ _ _ _ E1) as [_ [-> [st ->]]].
    rewrite (bind_ok _ _ _ _ _ _ _ E1) in E. unfold ret in E. inversion E; subst s'.
    apply Forall2_keeps_refl.
  - destruct (apply_preset_runs _ _ _ _ _ _ _ E) as [_ [-> _]].
    apply Forall2_keeps_refl.
  - destruct (stop_runs _ _ _ _ _ E) as [HR _].
    eapply Ran_Forall2; [apply keeps_panel_refl | | exact HR].
    intros ? ? ? ? ? (_ & -> & _). apply keeps_panel_refl.
Qed.

Lemma run_ops_keeps ops :
  forall h s r s' d,
    run_ops ops h s = (r, s', d) -> Forall2 keeps_panel (_plugins s) (_plugins s').
Proof.
  induction ops as [|op ops IH]; intros h s r s' d E; cbn [run_ops] in E.
  - unfold ret in E. inversion E; subst. apply Forall2_keeps_refl.
  - unfold bind, discard in E.
    destruct (run_op op h s) as [[r1 s1] d1] eqn:E1.
    destruct (run_ops ops (h ++ d1) s1) as [[r2 s2] d2] eqn:E2.
    inversion E; subst.
    eapply Forall2_keeps_trans.
    + eapply run_op_keeps; eauto.
    + eapply IH; eauto.
Qed.

(** *** Constructor calls and lifecycle events *)

Lemma plain_projections n d :
  Forall plain_event d ->
  constructions n d = [] /\ panel_available n d = [] /\ load_errors n d = [].
Proof.
  intros H. induction H as [|ev d Hev _ [IH1 [IH2 IH3]]]; [now splits|].
  unfold constructions, panel_available, load_errors, dispatched in *.
  cbn [flat_map]. rewrite IH1, IH2, IH3.
  destruct ev as [m i c|e m a|m|t]; cbn in Hev |- *; try contradiction; auto.
  destruct i; destruct c; try contradiction; auto.
Qed.

Lemma Replayed_plain n i devs notes : Replayed n i devs notes -> Forall plain_event notes.
Proof. intros H. induction H; repeat constructor; auto. Qed.

Lemma Forwarded_plain n i di evs : Forwarded n i di evs -> Forall plain_event evs.
Proof. intros H. destruct H; repeat constructor. Qed.

Lemma ShutDown_plain p d : ShutDown p d -> Forall plain_event d.
Proof. intros H. destruct H; repeat constructor. Qed.

Lemma disconnect_plain p d : Forall (disconnect_event p) d -> Forall plain_event d.
Proof.
  intros H. eapply Forall_impl; [|exact H].
  intros [n i c|e n a|m|t] He; cbn in *; auto. destruct c; auto.
Qed.

Lemma preset_plain p d : Forall (preset_event p) d -> Forall plain_event d.
Proof.
  intros H. eapply Forall_impl; [|exact H].
  intros [n i c|e n a|m|t] He; cbn in *; auto. destruct c; auto.
Qed.

Lemma projections_cons_plain n ev d :
  plain_event ev ->
  constructions n (ev :: d) = constructions n d
  /\ panel_available n (ev :: d) = panel_available n d
  /\ load_errors n (ev :: d) = load_errors n d.
Proof.
  intros Hev.
  destruct (plain_projections n [ev] (Forall_cons _ Hev (Forall_nil _))) as [H1 [H2 H3]].
  unfold constructions, panel_available, load_errors, dispatched in *.
  cbn [flat_map] in *. rewrite app_nil_r in H1, H2, H3. now rewrite H1, H2, H3.
Qed.

Lemma projections_app_plain n d1 d2 :
  Forall plain_event d1 ->
  constructions n (d1 ++ d2) = constructions n d2
  /\ panel_available n (d1 ++ d2) = panel_available n d2
  /\ load_errors n (d1 ++ d2) = load_errors n d2.
Proof.
  intros H. destruct (plain_projections n d1 H) as [H1 [H2 H3]].
  unfold constructions, panel_available, load_errors, dispatched in *.
  rewrite !flat_map_app, H1, H2, H3. now splits.
Qed.

(** What an instantiation emits about its own plugin. *)
Lemma Instantiated_lifecycle self h p p' evs :
  Instantiated self h p p' evs ->
  length (constructions (name p) evs) = 1%nat
  /\ (length (panel_available (name p) evs) + length (load_errors (name p) evs) = 1)%nat
  /\ (forall a, In a (panel_available (name p) evs) ->
        a = ArgPanel (Some (length h))
        /\ panel_instance p' = Some (length h)
        /\ (connected_devices p <> [] ->
            In (EvCall (name p) (Some (length h)) (active 1)) evs)).
Proof.
  intros H. destruct H.
  - unfold constructions, panel_available, load_errors, dispatched, instantiation_failed.
    cbn. rewrite !String.eqb_refl. cbn. splits; auto. intros a [].
  - unfold constructions, panel_available, load_errors, dispatched, instantiation_failed.
    cbn. rewrite !String.eqb_refl. cbn. splits; auto. intros a [].
  - match goal with H : Replayed _ _ _ _ |- _ => apply Replayed_plain in H; rename H into Hp end.
    destruct (projections_app_plain (name p) notes
                (EvCall (name p) (Some (length h)) (active 1) :: instantiation_failed p e) Hp)
      as [Kc [Ka Ke]].
    unfold constructions, panel_available, load_errors, dispatched in *.
    cbn [flat_map]. rewrite Kc, Ka, Ke. unfold instantiation_failed.
    cbn. rewrite !String.eqb_refl. cbn. splits; auto. intros a [].
  - match goal with H : Replayed _ _ _ _ |- _ => apply Replayed_plain in H; rename H into Hp end.
    set (tail := (if 0 <? len (connected_devices p)
                  then [EvCall (name p) (Some (length h)) (active 1)] else [])
                 ++ [EvDispatch "plugin-panel-available" (name p)
                       (ArgPanel (Some (length h)))]).
    assert (Ht : constructions (name p) tail = []
                 /\ panel_available (name p) tail = [ArgPanel (Some (length h))]
                 /\ load_errors (name p) tail = []).
    { unfold tail, constructions, panel_available, load_errors, dispatched.
      destruct (0 <? len (connected_devices p)); cbn; rewrite !String.eqb_refl;
        cbn; auto. }
    destruct Ht as [T1 [T2 T3]].
    destruct (projections_app_plain (name p) notes tail Hp) as [Kc [Ka Ke]].
    unfold constructions, panel_available, load_errors, dispatched in *.
    cbn [flat_map]. rewrite Kc, Ka, Ke, T1, T2, T3.
    cbn. rewrite !String.eqb_refl. cbn. splits; auto.
    intros a [<-|[]]. splits; auto.
    intros Hne. right. right. apply in_or_app. right. unfold tail.
    destruct (connected_devices p) as [|x l]; [contradiction|].
    cbn. now left.
Qed.

Lemma lifecycle_step_idle cb p d :
  Forall plain_event d -> lifecycle_step cb p p d.
Proof.
  intros H. destruct (plain_projections (name p) d H) as [H1 [H2 H3]].
  unfold lifecycle_step. rewrite H1, H2, H3. cbn. splits; auto.
  - intros Hn i Hi. congruence.
  - intros a [].
Qed.

Lemma lifecycle_step_devices cb p l d :
  Forall plain_event d -> lifecycle_step cb p (set_connected_devices p l) d.
Proof.
  intros H. destruct (plain_projections (name p) d H) as [H1 [H2 H3]].
  unfold lifecycle_step. rewrite H1, H2, H3. cbn. splits; auto.
  - intros Hn i Hi. congruence.
  - intros a [].
Qed.

Lemma Connected_lifecycle self device h p r p' d :
  Connected self device h p r p' d ->
  lifecycle_step (_button_callback self) p p' d.
Proof.
  intros H. destruct H.
  - apply lifecycle_step_idle. constructor.
  - apply lifecycle_step_idle. constructor.
  - match goal with H : Instantiated _ _ _ _ _ |- _ =>
      pose proof (Instantiated_lifecycle _ _ _ _ _ H) as [L1 [L2 L3]];
      pose proof (Instantiated_devices _ _ _ _ _ H) as Hdev end.
    change (name (add_device p device)) with (name p) in *.
    assert (Hne : connected_devices p1 <> []).
    { rewrite Hdev. cbn. destruct (connected_devices p); discriminate. }
    destruct (projections_cons_plain (name p) (matched_line p device) evs I)
      as [P1 [P2 P3]].
    unfold lifecycle_step. rewrite P1, P2, P3, L1, L2. splits; auto.
    + congruence.
    + intros a Ha. destruct (L3 a Ha) as [-> [Hi Hact]].
      exists (length (h ++ [matched_line p device])). splits; auto.
      right. apply Hact. cbn. destruct (connected_devices p); discriminate.
  - apply lifecycle_step_devices. repeat constructor.
  - apply lifecycle_step_devices. constructor; [exact I|].
    eapply Forwarded_plain; eauto.
Qed.

Lemma Demanded_lifecycle self h p p' d :
  Demanded self h p p' d ->
  _button_callback self <> None ->
  lifecycle_step (_button_callback self) p p' d.
Proof.
  intros H Hcb. destruct H.
  - apply lifecycle_step_idle. constructor.
  - apply lifecycle_step_idle. constructor.
  - match goal with H : Instantiated _ _ _ _ _ |- _ =>
      pose proof (Instantiated_lifecycle _ _ _ _ _ H) as [L1 [L2 L3]];
      pose proof (Instantiated_devices _ _ _ _ _ H) as Hdev end.
    unfold lifecycle_step. rewrite L1, L2. splits; auto.
    + congruence.
    + intros _ i _. splits; auto. congruence.
    + intros a Ha. destruct (L3 a Ha) as [-> [Hi Hact]].
      exists (length h). splits; auto. congruence.
Qed.

Lemma selects_constructions n :
  selects n (fun ev =>
    match ev with
    | EvCall m None (Construct t cb ctx) =>
        if String.eqb m n then [Construct t cb ctx] else []
    | _ => []
    end).
Proof.
  intros [m i c|e m a|m|t] Hs; cbn in *; auto.
  destruct i; auto. destruct c; auto.
  destruct (String.eqb m n) eqn:E; auto. apply String.eqb_eq in E. congruence.
Qed.

Lemma selects_dispatched event n :
  selects n (fun ev =>
    match ev with
    | EvDispatch e m a =>
        if String.eqb e event && String.eqb m n then [a] else []
    | _ => []
    end).
Proof.
  intros [m i c|e m a|m|t] Hs; cbn in *; auto.
  destruct (String.eqb m n) eqn:E; [|now rewrite andb_false_r].
  apply String.eqb_eq in E. congruence.
Qed.

Lemma selects_calls n :
  selects n (fun ev =>
    match ev with
    | EvCall m i c => if String.eqb m n then [(i, c)] else []
    | _ => []
    end).
Proof.
  intros [m i c|e m a|m|t] Hs; cbn in *; auto.
  destruct (String.eqb m n) eqn:E; auto. apply String.eqb_eq in E. congruence.
Qed.

Lemma T_connected_name self device h r p p' d :
  T_connected self device h r p p' d -> name p' = name p.
Proof. apply Connected_name. Qed.

Lemma T_connected_about self device h r p p' d :
  T_connected self device h r p p' d -> about (name p) d.
Proof. apply Connected_about. Qed.

Lemma T_demanded_name self h r p p' d :
  T_demanded self h r p p' d -> name p' = name p.
Proof. intros [_ HD]. eapply Demanded_name; eauto. Qed.

Lemma T_demanded_about self h r p p' d :
  T_demanded self h r p p' d -> about (name p) d.
Proof. intros [_ HD]. eapply Demanded_about; eauto. Qed.

Lemma lifecycle_step_transfer cb p p' d1 d :
  constructions (name p) d = constructions (name p) d1 ->
  panel_available (name p) d = panel_available (name p) d1 ->
  load_errors (name p) d = load_errors (name p) d1 ->
  incl d1 d ->
  lifecycle_step cb p p' d1 -> lifecycle_step cb p p' d.
Proof.
  intros Ec Ea Ee Hincl (L1 & L2 & L3 & L4 & L5).
  unfold lifecycle_step. rewrite Ec, Ea, Ee. splits; auto.
  intros a Ha. destruct (L5 a Ha) as (i & Hi & Hn & Hp & Hd & Hc & Hact).
  exists i. splits; auto.
Qed.

Lemma lifecycle_step_none cb p p' d :
  constructions (name p) d = [] ->
  panel_available (name p) d = [] ->
  load_errors (name p) d = [] ->
  panel_instance p' = panel_instance p ->
  lifecycle_step cb p p' d.
Proof.
  intros Ec Ea Ee Hp. unfold lifecycle_step. rewrite Ec, Ea, Ee. cbn.
  splits; auto.
  - intros Hn i Hi. congruence.
  - intros a [].
Qed.

(** Everything but connect and the panel query leaves panels and lifecycle
    events alone. *)
Lemma run_op_quiet_ops op h s r s' d :
  ~ is_demand op ->
  run_op op h s = (r, s', d) ->
  Forall plain_event d
  /\ Forall2 (fun p p' => name p' = name p /\ same_panel p p') (_plugins s) (_plugins s')
  /\ (_button_callback s' = _button_callback s).
Proof.
  assert (Hrefl : forall ps : list LoadedPlugin,
             Forall2 (fun p p' => name p' = name p /\ same_panel p p') ps ps).
  { induction ps; constructor; auto. split; reflexivity. }
  destruct op as [device|path_|cb|n|n st|]; cbn [run_op is_demand]; intros Hd E;
    try tauto.
  - destruct (disconnect_runs _ _ _ _ _ _ E) as [r0 [HR [Hs _]]]. splits.
    + eapply Ran_events; [|exact HR].
      intros ? ? ? ? ? (_ & _ & _ & _ & _ & Hev). eapply disconnect_plain; eauto.
    + eapply Ran_Forall2; [| |exact HR].
      * intros; split; reflexivity.
      * intros ? ? ? ? ? (Hp & _). rewrite Hp. split; reflexivity.
    + rewrite Hs. reflexivity.
  - destruct (get_plugin_preset_settings n h s) as [[r1 s1] d1] eqn:E1.
    destruct (get_preset_runs _ _ _ _ _ _ E1) as [[r0 HR] [-> [st ->]]].
    rewrite (bind_ok _ _ _ _ _ _ _ E1) in E. unfold ret in E. inversion E; subst.
    rewrite app_nil_r. splits; auto.
    eapply Ran_events; [|exact HR].
    intros ? ? ? ? ? (_ & _ & Hev). eapply preset_plain; eauto.
  - destruct (apply_preset_runs _ _ _ _ _ _ _ E) as [[r0 [d0 [m [HR Hd0]]]] [-> _]].
    splits; auto.
    assert (Hp0 : Forall plain_event d0).
    { eapply Ran_events; [|exact HR].
      intros ? ? ? ? ? (_ & _ & Hev). eapply preset_plain; eauto. }
    destruct Hd0 as [->| ->]; auto.
    apply Forall_app. split; auto. repeat constructor.
  - destruct (stop_runs _ _ _ _ _ E) as [HR [Hs _]]. splits.
    + eapply Ran_events; [|exact HR].
      intros ? ? ? ? ? (_ & _ & Hev). eapply ShutDown_plain; eauto.
    + eapply Ran_Forall2; [| |exact HR].
      * intros; split; reflexivity.
      * intros ? ? ? ? ? (_ & -> & _). split; reflexivity.
    + rewrite Hs. reflexivity.
Qed.

Lemma run_op_lifecycle op h s r s' d n p :
  registry_ok s ->
  find_plugin n (_plugins s) = Some p ->
  run_op op h s = (r, s', d) ->
  exists p',
    find_plugin n (_plugins s') = Some p'
    /\ lifecycle_step (_button_callback s') p p' d
    /\ (panel_instance p = None -> panel_instance p' <> None -> is_demand op).
Proof.
  intros Hreg Hfind E.
  assert (Hn : name p = n) by (now apply find_plugin_In in Hfind).
  destruct op as [device|path_|cb|m|m st|].
  - (* connect *)
    cbn [run_op] in E.
    destruct (connect_runs _ _ _ _ _ _ E) as [r0 [HR [Hs _]]].
    destruct (Ran_at (T_connected s device) (T_connected_name s device)
                (T_connected_about s device) n p h r0 _ _ d HR Hreg Hfind)
      as [p' [Hf' Hcase]].
    exists p'. split; [assumption|]. split; [|cbn; auto].
    assert (Hcb : _button_callback s' = _button_callback s) by (now rewrite Hs).
    rewrite Hcb. subst n.
    destruct Hcase as [(h1 & r1 & d1 & HT & _ & Hincl & Hproj)|(-> & _ & Hproj)].
    + eapply lifecycle_step_transfer; [| | | exact Hincl |].
      * apply (Hproj _ _ (selects_constructions (name p))).
      * apply (Hproj _ _ (selects_dispatched "plugin-panel-available" (name p))).
      * apply (Hproj _ _ (selects_dispatched "plugin-load-error" (name p))).
      * eapply Connected_lifecycle; eauto.
    + apply lifecycle_step_none; auto.
      * apply (Hproj _ _ (selects_constructions (name p))).
      * apply (Hproj _ _ (selects_dispatched "plugin-panel-available" (name p))).
      * apply (Hproj _ _ (selects_dispatched "plugin-load-error" (name p))).
  - destruct (run_op_quiet_ops (OpDisconnect path_) h s r s' d (fun x => x) E)
      as [Hplain [HF Hcb]].
    destruct (Forall2_find _ n _ _ p HF Hfind) as [p' [Hf' Hp']].
    exists p'. split; [assumption|]. split.
    + destruct (plain_projections (name p) d Hplain) as [P1 [P2 P3]].
      apply lifecycle_step_none; auto.
    + unfold same_panel in Hp'. intros; congruence.
  - (* panel query *)
    cbn [run_op] in E.
    destruct (get_plugin_panels cb h s) as [[r1 s1] d1] eqn:E1.
    destruct (get_panels_runs _ _ _ _ _ _ E1) as [HR [Hs [panels ->]]].
    rewrite (bind_ok _ _ _ _ _ _ _ E1) in E. unfold ret in E.
    inversion E; subst r s' d. rewrite app_nil_r. clear E.
    set (self := set_button_callback s (Some cb)) in *.
    destruct (Ran_at (T_demanded self) (T_demanded_name self) (T_demanded_about self)
                n p h (Ok None) _ _ d1 HR Hreg Hfind)
      as [p' [Hf' Hcase]].
    exists p'. split; [assumption|]. split; [|cbn; auto].
    assert (Hcb : _button_callback s1 = _button_callback self) by (now rewrite Hs).
    rewrite Hcb. subst n.
    destruct Hcase as [(h1 & r1 & d2 & [_ HT] & _ & Hincl & Hproj)|(-> & _ & Hproj)].
    + eapply lifecycle_step_transfer; [| | | exact Hincl |].
      * apply (Hproj _ _ (selects_constructions (name p))).
      * apply (Hproj _ _ (selects_dispatched "plugin-panel-available" (name p))).
      * apply (Hproj _ _ (selects_dispatched "plugin-load-error" (name p))).
      * eapply Demanded_lifecycle; eauto. cbn. discriminate.
    + apply lifecycle_step_none; auto.
      * apply (Hproj _ _ (selects_constructions (name p))).
      * apply (Hproj _ _ (selects_dispatched "plugin-panel-available" (name p))).
      * apply (Hproj _ _ (selects_dispatched "plugin-load-error" (name p))).
  - destruct (run_op_quiet_ops (OpGetPreset m) h s r s' d (fun x => x) E)
      as [Hplain [HF Hcb]].
    destruct (Forall2_find _ n _ _ p HF Hfind) as [p' [Hf' Hp']].
    exists p'. split; [assumption|]. split.
    + destruct (plain_projections (name p) d Hplain) as [P1 [P2 P3]].
      apply lifecycle_step_none; auto.
    + unfold same_panel in Hp'. intros; congruence.
  - destruct (run_op_quiet_ops (OpApplyPreset m st) h s r s' d (fun x => x) E)
      as [Hplain [HF Hcb]].
    destruct (Forall2_find _ n _ _ p HF Hfind) as [p' [Hf' Hp']].
    exists p'. split; [assumption|]. split.
    + destruct (plain_projections (name p) d Hplain) as [P1 [P2 P3]].
      apply lifecycle_step_none; auto.
    + unfold same_panel in Hp'. intros; congruence.
  - destruct (run_op_quiet_ops OpStop h s r s' d (fun x => x) E)
      as [Hplain [HF Hcb]].
    destruct (Forall2_find _ n _ _ p HF Hfind) as [p' [Hf' Hp']].
    exists p'. split; [assumption|]. split.
    + destruct (plain_projections (name p) d Hplain) as [P1 [P2 P3]].
      apply lifecycle_step_none; auto.
    + unfold same_panel in Hp'. intros; congruence.
Qed.

Lemma Instantiated_quiet self h p p' evs :
  quiet p ->
  Instantiated self h p p' evs ->
  panel_instance p' = Some (length h)
  /\ panel_available (name p) evs = [ArgPanel (Some (length h))].
Proof.
  intros Hq H. destruct H;
    try (match goal with H : behaviour _ _ _ = Raises _ |- _ =>
           rewrite Hq in H; discriminate end).
  split; [reflexivity|].
  match goal with H : Replayed _ _ _ _ |- _ => apply Replayed_plain in H; rename H into Hp end.
  set (tail := (if 0 <? len (connected_devices p)
                then [EvCall (name p) (Some (length h)) (active 1)] else [])
               ++ [EvDispatch "plugin-panel-available" (name p)
                     (ArgPanel (Some (length h)))]).
  destruct (projections_app_plain (name p) notes tail Hp) as [_ [Ka _]].
  unfold panel_available, dispatched in *. cbn [flat_map]. rewrite Ka.
  unfold tail. destruct (0 <? len (connected_devices p)); cbn;
    rewrite !String.eqb_refl; reflexivity.
Qed.

Lemma connect_completes self device h r0 ps ps' d :
  (forall q, In q ps -> exists b, matches (matcher q) device = Ok b) ->
  Ran (T_connected self device) h r0 ps ps' d ->
  r0 = Ok None.
Proof.
  intros Hm HR. eapply Ran_completes; [exact HR|].
  intros h1 r1 q q' d1 Hq HT. destruct HT; auto.
  destruct (Hm _ Hq) as [b Hb]. congruence.
Qed.

Lemma connect_instantiates device h s r s' d n p :
  registry_ok s ->
  find_plugin n (_plugins s) = Some p ->
  _handle_device_connected device h s = (r, s', d) ->
  panel_instance p = None ->
  _button_callback s <> None ->
  matches (matcher p) device = Ok true ->
  (forall q, In q (_plugins s) -> exists b, matches (matcher q) device = Ok b) ->
  quiet p ->
  exists p' i,
    find_plugin n (_plugins s') = Some p'
    /\ panel_instance p' = Some i
    /\ panel_available n d = [ArgPanel (Some i)].
Proof.
  intros Hreg Hfind E Hnone Hcb Hmatch Hall Hq.
  assert (Hn : name p = n) by (now apply find_plugin_In in Hfind).
  destruct (connect_runs _ _ _ _ _ _ E) as [r0 [HR [Hs _]]].
  pose proof (connect_completes _ _ _ _ _ _ _ Hall HR) as ->.
  destruct (Ran_at (T_connected s device) (T_connected_name s device)
              (T_connected_about s device) n p h _ _ _ d HR Hreg Hfind)
    as [p' [Hf' Hcase]].
  destruct Hcase as [(h1 & r1 & d1 & HT & _ & Hincl & Hproj)|(_ & Hr & _)];
    [|congruence].
  subst n. unfold panel_available, dispatched.
  rewrite (Hproj _ _ (selects_dispatched "plugin-panel-available" (name p))).
  destruct HT; try congruence.
  assert (Hq' : quiet (add_device p device)) by exact Hq.
  match goal with H : Instantiated _ _ _ _ _ |- _ =>
    destruct (Instantiated_quiet _ _ _ _ _ Hq' H) as [Hi Ha] end.
  change (name (add_device p device)) with (name p) in Ha.
  exists p1, (length (h1 ++ [matched_line p device])). splits; auto.
Qed.

Lemma get_panels_instantiates cb h s r s' d n p :
  registry_ok s ->
  find_plugin n (_plugins s) = Some p ->
  get_plugin_panels cb h s = (r, s', d) ->
  panel_instance p = None ->
  connected_devices p <> [] ->
  quiet p ->
  exists p' i,
    find_plugin n (_plugins s') = Some p'
    /\ panel_instance p' = Some i
    /\ panel_available n d = [ArgPanel (Some i)].
Proof.
  intros Hreg Hfind E Hnone Hdev Hq.
  assert (Hn : name p = n) by (now apply find_plugin_In in Hfind).
  destruct (get_panels_runs _ _ _ _ _ _ E) as [HR [Hs _]].
  set (self := set_button_callback s (Some cb)) in *.
  destruct (Ran_at (T_demanded self) (T_demanded_name self) (T_demanded_about self)
              n p h (Ok None) _ _ d HR Hreg Hfind)
    as [p' [Hf' Hcase]].
  destruct Hcase as [(h1 & r1 & d1 & [_ HT] & _ & Hincl & Hproj)|(_ & Hr & _)];
    [|congruence].
  subst n. unfold panel_available, dispatched.
  rewrite (Hproj _ _ (selects_dispatched "plugin-panel-available" (name p))).
  destruct HT; try congruence.
  match goal with H : Instantiated _ _ _ _ _ |- _ =>
    destruct (Instantiated_quiet _ _ _ _ _ Hq H) as [Hi Ha] end.
  exists p1, (length h1). splits; auto.
Qed.

(** *** Statements about the panel operations *)

(** The part of C1 that holds.  Take any record [p] of the registry, named
    [n], and any manager operation.  A panel is instantiated for [p] only by a connect event or
    by the panel query, only when afterwards the record has a device and the
    host has supplied its callback; the operation makes at most one
    constructor call for [n], answered by exactly one of "panel available"
    and the load error of a failed instantiation; each "panel available"
    carries the new instance, which has been set active ([lifecycle_step]).
    On the connect event of a matched device with the callback already
    supplied, and on the panel query with devices already present, a plugin
    whose code does not raise gets its panel and "panel available" is
    emitted exactly once. *)
Theorem panel_lifecycle :
  forall op h s r s' d n p,
    registry_ok s ->
    find_plugin n (_plugins s) = Some p ->
    run_op op h s = (r, s', d) ->
    exists p',
      find_plugin n (_plugins s') = Some p'
      /\ lifecycle_step (_button_callback s') p p' d
      /\ (panel_instance p = None -> panel_instance p' <> None -> is_demand op)
      /\ (forall device,
            op = OpConnect device ->
            panel_instance p = None ->
            _button_callback s <> None ->
            matches (matcher p) device = Ok true ->
            (forall q, In q (_plugins s) ->
               exists b, matches (matcher q) device = Ok b) ->
            quiet p ->
            exists i, panel_instance p' = Some i
                      /\ panel_available n d = [ArgPanel (Some i)])
      /\ (forall cb,
            op = OpGetPanels cb ->
            panel_instance p = None ->
            connected_devices p <> [] ->
            quiet p ->
            exists i, panel_instance p' = Some i
                      /\ panel_available n d = [ArgPanel (Some i)]).
Proof.
  intros op h s r s' d n p Hreg Hfind E.
  destruct (run_op_lifecycle op h s r s' d n p Hreg Hfind E) as [p' [Hf' [HL Hdem]]].
  exists p'. splits; auto.
  - intros device -> Hnone Hcb Hm Hall Hq. cbn [run_op] in E.
    destruct (connect_instantiates device h s r s' d n p Hreg Hfind E Hnone Hcb Hm Hall Hq)
      as [p2 [i [Hf2 [Hi Ha]]]].
    exists i. split; [congruence | assumption].
  - intros cb -> Hnone Hdev Hq. cbn [run_op] in E.
    destruct (get_plugin_panels cb h s) as [[r1 s1] d1] eqn:E1.
    destruct (get_panels_instantiates cb h s r1 s1 d1 n p Hreg Hfind E1 Hnone Hdev Hq)
      as [p2 [i [Hf2 [Hi Ha]]]].
    destruct (get_panels_runs _ _ _ _ _ _ E1) as [_ [_ [panels ->]]].
    rewrite (bind_ok _ _ _ _ _ _ _ E1) in E. unfold ret in E.
    inversion E; subst. rewrite app_nil_r.
    exists i. split; [congruence | assumption].
Qed.

Lemma T_disconnected_name path_ h r p p' d :
  T_disconnected path_ h r p p' d -> name p' = name p.
Proof. apply Disconnected_name. Qed.

(** The part of C6 that holds.  When a disconnect empties the device list
    of a record that has a panel, [active(-1)] has been called on that panel
    and the record still holds the same instance; a later connect of a
    matching device on which no rule of the registry raises keeps the
    instance, makes no constructor call, and the only calls into the plugin
    are [on_device_connected] for the new device, followed by [active(1)]
    unless that notification raised. *)
Theorem panel_survives_last_disconnect :
  forall path_ h s r s' d n p i p1,
    find_plugin n (_plugins s) = Some p ->
    panel_instance p = Some i ->
    connected_devices p <> [] ->
    _handle_device_disconnected path_ h s = (r, s', d) ->
    find_plugin n (_plugins s') = Some p1 ->
    connected_devices p1 = [] ->
    (In (EvCall n (Some i) (active (-1))) d /\ panel_instance p1 = Some i)
    /\ forall device h2 r2 s2 d2,
         registry_ok s' ->
         matches (matcher p1) device = Ok true ->
         (forall q, In q (_plugins s') ->
            exists b, matches (matcher q) device = Ok b) ->
         _handle_device_connected device h2 s' = (r2, s2, d2) ->
         exists p2,
           find_plugin n (_plugins s2) = Some p2
           /\ panel_instance p2 = Some i
           /\ connected_devices p2 = [device_info_of device]
           /\ constructions n d2 = []
           /\ (calls_of n d2
               = [(Some i, on_device_connected (device_info_of device));
                  (Some i, active 1)]
               \/ calls_of n d2
                  = [(Some i, on_device_connected (device_info_of device))]).
Proof.
  intros path_ h s r s' d n p i p1 Hfind Hi Hdev E Hf1 Hempty.
  assert (Hn : name p = n) by (now apply find_plugin_In in Hfind).
  destruct (disconnect_runs _ _ _ _ _ _ E) as [r0 [HR _]].
  destruct (Ran_find (T_disconnected path_) (T_disconnected_name path_)
              n p h r0 _ _ d HR Hfind) as [p' [Hf' Hcase]].
  assert (p' = p1) by congruence. subst p'.
  assert (Hfirst : In (EvCall n (Some i) (active (-1))) d /\ panel_instance p1 = Some i).
  { destruct Hcase as [(h1 & r1 & d1 & HT & Hincl & _)|[-> _]]; [|contradiction].
    destruct HT as (Hp' & _ & _ & _ & Hlast & _). split.
    - apply Hincl. rewrite <- Hn. apply Hlast; auto.
    - rewrite Hp'. exact Hi. }
  split; [exact Hfirst|].
  destruct Hfirst as [_ Hi1].
  intros device h2 r2 s2 d2 Hreg Hm Hall E2.
  assert (Hn1 : name p1 = n) by (now apply find_plugin_In in Hf1).
  destruct (connect_runs _ _ _ _ _ _ E2) as [r3 [HR2 _]].
  pose proof (connect_completes _ _ _ _ _ _ _ Hall HR2) as ->.
  destruct (Ran_at (T_connected s' device) (T_connected_name s' device)
              (T_connected_about s' device) n p1 h2 _ _ _ d2 HR2 Hreg Hf1)
    as [p2 [Hf2 Hcase2]].
  destruct Hcase2 as [(h3 & r3 & d3 & HT & _ & Hincl & Hproj)|(_ & Hr & _)];
    [|congruence].
  exists p2. split; [assumption|].
  unfold constructions, calls_of.
  rewrite (Hproj _ _ (selects_constructions n)), (Hproj _ _ (selects_calls n)).
  destruct HT; try congruence.
  match goal with H : panel_instance p1 = Some ?j |- _ =>
    assert (j = i) by congruence; subst j end.
  splits.
  - exact Hi1.
  - cbn. now rewrite Hempty.
  - match goal with H : Forwarded _ _ _ _ |- _ => destruct H end; reflexivity.
  - match goal with H : Forwarded _ _ _ _ |- _ => destruct H end;
      cbn; rewrite Hn1, !String.eqb_refl; cbn; auto.
Qed.

(** The part of C7 that holds.  When no rule raises on the device, a
    connect event adds the device to the device list of every record whose
    rules match it and leaves the other records' lists alone; when no panel
    raises from [active(-1)], a disconnect event removes the devices of
    that path from every record.  Nothing is owned exclusively. *)
Theorem device_shared_between_plugins :
  (forall device h s r s' d,
     (forall q, In q (_plugins s) -> exists b, matches (matcher q) device = Ok b) ->
     _handle_device_connected device h s = (r, s', d) ->
     r = Ok tt
     /\ forall n p,
          find_plugin n (_plugins s) = Some p ->
          exists p',
            find_plugin n (_plugins s') = Some p'
            /\ connected_devices p'
               = match matches (matcher p) device with
                 | Ok true => connected_devices p ++ [device_info_of device]
                 | _ => connected_devices p
                 end)
  /\ (forall path_ h s r s' d,
        (forall q h1, In q (_plugins s) ->
           behaviour (panel_class q) h1 (active (-1)) = Returns) ->
        _handle_device_disconnected path_ h s = (r, s', d) ->
        r = Ok tt
        /\ forall n p,
             find_plugin n (_plugins s) = Some p ->
             exists p',
               find_plugin n (_plugins s') = Some p'
               /\ connected_devices p' = other_paths path_ (connected_devices p)
               /\ Forall (fun di => info_path di <> path_) (connected_devices p')).
Proof.
  split.
  - intros device h s r s' d Hall E.
    destruct (connect_runs _ _ _ _ _ _ E) as [r0 [HR [_ Hr]]].
    pose proof (connect_completes _ _ _ _ _ _ _ Hall HR) as ->.
    split.
    { destruct Hr as [[_ ->]|[e [He _]]]; [reflexivity | discriminate]. }
    intros n p Hfind.
    apply (Forall2_find
             (fun p p' => connected_devices p'
                          = match matches (matcher p) device with
                            | Ok true => connected_devices p ++ [device_info_of device]
                            | _ => connected_devices p
                            end) n (_plugins s) (_plugins s') p); [|assumption].
    eapply Ran_Forall2_complete; [exact HR | reflexivity |].
    intros h1 q q' d1 Hq HT. split; [eapply Connected_name; eauto|].
    inversion HT; subst;
      match goal with H : matches _ _ = _ |- _ => rewrite H end; auto.
    match goal with H : Instantiated _ _ _ _ _ |- _ =>
      apply Instantiated_devices in H; rewrite H end. reflexivity.
  - intros path_ h s r s' d Hsafe E.
    destruct (disconnect_runs _ _ _ _ _ _ E) as [r0 [HR [_ Hr]]].
    assert (Hr0 : r0 = Ok None).
    { eapply Ran_completes; [exact HR|].
      intros h1 r1 q q' d1 Hq (_ & Hres & _ & Hraise & _).
      destruct Hres as [->|[e ->]]; [reflexivity|].
      destruct (Hraise e eq_refl) as [h2 Hb]. rewrite (Hsafe q h2 Hq) in Hb.
      discriminate. }
    subst r0. split.
    { destruct Hr as [[_ ->]|[e [He _]]]; [reflexivity | discriminate]. }
    intros n p Hfind.
    apply (Forall2_find
             (fun p p' => connected_devices p' = other_paths path_ (connected_devices p)
                          /\ Forall (fun di => info_path di <> path_) (connected_devices p'))
             n (_plugins s) (_plugins s') p); [|assumption].
    eapply Ran_Forall2_complete; [exact HR | reflexivity |].
    intros h1 q q' d1 Hq HT. split; [eapply Disconnected_name; eauto|].
    destruct HT as (_ & _ & Hok & _). rewrite (Hok eq_refl). split; [reflexivity|].
    unfold other_paths. apply Forall_forall. intros di Hdi.
    apply filter_In in Hdi. destruct Hdi as [_ Hdi].
    apply negb_true_iff in Hdi. now apply String.eqb_neq.
Qed.

Lemma Instantiated_constructs self h p p' evs :
  Instantiated self h p p' evs ->
  panel_instance p = None ->
  forall ps, In p ps -> Forall (constructs_only_without_panel ps) evs.
Proof.
  intros H Hnone ps Hin.
  assert (Hc : constructs_only_without_panel ps
                 (EvCall (name p) None (construct_call self p))).
  { cbn. eauto. }
  assert (Hplain : forall l, Forall plain_event l ->
                             Forall (constructs_only_without_panel ps) l).
  { intros l Hl. eapply Forall_impl; [|exact Hl].
    intros [m i c|e m a|m|t] He; cbn in *; auto.
    destruct i; auto. destruct c; auto; contradiction. }
  destruct H; unfold instantiation_failed.
  - repeat (constructor; [first [exact Hc | exact I]|]). constructor.
  - repeat (constructor; [first [exact Hc | exact I]|]). constructor.
  - constructor; [exact Hc|]. constructor; [exact I|].
    apply Forall_app. split.
    + apply Hplain. eapply Replayed_plain; eauto.
    + repeat (constructor; [exact I|]). constructor.
  - constructor; [exact Hc|]. constructor; [exact I|].
    apply Forall_app. split.
    + apply Hplain. eapply Replayed_plain; eauto.
    + apply Forall_app. split.
      * destruct (0 <? len (connected_devices p)); repeat constructor.
      * repeat constructor.
Qed.

Lemma plain_constructs ps l :
  Forall plain_event l -> Forall (constructs_only_without_panel ps) l.
Proof.
  intros Hl. eapply Forall_impl; [|exact Hl].
  intros [m i c|e m a|m|t] He; cbn in *; auto.
  destruct i; auto. destruct c; auto; contradiction.
Qed.

Lemma run_op_constructs op h s r s' d :
  run_op op h s = (r, s', d) ->
  Forall (constructs_only_without_panel (_plugins s)) d.
Proof.
  destruct op as [device|path_|cb|m|m st|]; intros E;
    try (apply plain_constructs;
         refine (proj1 (run_op_quiet_ops _ h s r s' d _ E)); cbn; tauto).
  - cbn [run_op] in E.
    destruct (connect_runs _ _ _ _ _ _ E) as [r0 [HR _]].
    eapply Ran_events_in; [exact HR|].
    intros h1 r1 p p' d1 Hin HT. destruct HT.
    + constructor.
    + constructor.
    + constructor; [exact I|].
      match goal with H : Instantiated _ _ _ _ _ |- _ =>
        pose proof (Instantiated_constructs _ _ _ _ _ H) as Hc end.
      assert (Hall : Forall (constructs_only_without_panel (add_device p device :: _plugins s)) evs).
      { apply Hc; [assumption | now left]. }
      eapply Forall_impl; [|exact Hall].
      intros [m i c|e m a|m|t] He; cbn in *; auto.
      destruct i; auto. destruct c; auto.
      destruct He as [q [[<-|Hq] [Hm Hp]]]; eauto.
    + repeat constructor.
    + constructor; [exact I|]. apply plain_constructs. eapply Forwarded_plain; eauto.
  - cbn [run_op] in E.
    destruct (get_plugin_panels cb h s) as [[r1 s1] d1] eqn:E1.
    destruct (get_panels_runs _ _ _ _ _ _ E1) as [HR [_ [panels ->]]].
    rewrite (bind_ok _ _ _ _ _ _ _ E1) in E. unfold ret in E.
    inversion E; subst. rewrite app_nil_r.
    eapply Ran_events_in; [exact HR|].
    intros h1 r1 p p' d2 Hin [_ HT]. destruct HT.
    + constructor.
    + constructor.
    + eapply Instantiated_constructs; eauto.
Qed.

(** C10.  Through any sequence of connect, disconnect, panel query, preset
    and stop operations, whatever they return or raise, every record keeps
    its name and, once it holds a panel instance, holds that same instance;
    a constructor call is only made for a record whose [panel_instance] is
    [None]; and [stop] returns, calls [shutdown] on every panel and leaves
    the registry as it is. *)
Theorem panel_instance_stable :
  (forall ops h s r s' d,
     run_ops ops h s = (r, s', d) ->
     Forall2 keeps_panel (_plugins s) (_plugins s'))
  /\ (forall op h s r s' d,
        run_op op h s = (r, s', d) ->
        Forall (constructs_only_without_panel (_plugins s)) d)
  /\ (forall h s r s' d,
        stop h s = (r, s', d) ->
        r = Ok tt
        /\ _plugins s' = _plugins s
        /\ forall p i, In p (_plugins s) -> panel_instance p = Some i ->
             In (EvCall (name p) (Some i) shutdown) d).
Proof.
  splits.
  - intros. eapply run_ops_keeps; eauto.
  - intros. eapply run_op_constructs; eauto.
  - intros h s r s' d E. destruct (stop_runs _ _ _ _ _ E) as [HR [_ Hr]].
    splits; auto.
    + assert (HF : Forall2 eq (_plugins s) (_plugins s')).
      { eapply Ran_Forall2; [| |exact HR]; [reflexivity|].
        now intros ? ? ? ? ? (_ & -> & _). }
      clear - HF. induction HF; congruence.
    + intros p i Hin Hi.
      destruct (Ran_visits _ _ _ _ _ _ HR eq_refl p Hin) as [h1 [p' [d1 [HT [_ Hincl]]]]].
      destruct HT as (_ & _ & HS). apply Hincl.
      destruct HS; try congruence;
        match goal with H : panel_instance p = Some ?j |- _ =>
          assert (j = i) by congruence; subst j end; now left.
Qed.

(** *** The matcher *)

Lemma hex_digit_facts c d :
  hex_digit c = Some d ->
  digit_value c = Some d /\ (d <? 16) = true
  /\ Ascii.eqb c "_" = false /\ Py_ISSPACE c = false
  /\ Ascii.eqb c "+" = false /\ Ascii.eqb c "-" = false
  /\ Ascii.eqb c "x" = false /\ Ascii.eqb c "X" = false.
Proof.
  destruct c as [[] [] [] [] [] [] [] []]; vm_compute; intros H;
    try discriminate H; injection H as <-; repeat split; reflexivity.
Qed.

Lemma scan_hex digits :
  forall acc n v,
    hex_value digits acc = Some v ->
    scan_digits (string_of_list_ascii digits) false acc n
    = Some (v, (n + length digits)%nat, EmptyString).
Proof.
  induction digits as [|c digits IH]; intros acc n v H; cbn [hex_value] in H.
  - inversion H; subst. cbn. now rewrite Nat.add_0_r.
  - destruct (hex_digit c) as [d|] eqn:Hc; [|discriminate].
    destruct (hex_digit_facts c d Hc) as (Hd & Hlt & Hus & _).
    cbn [string_of_list_ascii scan_digits]. rewrite Hus, Hd, Hlt.
    rewrite (IH _ _ _ H). cbn [length]. now rewrite Nat.add_succ_r.
Qed.

Lemma int_base16_digits digits n :
  digits <> [] -> hex_value digits 0 = Some n ->
  (if starts_with_underscore (string_of_list_ascii digits)
   then Raise invalid_literal
   else
     match scan_digits (string_of_list_ascii digits) false 0 0 with
     | None => Raise invalid_literal
     | Some (v, k, rest) =>
         if Nat.eqb k 0 then Raise invalid_literal
         else
           match lstrip rest with
           | EmptyString => Ok v
           | _ => Raise invalid_literal
           end
     end) = Ok n.
Proof.
  intros Hne Hv. rewrite (scan_hex digits 0 0%nat n Hv).
  destruct digits as [|c digits]; [contradiction|].
  cbn [hex_value] in Hv. destruct (hex_digit c) as [d|] eqn:Hc; [|discriminate].
  destruct (hex_digit_facts c d Hc) as (_ & _ & Hus & _).
  cbn [string_of_list_ascii starts_with_underscore]. rewrite Hus. reflexivity.
Qed.

Lemma int_base16_hex s n : denotes_hex s n -> int_base16 s = Ok n.
Proof.
  intros H. destruct H as [digits n Hne Hv|x digits n Hx Hne Hv].
  - pose proof (int_base16_digits digits n Hne Hv) as Hmain.
    destruct digits as [|c digits]; [contradiction|].
    pose proof Hv as Hv'. cbn [hex_value] in Hv'.
    destruct (hex_digit c) as [d|] eqn:Hc; [|discriminate].
    destruct (hex_digit_facts c d Hc) as (_ & _ & _ & Hsp & Hplus & Hminus & _).
    unfold int_base16. cbn [string_of_list_ascii lstrip]. rewrite Hsp.
    cbn [strip_sign]. rewrite Hplus, Hminus.
    assert (Hpre : strip_hex_prefix (String c (string_of_list_ascii digits))
                   = String c (string_of_list_ascii digits)).
    { destruct digits as [|c2 digits]; [reflexivity|].
      cbn [hex_value] in Hv'. destruct (hex_digit c2) as [d2|] eqn:Hc2; [|discriminate].
      destruct (hex_digit_facts c2 d2 Hc2) as (_ & _ & _ & _ & _ & _ & Hx1 & Hx2).
      cbn [string_of_list_ascii strip_hex_prefix]. rewrite Hx1, Hx2.
      now rewrite andb_false_r. }
    rewrite Hpre. exact Hmain.
  - pose proof (int_base16_digits digits n Hne Hv) as Hmain.
    assert (Hpre : strip_hex_prefix (String "0" (String x (string_of_list_ascii digits)))
                   = string_of_list_ascii digits).
    { destruct digits as [|c digits]; [contradiction|].
      cbn [hex_value] in Hv. destruct (hex_digit c) as [d|] eqn:Hc; [|discriminate].
      destruct (hex_digit_facts c d Hc) as (_ & _ & Hus & _).
      cbn [string_of_list_ascii strip_hex_prefix]. rewrite Hus.
      destruct Hx as [-> | ->]; reflexivity. }
    unfold int_base16.
    change (lstrip (String "0" (String x (string_of_list_ascii digits))))
      with (String "0" (String x (string_of_list_ascii digits))).
    change (strip_sign (String "0" (String x (string_of_list_ascii digits))))
      with (false, String "0" (String x (string_of_list_ascii digits))).
    cbv beta iota zeta. rewrite Hpre. exact Hmain.
Qed.

Lemma id_int_denotes v n : denotes v n -> id_int v = Ok n.
Proof.
  intros H. destruct H; [reflexivity|]. cbn. now apply int_base16_hex.
Qed.

Lemma vidpid_check_denoted rule device vid pid v p :
  vendor_id rule = Some vid -> product_id rule = Some pid ->
  denotes vid v -> denotes pid p ->
  vidpid_check rule device
  = Ok ((dev_vendor device =? v) && (dev_product device =? p)).
Proof.
  intros Hv Hp Dv Dp. unfold vidpid_check.
  now rewrite Hv, Hp, (id_int_denotes _ _ Dv), (id_int_denotes _ _ Dp).
Qed.

(** The loop of [matches] reaches a rule when the rules before it neither
    match nor raise; what the rule yields is then what [matches] yields,
    unless it falls through to the rules after it. *)
Lemma matches_reaches before rule after device :
  Forall (fun r => rule_matches r device = Ok false) before ->
  matches_rules (before ++ rule :: after) device
  = match rule_matches rule device with
    | Ok false => matches_rules after device
    | r => r
    end.
Proof.
  intros H. induction H as [|r before Hr _ IH]; cbn [app matches_rules].
  - destruct (rule_matches rule device) as [[|]|e]; reflexivity.
  - rewrite Hr. exact IH.
Qed.

Lemma matches_at_rule (m : PluginMatcher) before rule after device :
  devices m = before ++ rule :: after ->
  Forall (fun r => rule_matches r device = Ok false) before ->
  matches m device
  = match rule_matches rule device with
    | Ok false => matches_rules after device
    | r => r
    end.
Proof.
  intros Hdev Hbefore. unfold matches. rewrite Hdev. now apply matches_reaches.
Qed.

(** C3.  Let a rule declare a vendor id and a product id, each an integer
    or a hexadecimal string, and let [v] and [p] be the numbers they denote.
    The VID/PID test of the rule succeeds if and only if the device reports
    exactly vendor [v] and product [p]; when the loop of [matches] reaches
    the rule and the ids are equal, [matches] returns true, and for a rule
    without a name pattern the rule yields true exactly in that case.  Only
    the denoted numbers appear in the statement: an integer and a
    hexadecimal string for the same number are interchangeable, as
    ["0x046d"] and [1133] are.  Conversely, when the ids differ the pair
    contributes nothing: [matches] is what the rule's name pattern and the
    rules after it decide.  So where nothing else makes [matches] true (the
    rules before the rule yield false, its pattern is not found, the rules
    after it do not return true), [matches] returns true if and only if
    the device reports exactly [v] and [p]. *)
Theorem vid_pid_rule_matches :
  forall (m : PluginMatcher) before rule after device vid pid v p,
    devices m = before ++ rule :: after ->
    Forall (fun r => rule_matches r device = Ok false) before ->
    vendor_id rule = Some vid -> product_id rule = Some pid ->
    denotes vid v -> denotes pid p ->
    (vidpid_check rule device = Ok true
     <-> dev_vendor device = v /\ dev_product device = p)
    /\ (dev_vendor device = v /\ dev_product device = p ->
        matches m device = Ok true)
    /\ (name_pattern rule = None ->
        (rule_matches rule device = Ok true
         <-> dev_vendor device = v /\ dev_product device = p))
    /\ denotes (IdStr "0x046d") 1133 /\ denotes (IdInt 1133) 1133
    /\ (~ (dev_vendor device = v /\ dev_product device = p) ->
        matches m device
        = match pattern_check rule device with
          | Ok false => matches_rules after device
          | r => r
          end)
    /\ (pattern_check rule device <> Ok true ->
        matches_rules after device <> Ok true ->
        (matches m device = Ok true
         <-> dev_vendor device = v /\ dev_product device = p)).
Proof.
  intros m before rule after device vid pid v p Hdev Hbefore Hv Hp Dv Dp.
  pose proof (vidpid_check_denoted rule device vid pid v p Hv Hp Dv Dp) as Hcheck.
  assert (Hiff : vidpid_check rule device = Ok true
                 <-> dev_vendor device = v /\ dev_product device = p).
  { rewrite Hcheck. split.
    - intros H. inversion H as [H1]. apply andb_true_iff in H1.
      destruct H1 as [H1 H2]. apply Z.eqb_eq in H1, H2. auto.
    - intros [H1 H2]. apply Z.eqb_eq in H1, H2. now rewrite H1, H2. }
  assert (Hyes : dev_vendor device = v /\ dev_product device = p ->
                 matches m device = Ok true).
  { intros Heq. apply Hiff in Heq.
    rewrite (matches_at_rule m before rule after device Hdev Hbefore).
    unfold rule_matches. now rewrite Heq. }
  assert (Hno : ~ (dev_vendor device = v /\ dev_product device = p) ->
                matches m device
                = match pattern_check rule device with
                  | Ok false => matches_rules after device
                  | r => r
                  end).
  { intros Hne.
    rewrite (matches_at_rule m before rule after device Hdev Hbefore).
    unfold rule_matches. rewrite Hcheck.
    destruct ((dev_vendor device =? v) && (dev_product device =? p)) eqn:Heq.
    - exfalso. apply Hne. apply Hiff. exact Hcheck.
    - reflexivity. }
  splits.
  - exact Hiff.
  - exact Hyes.
  - intros Hnone. rewrite <- Hiff. unfold rule_matches, pattern_check.
    rewrite Hnone. destruct (vidpid_check rule device) as [[|]|e];
      split; intros H; congruence.
  - constructor. apply (hex_prefixed "x" ["0"; "4"; "6"; "d"]%char); auto; discriminate.
  - constructor.
  - exact Hno.
  - intros Hpat Hafter. split; [|exact Hyes].
    intros Hm.
    destruct ((dev_vendor device =? v) && (dev_product device =? p)) eqn:Heq.
    + apply Hiff. exact Hcheck.
    + exfalso. rewrite Hno in Hm.
      * destruct (pattern_check rule device) as [[|]|e]; congruence.
      * intros Hids. apply Hiff in Hids. rewrite Hcheck in Hids. discriminate.
Qed.


(** *** The scan loop *)

Lemma run_host_op_running op h s r s' d :
  run_host_op op h s = (r, s', d) ->
  r = Ok tt
  /\ (_running s' = _running s \/ (op = HostStop /\ _running s' = false)).
Proof.
  destruct op as [cb| |n|n st]; cbn [run_host_op]; unfold discard; intros E.
  - destruct (get_plugin_panels cb h s) as [[r1 s1] d1] eqn:E1.
    destruct (get_panels_runs _ _ _ _ _ _ E1) as [_ [Hs _]].
    inversion E; subst. split; [reflexivity|]. left. rewrite Hs. reflexivity.
  - destruct (stop h s) as [[r1 s1] d1] eqn:E1.
    destruct (stop_runs _ _ _ _ _ E1) as [_ [Hs _]].
    inversion E; subst. split; [reflexivity|]. right. rewrite Hs. auto.
  - destruct (get_plugin_preset_settings n h s) as [[r1 s1] d1] eqn:E1.
    destruct (get_preset_runs _ _ _ _ _ _ E1) as [_ [-> _]].
    inversion E; subst. auto.
  - destruct (apply_plugin_preset_settings n st h s) as [[r1 s1] d1] eqn:E1.
    destruct (apply_preset_runs _ _ _ _ _ _ _ E1) as [_ [-> _]].
    inversion E; subst. auto.
Qed.

Lemma host_ops_running ops :
  forall h s r s' d,
    for_each ops run_host_op h s = (r, s', d) ->
    r = Ok tt
    /\ (_running s' = _running s \/ (In HostStop ops /\ _running s' = false)).
Proof.
  induction ops as [|op ops IH]; intros h s r s' d E; cbn [for_each] in E.
  - unfold ret in E. inversion E; subst. auto.
  - destruct (run_host_op op h s) as [[r1 s1] d1] eqn:E1.
    destruct (run_host_op_running _ _ _ _ _ _ E1) as [-> H1].
    rewrite (bind_ok _ _ _ _ _ _ _ E1) in E.
    destruct (for_each ops run_host_op (h ++ d1) s1) as [[r2 s2] d2] eqn:E2.
    inversion E; subst. destruct (IH _ _ _ _ _ E2) as [-> H2].
    split; [reflexivity|].
    destruct H2 as [H2|[Hin H2]].
    + destruct H1 as [H1|[-> H1]].
      * left. congruence.
      * right. split; [now left | congruence].
    + right. split; [now right | assumption].
Qed.

Lemma failed_enumeration_step o later known h s s1 d1 e :
  for_each (host_ops o) run_host_op h s = (Ok tt, s1, d1) ->
  _running s1 = true ->
  list_devices o = Raise e ->
  scan_loop (o :: later) known h s
  = match scan_loop later known
            (h ++ d1 ++ [listing_error e; EvSleep error_backoff]) s1 with
    | (r, s', d) => (r, s', d1 ++ listing_error e :: EvSleep error_backoff :: d)
    end.
Proof.
  intros Hhost Hrun He. cbn [scan_loop].
  rewrite (bind_ok _ _ _ _ _ _ _ Hhost).
  rewrite bind_get, Hrun. cbn [negb]. rewrite He.
  unfold print, sleep. rewrite bind_emit. fold (listing_error e).
  rewrite bind_emit. rewrite <- !app_assoc. cbn [app].
  now destruct (scan_loop later known
                  (h ++ d1 ++ [listing_error e; EvSleep error_backoff]) s1)
    as [[r s'] d].
Qed.

Lemma failing_enumerations_keep_looping obs :
  forall known h s r s' d,
    Forall (fun o => exists e, list_devices o = Raise e) obs ->
    scan_loop obs known h s = (r, s', d) ->
    r = Ok StillRunning
    \/ (r = Ok Stopped
        /\ (_running s = false
            \/ Exists (fun o => In HostStop (host_ops o)) obs)).
Proof.
  induction obs as [|o later IH]; intros known h s r s' d Hall E.
  - cbn in E. inversion E; subst. now left.
  - inversion Hall as [|? ? [e He] Hlater]; subst.
    cbn [scan_loop] in E.
    destruct (for_each (host_ops o) run_host_op h s) as [[r1 s1] d1] eqn:E1.
    destruct (host_ops_running _ _ _ _ _ _ E1) as [-> Hrun].
    rewrite (bind_ok _ _ _ _ _ _ _ E1) in E. rewrite bind_get in E.
    destruct (_running s1) eqn:Hr1; cbn [negb] in E.
    + rewrite He in E. unfold print, sleep in E. rewrite !bind_emit in E.
      match type of E with context [scan_loop later known ?h' s1] =>
        destruct (scan_loop later known h' s1) as [[r2 s2] d2] eqn:E2 end.
      inversion E; subst.
      destruct (IH _ _ _ _ _ _ Hlater E2) as [->|[-> Hwhy]]; [now left|].
      right. split; [reflexivity|].
      destruct Hwhy as [Hfalse|Hex]; [congruence|]. right. now apply Exists_cons_tl.
    + unfold ret in E. inversion E; subst. right. split; [reflexivity|].
      destruct Hrun as [Hsame|[Hin _]].
      * left. congruence.
      * right. now apply Exists_cons_hd.
Qed.

(** C8, as amended.  An iteration that finds the running flag set and whose
    enumeration fails logs the error, sleeps [error_backoff] seconds, which
    is the same three seconds as the normal polling sleep and not more, and
    goes on with the rest of the loop, the known devices unchanged: what
    the loop yields from there is what its remaining iterations yield.  A
    run in which every enumeration fails never ends by an exception, and
    returns only when the running flag was found cleared (it was clear from
    the start, or [stop] was called). *)
Theorem enumeration_failure_retries :
  error_backoff = poll_interval
  /\ (forall o later known h s s1 d1 e,
        for_each (host_ops o) run_host_op h s = (Ok tt, s1, d1) ->
        _running s1 = true ->
        list_devices o = Raise e ->
        scan_loop (o :: later) known h s
        = match scan_loop later known
                  (h ++ d1 ++ [listing_error e; EvSleep error_backoff]) s1 with
          | (r, s', d) =>
              (r, s', d1 ++ listing_error e :: EvSleep error_backoff :: d)
          end)
  /\ (forall obs known h s r s' d,
        Forall (fun o => exists e, list_devices o = Raise e) obs ->
        scan_loop obs known h s = (r, s', d) ->
        r = Ok StillRunning
        \/ (r = Ok Stopped
            /\ (_running s = false
                \/ Exists (fun o => In HostStop (host_ops o)) obs))).
Proof.
  splits.
  - reflexivity.
  - apply failed_enumeration_step.
  - apply failing_enumerations_keep_looping.
Qed.

(** *** The loader *)

Lemma load_plugin_outcome name_ path_ dir h s :
  _load_plugin name_ path_ dir h s
  = match load_outcome name_ path_ dir with
    | Loaded p =>
        (Ok true, set_plugins s (plugins_set name_ p (_plugins s)),
         [EvPrint ("[PluginManager] Loaded plugin: "
                   ++ match md_name (metadata p) with
                      | Some n => n
                      | None => name_
                      end)%string])
    | Rejected message log_line =>
        (Ok false, s,
         [EvDispatch "plugin-load-error" name_ (ArgMessage message);
          EvPrint ("[PluginManager] Plugin '" ++ name_ ++ "': " ++ log_line)%string])
    | Crashed e => (Raise e, s, [])
    end.
Proof.
  unfold _load_plugin, load_outcome.
  destruct (has_plugin_json dir); cbn [negb]; [|reflexivity].
  destruct (has_init_py dir); cbn [negb]; [|reflexivity].
  destruct (json_load dir) as [md|e].
  2:{ destruct (is_JSONDecodeError e); reflexivity. }
  destruct (find (fun field => negb (has_field field md)) required_fields);
    [reflexivity|].
  destruct (exec_module dir) as [module|e]; [|reflexivity].
  destruct (md_panel_class md) as [cls_name|]; [|reflexivity].
  destruct (module_getattr module cls_name) as [[cls|]|]; [| reflexivity | reflexivity].
  cbn [issubclass_PluginPanel]. rewrite bind_lift_ok.
  destruct (extends_PluginPanel cls); cbn [negb]; [|reflexivity].
  rewrite bind_get, bind_put. reflexivity.
Qed.

Lemma plugins_set_fresh key p ps :
  ~ In key (map name ps) ->
  plugins_set key p ps = ps ++ [p].
Proof.
  induction ps as [|q ps IH]; intros Hn; cbn [plugins_set app]; [reflexivity|].
  cbn [map In] in Hn.
  destruct (String.eqb (name q) key) eqn:E.
  - apply String.eqb_eq in E. exfalso. apply Hn. now left.
  - rewrite IH by (intros Hx; apply Hn; now right). reflexivity.
Qed.

Lemma load_outcome_name name_ path_ dir p :
  load_outcome name_ path_ dir = Loaded p -> name p = name_.
Proof.
  unfold load_outcome.
  destruct (has_plugin_json dir); cbn [negb]; [|discriminate].
  destruct (has_init_py dir); cbn [negb]; [|discriminate].
  destruct (json_load dir) as [md|e].
  2:{ destruct (is_JSONDecodeError e); discriminate. }
  destruct (find (fun field => negb (has_field field md)) required_fields);
    [discriminate|].
  destruct (exec_module dir) as [module|e]; [|discriminate].
  destruct (md_panel_class md) as [cls_name|]; [|discriminate].
  destruct (module_getattr module cls_name) as [[cls|]|]; try discriminate.
  destruct (extends_PluginPanel cls); [|discriminate].
  intros H. inversion H. reflexivity.
Qed.

(** Discovery over bundles none of which makes the loader raise: it returns,
    reports one load error per rejected bundle, in order and by name, and,
    the entries of a directory listing being distinct and not yet
    registered, adds one record per bundle that loads. *)
Lemma discover_loop_counts entries :
  forall plugins_path h s,
    (forall b, In b entries -> isdir b = true -> crashes plugins_path b = false) ->
    exists s' d,
      for_each entries (fun dir =>
        when (isdir dir)
          (bind (_load_plugin (entry dir) (path_join plugins_path (entry dir)) dir)
                (fun _ => ret tt))) h s
      = (Ok tt, s', d)
      /\ map fst (all_load_errors d)
         = map entry (filter (rejected plugins_path) (filter isdir entries))
      /\ (NoDup (map entry entries) ->
          (forall b, In b entries -> ~ In (entry b) (map name (_plugins s))) ->
          map name (_plugins s')
          = map name (_plugins s)
            ++ map entry (filter (loads plugins_path) (filter isdir entries))).
Proof.
  induction entries as [|b entries IH]; intros plugins_path h s Hsafe.
  - exists s, []. cbn. splits; auto. intros. now rewrite app_nil_r.
  - cbn [for_each]. unfold when at 1. cbn [filter].
    destruct (isdir b) eqn:Hdir.
    + assert (Hb : crashes plugins_path b = false) by (apply Hsafe; [now left | assumption]).
      unfold crashes in Hb. rewrite bind_assoc.
      pose proof (load_plugin_outcome (entry b) (path_join plugins_path (entry b)) b h s)
        as Hload.
      cbn [filter]. unfold rejected at 1, loads at 1.
      destruct (load_outcome (entry b) (path_join plugins_path (entry b)) b)
        as [p|m l|e] eqn:Hout; [| |discriminate].
      * rewrite (bind_ok _ _ _ _ _ _ _ Hload). rewrite bind_ret.
        match goal with |- context [for_each entries _ ?h1 ?s1] =>
          destruct (IH plugins_path h1 s1) as [s' [d [E [Herr Hrec]]]] end.
        { intros; apply Hsafe; auto. now right. }
        rewrite E. eexists; eexists. split; [reflexivity|]. split.
        -- unfold all_load_errors in *. cbn [app flat_map]. exact Herr.
        -- cbn [map]. intros Hnd Hfresh. inversion Hnd as [|? ? Hnotin Hnd']; subst.
           assert (Hfresh_b : ~ In (entry b) (map name (_plugins s)))
             by (apply Hfresh; now left).
           cbn [_plugins set_plugins] in Hrec.
           rewrite (plugins_set_fresh _ _ _ Hfresh_b) in Hrec.
           rewrite map_app in Hrec.
           cbn [map] in Hrec. rewrite (load_outcome_name _ _ _ _ Hout) in Hrec.
           rewrite Hrec; [now rewrite <- app_assoc | assumption |].
           intros b' Hb' Hin. apply in_app_or in Hin. destruct Hin as [Hin|[Hin|[]]].
           ++ apply (Hfresh b'); [now right | assumption].
           ++ apply Hnotin. rewrite Hin. now apply in_map.
      * rewrite (bind_ok _ _ _ _ _ _ _ Hload). rewrite bind_ret.
        match goal with |- context [for_each entries _ ?h1 ?s1] =>
          destruct (IH plugins_path h1 s1) as [s' [d [E [Herr Hrec]]]] end.
        { intros; apply Hsafe; auto. now right. }
        rewrite E. eexists; eexists. split; [reflexivity|]. split.
        -- unfold all_load_errors in *. cbn [app flat_map].
           change (String.eqb "plugin-load-error" "plugin-load-error") with true.
           cbn [app map fst]. now rewrite Herr.
        -- intros Hnd Hfresh. inversion Hnd as [|? ? Hnotin Hnd']; subst.
           apply Hrec; [assumption|]. intros b' Hb'. apply Hfresh. now right.
    + rewrite bind_ret.
      destruct (IH plugins_path h s) as [s' [d [E [Herr Hrec]]]].
      { intros; apply Hsafe; auto. now right. }
      rewrite E. eexists; eexists. split; [reflexivity|]. split; [exact Herr|].
      intros Hnd Hfresh. inversion Hnd as [|? ? Hnotin Hnd']; subst.
      apply Hrec; [assumption|]. intros b' Hb'. apply Hfresh. now right.
Qed.

(** From an empty registry: N directories of which K are rejected give
    N - K records and K load errors. *)
Lemma discovery_counts entries cfg :
  NoDup (map entry entries) ->
  (forall b, In b entries -> isdir b = true -> crashes (cfg ++ "/plugins") b = false) ->
  exists s' d,
    _discover_plugins (Some entries) [] (new_manager cfg) = (Ok tt, s', d)
    /\ (length (all_load_errors d)
        = length (filter (rejected (cfg ++ "/plugins")) (filter isdir entries)))%nat
    /\ (length (_plugins s') + length (all_load_errors d)
        = length (filter isdir entries))%nat.
Proof.
  intros Hnd Hsafe. unfold _discover_plugins. rewrite bind_get.
  change (_plugins_path (new_manager cfg)) with (cfg ++ "/plugins")%string.
  destruct (discover_loop_counts entries (cfg ++ "/plugins")%string [] (new_manager cfg) Hsafe)
    as [s' [d [E [Herr Hrec]]]].
  exists s', d. split; [exact E|].
  assert (Hk : length (all_load_errors d)
               = length (filter (rejected (cfg ++ "/plugins")) (filter isdir entries))).
  { rewrite <- (length_map fst), Herr. apply length_map. }
  split; [exact Hk|].
  assert (Hn : length (_plugins s')
               = length (filter (loads (cfg ++ "/plugins")) (filter isdir entries))).
  { rewrite <- (length_map name), Hrec; auto. cbn. apply length_map. }
  rewrite Hn, Hk.
  assert (Hsafe' : forall b, In b (filter isdir entries) ->
                             crashes (cfg ++ "/plugins") b = false).
  { intros b Hb. apply filter_In in Hb. destruct Hb. auto. }
  clear - Hsafe'. induction (filter isdir entries) as [|b l IH]; [reflexivity|].
  cbn [filter]. assert (Hb := Hsafe' b (or_introl eq_refl)).
  unfold loads at 1, rejected at 1. unfold crashes in Hb.
  destruct (load_outcome (entry b) (path_join (cfg ++ "/plugins") (entry b)) b);
    try discriminate; cbn [length];
    rewrite <- IH by (intros; apply Hsafe'; now right); lia.
Qed.

(** *** The registry keeps distinct names *)

Lemma plugins_set_names key p ps :
  name p = key ->
  forall n, In n (map name (plugins_set key p ps)) -> n = key \/ In n (map name ps).
Proof.
  intros Hp. induction ps as [|q ps IH]; intros n Hn; cbn [plugins_set] in Hn.
  - cbn in Hn. destruct Hn as [<-|[]]. now left.
  - destruct (String.eqb (name q) key) eqn:E; cbn [map In] in Hn |- *.
    + destruct Hn as [<-|Hn]; auto.
    + destruct Hn as [<-|Hn]; auto. destruct (IH n Hn); auto.
Qed.

Lemma plugins_set_registry key p ps :
  name p = key ->
  NoDup (map name ps) -> NoDup (map name (plugins_set key p ps)).
Proof.
  intros Hp. induction ps as [|q ps IH]; intros Hnd; cbn [plugins_set].
  - cbn. constructor; [intros [] | constructor].
  - apply NoDup_cons_iff in Hnd. destruct Hnd as [Hnotin Hnd'].
    destruct (String.eqb (name q) key) eqn:E; cbn [map].
    + apply String.eqb_eq in E. apply NoDup_cons_iff.
      split; [rewrite Hp, <- E; exact Hnotin | assumption].
    + apply NoDup_cons_iff. split; [|now apply IH].
      intros Hin. destruct (plugins_set_names _ _ _ Hp _ Hin) as [Hk|Hk]; [|contradiction].
      apply String.eqb_neq in E. congruence.
Qed.

Lemma new_manager_registry cfg : registry_ok (new_manager cfg).
Proof. constructor. Qed.

Lemma load_plugin_registry name_ path_ dir h s r s' d :
  registry_ok s ->
  _load_plugin name_ path_ dir h s = (r, s', d) ->
  registry_ok s'.
Proof.
  unfold registry_ok. intros Hreg. rewrite load_plugin_outcome.
  destruct (load_outcome name_ path_ dir) as [p|m l|e] eqn:Ho;
    intros E; inversion E; subst; auto.
  cbn [_plugins set_plugins]. apply plugins_set_registry; auto.
  eapply load_outcome_name; eauto.
Qed.

Lemma run_op_registry op h s r s' d :
  registry_ok s -> run_op op h s = (r, s', d) -> registry_ok s'.
Proof.
  unfold registry_ok. intros Hreg E. apply run_op_keeps in E.
  assert (Hn : map name (_plugins s') = map name (_plugins s)).
  { clear - E. induction E as [|p p' ps ps' [Hp _] _ IH]; cbn [map]; congruence. }
  now rewrite Hn.
Qed.

(** *** Where exceptions can and cannot leave the handlers *)

(** Whatever plugin code does, the connect handler returns when the rules
    evaluate, the panel query, the preset operations and [stop] always
    return, and the disconnect handler can only raise what some panel's
    [active(-1)] raised. *)
Lemma plugin_exceptions_contained op h s r s' d :
  run_op op h s = (r, s', d) ->
  match op with
  | OpConnect device =>
      (forall q, In q (_plugins s) -> exists b, matches (matcher q) device = Ok b) ->
      r = Ok tt
  | OpDisconnect _ =>
      forall e, r = Raise e ->
        exists q h1, In q (_plugins s)
                     /\ behaviour (panel_class q) h1 (active (-1)) = Raises e
  | _ => r = Ok tt
  end.
Proof.
  destruct op as [device|path_|cb|n|n st|]; cbn [run_op]; intros E.
  - intros Hall. destruct (connect_runs _ _ _ _ _ _ E) as [r0 [HR [_ Hr]]].
    pose proof (connect_completes _ _ _ _ _ _ _ Hall HR) as ->.
    destruct Hr as [[_ ->]|[e [He _]]]; [reflexivity | discriminate].
  - intros e He. destruct (disconnect_runs _ _ _ _ _ _ E) as [r0 [HR [_ Hr]]].
    destruct Hr as [[_ ->]|[e' [-> Hr]]]; [discriminate|].
    rewrite He in Hr. inversion Hr; subst e'. clear - HR.
    remember (Raise e) as r0 eqn:Hr0. induction HR.
    + discriminate.
    + destruct (IHHR Hr0) as [q [h1 [Hq Hb]]]. exists q, h1. split; [now right | assumption].
    + subst r. destruct H as (_ & _ & _ & Hraise & _).
      destruct (Hraise e eq_refl) as [h1 Hb]. exists p, h1. split; [now left | assumption].
  - destruct (get_plugin_panels cb h s) as [[r1 s1] d1] eqn:E1.
    destruct (get_panels_runs _ _ _ _ _ _ E1) as [_ [_ [panels ->]]].
    rewrite (bind_ok _ _ _ _ _ _ _ E1) in E. unfold ret in E. now inversion E.
  - destruct (get_plugin_preset_settings n h s) as [[r1 s1] d1] eqn:E1.
    destruct (get_preset_runs _ _ _ _ _ _ E1) as [_ [_ [st ->]]].
    rewrite (bind_ok _ _ _ _ _ _ _ E1) in E. unfold ret in E. now inversion E.
  - now destruct (apply_preset_runs _ _ _ _ _ _ _ E) as [_ [_ ->]].
  - now destruct (stop_runs _ _ _ _ _ E) as [_ [_ ->]].
Qed.

(** *** Where plugin exceptions and loader errors escape *)

(** C2 fails on the code.  [active(-1)] in [_handle_device_disconnected] is
    called outside any [try]: when the panel of the first plugin raises
    there, the exception leaves the handler, and the second plugin is
    neither notified nor relieved of the device.  The call three lines
    above it, [on_device_disconnected], is guarded: an exception there is
    logged and the handler completes. *)
Theorem deactivation_exception_escapes :
  (exists s' d,
     _handle_device_disconnected "/dev/input/event7" [] fragile_manager
     = (Raise deactivation_failed, s', d)
     /\ In (EvCall "wheel" (Some 0%nat) (active (-1))) d
     /\ calls_of "pedals" d = []
     /\ map connected_devices (_plugins s') = [[]; [acme_info]])
  /\ (exists s' d,
        _handle_device_disconnected "/dev/input/event7" [] noisy_manager
        = (Ok tt, s', d)
        /\ map connected_devices (_plugins s') = [[]; []]).
Proof.
  split; eexists; eexists; (split; [vm_compute; reflexivity|]); vm_compute; auto.
Qed.

(** C9 fails on the code.  When [panel_class] names an object of the module
    that is not a class, [issubclass] raises [TypeError], nothing catches
    it, and [_load_plugin] raises without reporting a load error; a class
    that does not extend [PluginPanel] is reported as the claim says. *)
Theorem non_class_factory_crashes_loader :
  _load_plugin "gearbox" "/cfg/plugins/gearbox" function_factory_bundle []
    (new_manager "/cfg")
  = (Raise not_a_class, new_manager "/cfg", [])
  /\ _load_plugin "gearbox" "/cfg/plugins/gearbox" unrelated_class_bundle []
       (new_manager "/cfg")
     = (Ok false, new_manager "/cfg",
        [EvDispatch "plugin-load-error" "gearbox"
           (ArgMessage "Panel class must extend PluginPanel");
         EvPrint "[PluginManager] Plugin 'gearbox': Panel class must extend PluginPanel"]).
Proof. split; vm_compute; reflexivity. Qed.

(** The part of C5 that holds: a bundle without [plugin.json] is reported
    by a load error that names the file, and the loader returns [False]. *)
Lemma missing_metadata_is_reported name_ path_ dir h s :
  has_plugin_json dir = false ->
  _load_plugin name_ path_ dir h s
  = (Ok false, s,
     [EvDispatch "plugin-load-error" name_ (ArgMessage "Missing plugin.json");
      EvPrint ("[PluginManager] Plugin '" ++ name_ ++ "': " ++ "Missing plugin.json")%string]).
Proof.
  intros H. unfold _load_plugin. rewrite H. reflexivity.
Qed.

(** C5 fails on the code.  Of three bundles, the second names a function as
    its panel class: the loader raises on it (the defect of C9), discovery
    stops there and raises to its caller, one record is registered instead
    of two and no load error is reported.  With a second bundle that merely
    lacks [plugin.json], discovery does what the claim says: two records and
    one load error. *)
Theorem discovery_aborts_on_crash :
  (exists s' d,
     _discover_plugins (Some [wheel_bundle; function_factory_bundle; pedals_bundle])
       [] (new_manager "/cfg")
     = (Raise not_a_class, s', d)
     /\ map name (_plugins s') = ["wheel"]
     /\ load_errors "gearbox" d = [])
  /\ (exists s' d,
        _discover_plugins (Some [wheel_bundle; no_metadata_bundle; pedals_bundle])
          [] (new_manager "/cfg")
        = (Ok tt, s', d)
        /\ map name (_plugins s') = ["wheel"; "pedals"]
        /\ load_errors "broken" d = [ArgMessage "Missing plugin.json"]).
Proof.
  split; eexists; eexists; (split; [vm_compute; reflexivity|]); vm_compute; auto.
Qed.


(** ** Further properties of the code *)

(** *** Loops over the registry, piecewise *)

Lemma for_plugins_app {X R} (body : M (LoadedPlugin * X) (option R)) l1 l2 :
  forall h x,
    for_plugins body (l1 ++ l2) h x
    = match for_plugins body l1 h x with
      | (Ok None, (l1', x1), d1) =>
          match for_plugins body l2 (h ++ d1) x1 with
          | (r, (l2', x2), d2) => (r, (l1' ++ l2', x2), d1 ++ d2)
          end
      | (r, (l1', x1), d1) => (r, (l1' ++ l2, x1), d1)
      end.
Proof.
  induction l1 as [|p l1 IH]; intros h x; cbn [app for_plugins].
  - rewrite app_nil_r.
    now destruct (for_plugins body l2 h x) as [[r [l2' x2]] d2].
  - destruct (body h (p, x)) as [[[[r0|]|e] [p1 x1]] d1]; try reflexivity.
    rewrite IH.
    destruct (for_plugins body l1 (h ++ d1) x1) as [[[[r1|]|e1] [l1' x2]] d2];
      try reflexivity.
    rewrite <- app_assoc.
    destruct (for_plugins body l2 (h ++ d1 ++ d2) x2) as [[r3 [l2' x3]] d3].
    now rewrite app_assoc.
Qed.

(** A loop whose body does nothing on any record does nothing. *)
Lemma for_plugins_idle {X R} (body : M (LoadedPlugin * X) (option R)) ps :
  forall h x,
    (forall p, In p ps -> body h (p, x) = (Ok None, (p, x), [])) ->
    for_plugins body ps h x = (Ok None, (ps, x), []).
Proof.
  induction ps as [|p ps IH]; intros h x Hidle; cbn [for_plugins]; [reflexivity|].
  rewrite (Hidle p (or_introl eq_refl)). rewrite app_nil_r.
  rewrite IH by (intros q Hq; apply Hidle; now right). reflexivity.
Qed.

Lemma set_plugins_same s : set_plugins s (_plugins s) = s.
Proof. now destruct s. Qed.

(** *** The matcher beyond single rules *)

Lemma matches_rules_any rules device :
  (forall r, In r rules -> exists b, rule_matches r device = Ok b) ->
  matches_rules rules device
  = Ok (existsb (fun r => yields_true (rule_matches r device)) rules).
Proof.
  induction rules as [|r rules IH]; intros Hok; cbn [matches_rules existsb];
    [reflexivity|].
  destruct (Hok r (or_introl eq_refl)) as [b Hb]. rewrite Hb.
  destruct b; cbn [yields_true orb]; [reflexivity|].
  apply IH. intros q Hq. apply Hok. now right.
Qed.

Lemma existsb_Permutation {A} (f : A -> bool) l l' :
  Permutation l l' -> existsb f l = existsb f l'.
Proof.
  intros H. induction H; cbn [existsb].
  - reflexivity.
  - now rewrite IHPermutation.
  - now rewrite !orb_assoc, (orb_comm (f y)).
  - congruence.
Qed.

(** X1.  When no rule raises on the device, [matches] is the disjunction of
    its rules: it returns [True] exactly when some rule yields [True], and
    the order of the rules does not matter. *)
Theorem matches_is_any_rule :
  forall (m : PluginMatcher) device,
    (forall r, In r (devices m) -> exists b, rule_matches r device = Ok b) ->
    matches m device
    = Ok (existsb (fun r => yields_true (rule_matches r device)) (devices m))
    /\ forall m' : PluginMatcher,
         Permutation (devices m) (devices m') ->
         matches m' device = matches m device.
Proof.
  intros m device Hok. unfold matches. split.
  - now apply matches_rules_any.
  - intros m' Hperm. rewrite (matches_rules_any (devices m) device Hok).
    rewrite (matches_rules_any (devices m') device).
    + f_equal. symmetry. now apply existsb_Permutation.
    + intros r Hr. apply Hok. eapply Permutation_in; [|exact Hr].
      now apply Permutation_sym.
Qed.

(** X2.  A rule that declares only one of [vendor_id] and [product_id], or
    neither, and no name pattern matches no device, and the value it does
    declare is never parsed: a matcher made of such rules returns [False]
    for every device, an empty rule list included. *)
Theorem one_sided_rules_never_match :
  forall (m : PluginMatcher) device,
    (forall r, In r (devices m) ->
       (vendor_id r = None \/ product_id r = None) /\ name_pattern r = None) ->
    matches m device = Ok false.
Proof.
  intros m device Hrules. unfold matches.
  induction (devices m) as [|r rules IH]; cbn [matches_rules]; [reflexivity|].
  destruct (Hrules r (or_introl eq_refl)) as [Hside Hpat].
  assert (Hr : rule_matches r device = Ok false).
  { unfold rule_matches, vidpid_check, pattern_check. rewrite Hpat.
    destruct Hside as [Hv|Hp].
    - now rewrite Hv.
    - rewrite Hp. now destruct (vendor_id r). }
  rewrite Hr. apply IH. intros q Hq. apply Hrules. now right.
Qed.

(** X3.  A rule that declares both ids, one of them a string that is not
    hexadecimal, makes [matches] raise the [ValueError] of [int] as soon as
    the loop reaches it, whatever the device and whatever its name pattern:
    the vendor id is parsed first, and the product id is parsed even when
    the vendor already differs. *)
Theorem malformed_id_raises :
  forall (m : PluginMatcher) before rule after device text e,
    devices m = before ++ rule :: after ->
    Forall (fun r => rule_matches r device = Ok false) before ->
    int_base16 text = Raise e ->
    (forall pid,
       vendor_id rule = Some (IdStr text) -> product_id rule = Some pid ->
       matches m device = Raise e)
    /\ (forall vid v,
          vendor_id rule = Some vid -> id_int vid = Ok v ->
          product_id rule = Some (IdStr text) ->
          matches m device = Raise e).
Proof.
  intros m before rule after device text e Hdev Hbefore Hbad.
  unfold matches. rewrite Hdev, (matches_reaches before rule after device Hbefore).
  split.
  - intros pid Hv Hp. unfold rule_matches, vidpid_check. rewrite Hv, Hp.
    cbn [id_int]. now rewrite Hbad.
  - intros vid v Hv Hvid Hp. unfold rule_matches, vidpid_check. rewrite Hv, Hp, Hvid.
    cbn [id_int]. now rewrite Hbad.
Qed.

Lemma connected_body_raises self device h p x e :
  matches (matcher p) device = Raise e ->
  connected_body self device h (p, x) = (Raise e, (p, x), []).
Proof.
  intros Hm. unfold connected_body. rewrite bind_plugin, Hm. reflexivity.
Qed.

Lemma connect_raises_at :
  forall device h s before p after e,
    _plugins s = before ++ p :: after ->
    (forall q, In q before -> exists b, matches (matcher q) device = Ok b) ->
    matches (matcher p) device = Raise e ->
    exists before' d,
      _handle_device_connected device h s
      = (Raise e, set_plugins s (before' ++ p :: after), d)
      /\ map name before' = map name before.
Proof.
  intros device h s before p after e Hps Hbefore Hraise.
  unfold _handle_device_connected. rewrite bind_get.
  unfold bind, with_plugins. rewrite Hps, for_plugins_app.
  destruct (for_plugins (connected_body s device) before h tt)
    as [[r1 [before' x1]] d1] eqn:E1.
  pose proof (for_plugins_Ran (connected_body s device) (T_connected s device)
                (connected_body_runs s device) before h tt r1 before' x1 d1 E1) as HR.
  pose proof (connect_completes _ _ _ _ _ _ _ Hbefore HR) as ->.
  cbn [for_plugins]. destruct x1.
  rewrite (connected_body_raises s device (h ++ d1) p tt e Hraise).
  rewrite app_nil_r.
  exists before', d1. split; [reflexivity|].
  eapply Ran_names; [|exact HR]. apply T_connected_name.
Qed.

(** X4.  An exception raised while the rules of a record are evaluated
    leaves [_handle_device_connected]: the records before it have been
    handled, the record itself and every record after it are left as they
    were, so a later plugin that matches the device never receives it. *)
Theorem connect_aborts_on_rule_error :
  forall device h s before p after e,
    _plugins s = before ++ p :: after ->
    (forall q, In q before -> exists b, matches (matcher q) device = Ok b) ->
    matches (matcher p) device = Raise e ->
    exists before' d,
      _handle_device_connected device h s
      = (Raise e, set_plugins s (before' ++ p :: after), d)
      /\ map name before' = map name before.
Proof. exact connect_raises_at. Qed.

(** *** The loader and discovery *)

Lemma for_each_app {S A} (body : A -> M S unit) l1 l2 :
  forall h s,
    for_each (l1 ++ l2) body h s
    = match for_each l1 body h s with
      | (Ok _, s1, d1) =>
          match for_each l2 body (h ++ d1) s1 with
          | (r, s2, d2) => (r, s2, d1 ++ d2)
          end
      | (Raise e, s1, d1) => (Raise e, s1, d1)
      end.
Proof.
  induction l1 as [|x l1 IH]; intros h s; cbn [app for_each].
  - unfold ret. rewrite app_nil_r.
    now destruct (for_each l2 body h s) as [[r s2] d2].
  - unfold bind.
    destruct (body x h s) as [[[[]|e] s1] d1]; [|reflexivity].
    rewrite IH.
    destruct (for_each l1 body (h ++ d1) s1) as [[[[]|e1] s2] d2]; [|reflexivity].
    rewrite <- app_assoc.
    destruct (for_each l2 body (h ++ d1 ++ d2) s2) as [[r3 s3] d3].
    now rewrite app_assoc.
Qed.

Lemma for_each_cons {S A} (body : A -> M S unit) x l h s :
  for_each (x :: l) body h s
  = match body x h s with
    | (Ok _, s1, d1) =>
        match for_each l body (h ++ d1) s1 with
        | (r, s2, d2) => (r, s2, d1 ++ d2)
        end
    | (Raise e, s1, d1) => (Raise e, s1, d1)
    end.
Proof. reflexivity. Qed.

Lemma find_plugin_set_same key p ps :
  name p = key -> find_plugin key (plugins_set key p ps) = Some p.
Proof.
  intros Hn. unfold find_plugin.
  induction ps as [|q ps IH]; cbn [plugins_set find].
  - now rewrite Hn, String.eqb_refl.
  - destruct (String.eqb (name q) key) eqn:E; cbn [find].
    + now rewrite Hn, String.eqb_refl.
    + now rewrite E.
Qed.

Lemma find_plugin_set_other key p ps n :
  name p = key -> n <> key ->
  find_plugin n (plugins_set key p ps) = find_plugin n ps.
Proof.
  intros Hn Hne. unfold find_plugin.
  assert (Hp : String.eqb (name p) n = false).
  { apply String.eqb_neq. congruence. }
  induction ps as [|q ps IH]; cbn [plugins_set find].
  - now rewrite Hp.
  - destruct (String.eqb (name q) key) eqn:E; cbn [find].
    + apply String.eqb_eq in E. rewrite Hp.
      assert (Hq : String.eqb (name q) n = false).
      { apply String.eqb_neq. congruence. }
      now rewrite Hq.
    + now rewrite IH.
Qed.

Lemma plugins_set_present key p ps :
  name p = key -> In key (map name ps) ->
  map name (plugins_set key p ps) = map name ps.
Proof.
  intros Hn. induction ps as [|q ps IH]; intros Hin; [destruct Hin|].
  cbn [plugins_set]. destruct (String.eqb (name q) key) eqn:E; cbn [map].
  - apply String.eqb_eq in E. congruence.
  - f_equal. apply IH. destruct Hin as [Hq|Hin]; [|assumption].
    apply String.eqb_neq in E. contradiction.
Qed.

Lemma load_outcome_loaded name_ path_ dir p :
  load_outcome name_ path_ dir = Loaded p ->
  name p = name_ /\ path p = path_ /\ panel_instance p = None
  /\ connected_devices p = []
  /\ extends_PluginPanel (panel_class p) = true
  /\ plugin_name (matcher p) = name_
  /\ json_load dir = Ok (metadata p)
  /\ md_devices (metadata p) = Some (devices (matcher p)).
Proof.
  unfold load_outcome.
  destruct (has_plugin_json dir); cbn [negb]; [|discriminate].
  destruct (has_init_py dir); cbn [negb]; [|discriminate].
  destruct (json_load dir) as [md|e].
  2:{ destruct (is_JSONDecodeError e); discriminate. }
  destruct (find (fun field => negb (has_field field md)) required_fields) eqn:Hreq;
    [discriminate|].
  destruct (exec_module dir) as [module|e]; [|discriminate].
  destruct (md_panel_class md) as [cls_name|]; [|discriminate].
  destruct (module_getattr module cls_name) as [[cls|]|]; try discriminate.
  destruct (extends_PluginPanel cls) eqn:Hext; [|discriminate].
  intros H. inversion H. cbn. splits; auto.
  pose proof (find_none _ _ Hreq "devices") as Hd.
  cbn in Hd. specialize (Hd (or_intror (or_intror (or_introl eq_refl)))).
  unfold has_field in Hd. cbn in Hd.
  destruct (md_devices md); [reflexivity|discriminate].
Qed.

(** X5.  [_load_plugin] is all or nothing.  When it returns [True] the
    registry maps the name to a new record without a panel and without
    devices, whose class extends [PluginPanel] and whose rules are the
    [devices] of [plugin.json]; every other name maps to what it did, and no
    load error was dispatched.  When it returns [False] the registry is
    unchanged and exactly one load error, for this name, was dispatched.
    When it raises, nothing was changed and nothing was emitted. *)
Theorem load_plugin_all_or_nothing :
  forall name_ path_ dir h s,
    let '(r, s', d) := _load_plugin name_ path_ dir h s in
    match r with
    | Ok true =>
        (exists p,
           find_plugin name_ (_plugins s') = Some p
           /\ path p = path_ /\ panel_instance p = None /\ connected_devices p = []
           /\ extends_PluginPanel (panel_class p) = true
           /\ json_load dir = Ok (metadata p)
           /\ md_devices (metadata p) = Some (devices (matcher p)))
        /\ (forall n, n <> name_ ->
              find_plugin n (_plugins s') = find_plugin n (_plugins s))
        /\ all_load_errors d = []
    | Ok false =>
        s' = s /\ exists message, all_load_errors d = [(name_, ArgMessage message)]
    | Raise _ => s' = s /\ d = []
    end.
Proof.
  intros name_ path_ dir h s. rewrite load_plugin_outcome.
  destruct (load_outcome name_ path_ dir) as [p|message log_line|e] eqn:Hout.
  - destruct (load_outcome_loaded _ _ _ _ Hout)
      as [Hn [Hpath [Hpanel [Hdev [Hext [_ [Hjson Hrules]]]]]]].
    cbn [_plugins set_plugins]. splits.
    + exists p. splits; auto. now apply find_plugin_set_same.
    + intros n Hne. now apply find_plugin_set_other.
    + reflexivity.
  - split; [reflexivity|]. exists message. unfold all_load_errors. cbn [flat_map].
    change (String.eqb "plugin-load-error" "plugin-load-error") with true.
    reflexivity.
  - split; reflexivity.
Qed.

(** X6.  Loading a bundle under a name that is already registered replaces
    the record in place: the registry keeps its names and their order, the
    new record has no panel and no devices whatever the old one held, and
    no method of the old panel is called, [shutdown] included. *)
Theorem reload_replaces_record :
  forall name_ path_ dir h s s' d old,
    find_plugin name_ (_plugins s) = Some old ->
    _load_plugin name_ path_ dir h s = (Ok true, s', d) ->
    map name (_plugins s') = map name (_plugins s)
    /\ (exists p,
          find_plugin name_ (_plugins s') = Some p
          /\ panel_instance p = None /\ connected_devices p = [])
    /\ forall n, calls_of n d = [].
Proof.
  intros name_ path_ dir h s s' d old Hold E.
  rewrite load_plugin_outcome in E.
  destruct (load_outcome name_ path_ dir) as [p|message log_line|e] eqn:Hout;
    [|discriminate|discriminate].
  destruct (load_outcome_loaded _ _ _ _ Hout) as [Hn [_ [Hpanel [Hdev _]]]].
  inversion E; subst s' d. cbn [_plugins set_plugins]. splits.
  - apply plugins_set_present; [assumption|].
    apply find_plugin_In in Hold. destruct Hold as [Hin Hname].
    rewrite <- Hname. now apply in_map.
  - exists p. splits; auto. now apply find_plugin_set_same.
  - reflexivity.
Qed.

Lemma discover_step plugins_path b h s :
  when (isdir b)
    (bind (_load_plugin (entry b) (path_join plugins_path (entry b)) b)
          (fun _ => ret tt)) h s
  = if isdir b then
      match load_outcome (entry b) (path_join plugins_path (entry b)) b with
      | Loaded p =>
          (Ok tt, set_plugins s (plugins_set (entry b) p (_plugins s)),
           [EvPrint ("[PluginManager] Loaded plugin: "
                     ++ match md_name (metadata p) with
                        | Some n => n
                        | None => entry b
                        end)%string])
      | Rejected message log_line =>
          (Ok tt, s,
           [EvDispatch "plugin-load-error" (entry b) (ArgMessage message);
            EvPrint ("[PluginManager] Plugin '" ++ entry b ++ "': " ++ log_line)%string])
      | Crashed e => (Raise e, s, [])
      end
    else (Ok tt, s, []).
Proof.
  unfold when. destruct (isdir b); [|reflexivity].
  unfold bind. rewrite load_plugin_outcome.
  destruct (load_outcome (entry b) (path_join plugins_path (entry b)) b);
    reflexivity.
Qed.

Lemma discover_loop_result entries :
  forall plugins_path h s r s' d,
    for_each entries (fun dir =>
      when (isdir dir)
        (bind (_load_plugin (entry dir) (path_join plugins_path (entry dir)) dir)
              (fun _ => ret tt))) h s
    = (r, s', d) ->
    _running s' = _running s
    /\ _button_callback s' = _button_callback s
    /\ _plugins_path s' = _plugins_path s
    /\ match r with
       | Ok _ =>
           forall b, In b entries -> isdir b = true -> crashes plugins_path b = false
       | Raise e =>
           exists b,
             In b entries /\ isdir b = true
             /\ load_outcome (entry b) (path_join plugins_path (entry b)) b = Crashed e
       end.
Proof.
  induction entries as [|b entries IH]; intros plugins_path h s r s' d E.
  - cbn in E. inversion E; subst. splits; auto. intros b [].
  - cbn [for_each] in E. unfold bind at 1 in E. rewrite discover_step in E.
    destruct (isdir b) eqn:Hdir.
    + destruct (load_outcome (entry b) (path_join plugins_path (entry b)) b)
        as [p|message log_line|e] eqn:Hout.
      * match type of E with context [for_each entries ?f ?h1 ?s1] =>
          destruct (for_each entries f h1 s1) as [[r1 s1'] d1] eqn:E1 end.
        inversion E; subst r s' d.
        destruct (IH _ _ _ _ _ _ E1) as [Hr [Hc [Hp Hres]]].
        cbn in Hr, Hc, Hp. splits; auto.
        destruct r1 as [[]|e].
        -- intros b' [<-|Hb'] Hd'; [|now apply Hres].
           unfold crashes. now rewrite Hout.
        -- destruct Hres as [b' [Hin Hb']]. exists b'. split; [now right|exact Hb'].
      * match type of E with context [for_each entries ?f ?h1 ?s1] =>
          destruct (for_each entries f h1 s1) as [[r1 s1'] d1] eqn:E1 end.
        inversion E; subst r s' d.
        destruct (IH _ _ _ _ _ _ E1) as [Hr [Hc [Hp Hres]]].
        splits; auto.
        destruct r1 as [[]|e].
        -- intros b' [<-|Hb'] Hd'; [|now apply Hres].
           unfold crashes. now rewrite Hout.
        -- destruct Hres as [b' [Hin Hb']]. exists b'. split; [now right|exact Hb'].
      * inversion E; subst r s' d. splits; auto.
        exists b. splits; auto. now left.
    + match type of E with context [for_each entries ?f ?h1 ?s1] =>
        destruct (for_each entries f h1 s1) as [[r1 s1'] d1] eqn:E1 end.
      inversion E; subst r s' d.
      destruct (IH _ _ _ _ _ _ E1) as [Hr [Hc [Hp Hres]]].
      splits; auto.
      destruct r1 as [[]|e].
      * intros b' [<-|Hb'] Hd'; [congruence|now apply Hres].
      * destruct Hres as [b' [Hin Hb']]. exists b'. split; [now right|exact Hb'].
Qed.

(** X7.  Discovery looks at directories only and stops at the first one
    whose loading raises: the registry and the events are then those of
    discovering the entries before it, and no later entry is attempted.
    Entries that are not directories change nothing, and a plugins
    directory that does not exist is not an error. *)
Theorem first_crash_ends_discovery :
  forall before b after h s e,
    (forall b0, In b0 before -> isdir b0 = true ->
                crashes (_plugins_path s) b0 = false) ->
    isdir b = true ->
    load_outcome (entry b) (path_join (_plugins_path s) (entry b)) b = Crashed e ->
    (exists s1 d1,
       _discover_plugins (Some before) h s = (Ok tt, s1, d1)
       /\ _discover_plugins (Some (before ++ b :: after)) h s = (Raise e, s1, d1))
    /\ (forall entries,
          _discover_plugins (Some entries) h s
          = _discover_plugins (Some (filter isdir entries)) h s)
    /\ _discover_plugins None h s = (Ok tt, s, []).
Proof.
  intros before b after h s e Hsafe Hdir Hcrash. splits.
  - unfold _discover_plugins. rewrite !bind_get.
    destruct (discover_loop_counts before (_plugins_path s) h s Hsafe)
      as [s1 [d1 [E _]]].
    exists s1, d1. split; [exact E|].
    rewrite for_each_app, E. cbn [for_each]. unfold bind at 1.
    rewrite discover_step, Hdir, Hcrash. now rewrite app_nil_r.
  - intros entries. unfold _discover_plugins. rewrite !bind_get.
    clear Hsafe Hdir Hcrash. generalize (_plugins_path s). intros plugins_path.
    revert h s.
    induction entries as [|c entries IH]; intros h s; [reflexivity|].
    cbn [filter]. rewrite for_each_cons, discover_step.
    destruct (isdir c) eqn:Hdir.
    + rewrite for_each_cons, discover_step, Hdir.
      destruct (load_outcome (entry c) (path_join plugins_path (entry c)) c);
        try reflexivity; now rewrite <- IH.
    + rewrite app_nil_r. rewrite <- IH.
      now destruct (for_each entries _ h s) as [[r1 s1] d1].
  - reflexivity.
Qed.

(** X8.  [start] begins device monitoring only when discovery returns: it
    ends with the running flag set and no directory of the listing made the
    loader raise, or it raises the exception of such a directory and the
    running flag is as it was, so no scan loop runs. *)
Theorem start_monitors_unless_crash :
  forall listing h s,
    let entries := match listing with Some l => l | None => [] end in
    let '(r, s', d) := start listing h s in
    match r with
    | Ok _ =>
        _running s' = true
        /\ forall b, In b entries -> isdir b = true ->
                     crashes (_plugins_path s) b = false
    | Raise e =>
        _running s' = _running s
        /\ exists b,
             In b entries /\ isdir b = true
             /\ load_outcome (entry b) (path_join (_plugins_path s) (entry b)) b
                = Crashed e
    end.
Proof.
  intros listing h s entries. unfold start. fold entries.
  unfold bind at 1.
  destruct (_discover_plugins (Some entries) h s) as [[r1 s1] d1] eqn:E.
  unfold _discover_plugins in E. rewrite bind_get in E.
  destruct (discover_loop_result _ _ _ _ _ _ _ E) as [Hr [_ [_ Hres]]].
  destruct r1 as [[]|e].
  - unfold _start_device_monitoring. rewrite bind_get. cbn. split; [reflexivity|exact Hres].
  - split; assumption.
Qed.

(** *** The scan loop *)

Lemma dict_set_keys_in {V} k (v : V) d x :
  In x (map fst (dict_set k v d)) <-> x = k \/ In x (map fst d).
Proof.
  induction d as [|[k1 v1] d IH]; cbn [dict_set map fst In].
  - split; [intros [H|[]]; now left | intros [H|[]]; now left].
  - destruct (String.eqb k1 k) eqn:E; cbn [map fst In].
    + apply String.eqb_eq in E. subst k1. split.
      * intros [H|H]; [now left | right; now right].
      * intros [H|[H|H]]; [left; congruence | now left | now right].
    + rewrite IH. split.
      * intros [H|[H|H]]; [right; now left | now left | right; now right].
      * intros [H|[H|H]]; [right; now left | now left | right; now right].
Qed.

Lemma dict_set_NoDup {V} k (v : V) d :
  NoDup (map fst d) -> NoDup (map fst (dict_set k v d)).
Proof.
  induction d as [|[k1 v1] d IH]; cbn [dict_set map fst]; intros Hnd.
  - constructor; [intros []|constructor].
  - inversion Hnd as [|? ? Hnotin Hnd']; subst.
    destruct (String.eqb k1 k) eqn:E; cbn [map fst].
    + apply String.eqb_eq in E. subst k1. now constructor.
    + constructor; [|now apply IH].
      rewrite dict_set_keys_in. intros [Hk|Hin]; [|contradiction].
      apply String.eqb_neq in E. congruence.
Qed.

Lemma dict_set_In {V} k (v : V) d x w :
  In (x, w) (dict_set k v d) -> (x = k /\ w = v) \/ In (x, w) d.
Proof.
  induction d as [|[k1 v1] d IH]; cbn [dict_set In].
  - intros [H|[]]. inversion H. auto.
  - destruct (String.eqb k1 k); cbn [In].
    + intros [H|H]; [inversion H; auto|auto].
    + intros [H|H]; [auto|]. destruct (IH H); auto.
Qed.

Lemma dict_get_In {V} (d : list (string * V)) k v :
  dict_get d k = Some v -> In (k, v) d.
Proof.
  induction d as [|[k1 v1] d IH]; cbn [dict_get In]; [discriminate|].
  destruct (String.eqb k1 k) eqn:E.
  - apply String.eqb_eq in E. intros H. inversion H. subst. now left.
  - intros H. right. now apply IH.
Qed.

Lemma dict_get_keys {V} (d : list (string * V)) k :
  In k (map fst d) -> exists v, dict_get d k = Some v.
Proof.
  induction d as [|[k1 v1] d IH]; cbn [dict_get map fst In]; [intros []|].
  destruct (String.eqb k1 k) eqn:E; [eauto|].
  intros [Hk|Hin]; [|now apply IH].
  apply String.eqb_neq in E. contradiction.
Qed.

Lemma open_devices_facts listing :
  forall current,
    NoDup (map fst current) ->
    NoDup (map fst (open_devices listing current))
    /\ (forall x, In x (map fst (open_devices listing current))
                  <-> In x (map fst current)
                      \/ exists device, In (x, Some device) listing)
    /\ (forall x w, In (x, w) (open_devices listing current) ->
                    In (x, w) current \/ In (x, Some w) listing).
Proof.
  induction listing as [|[path_ [device|]] listing IH]; intros current Hnd;
    cbn [open_devices].
  - splits; auto. intros x. split; [auto|]. intros [H|[device []]]. exact H.
  - destruct (IH (dict_set path_ device current) (dict_set_NoDup _ _ _ Hnd))
      as [Hn [Hkeys Hvals]].
    splits; [exact Hn| |].
    + intros x. rewrite Hkeys, dict_set_keys_in. cbn [In]. split.
      * intros [[->|Hin]|[dv Hin]]; eauto.
      * intros [Hin|[dv [Heq|Hin]]]; eauto. inversion Heq. auto.
    + intros x w Hin. destruct (Hvals x w Hin) as [Hset|Hl]; [|right; now right].
      destruct (dict_set_In _ _ _ _ _ Hset) as [[-> ->]|Hc]; [|now left].
      right. now left.
  - destruct (IH current Hnd) as [Hn [Hkeys Hvals]].
    splits; [exact Hn| |].
    + intros x. rewrite Hkeys. cbn [In]. split.
      * intros [Hin|[dv Hin]]; eauto.
      * intros [Hin|[dv [Heq|Hin]]]; eauto. discriminate.
    + intros x w Hin. destruct (Hvals x w Hin); auto. right. now right.
Qed.

(** X9.  The enumeration of one iteration keeps exactly the listed paths
    whose device could be opened: each such path is a key once, a path
    whose opening raised is absent, every device stored was opened under
    its key, and looking up a key never fails, so the loop over the new
    paths cannot raise [KeyError]. *)
Theorem enumeration_keeps_opened_paths :
  forall listing,
    let current_devices := open_devices listing [] in
    NoDup (map fst current_devices)
    /\ (forall path_,
          In path_ (map fst current_devices)
          <-> exists device, In (path_, Some device) listing)
    /\ (forall path_ device,
          dict_get current_devices path_ = Some device ->
          In (path_, Some device) listing)
    /\ (forall path_,
          In path_ (map fst current_devices) ->
          exists device, dict_get current_devices path_ = Some device).
Proof.
  intros listing current_devices.
  destruct (open_devices_facts listing [] (NoDup_nil _)) as [Hn [Hkeys Hvals]].
  fold current_devices in Hn, Hkeys, Hvals. splits.
  - exact Hn.
  - intros path_. rewrite Hkeys. cbn [map In]. split.
    + intros [[]|H]. exact H.
    + auto.
  - intros path_ device Hget. apply dict_get_In in Hget.
    destruct (Hvals _ _ Hget) as [[]|H]. exact H.
  - intros path_. apply dict_get_keys.
Qed.

Lemma set_minus_nil a b :
  (forall x, In x a -> In x b) -> set_minus a b = [].
Proof.
  unfold set_minus. induction a as [|x a IH]; intros Hsub; cbn [filter];
    [reflexivity|].
  assert (Hx : existsb (String.eqb x) b = true).
  { apply existsb_exists. exists x. split; [apply Hsub; now left|].
    apply String.eqb_refl. }
  rewrite Hx. cbn [negb]. apply IH. intros y Hy. apply Hsub. now right.
Qed.

Lemma set_minus_fresh x b :
  ~ In x b -> set_minus [x] b = [x].
Proof.
  intros Hn. unfold set_minus. cbn [filter].
  destruct (existsb (String.eqb x) b) eqn:E; [|reflexivity].
  apply existsb_exists in E. destruct E as [y [Hy Heq]].
  apply String.eqb_eq in Heq. subst y. contradiction.
Qed.

(** X10.  An iteration that finds the same openable paths as the loop
    already knows calls neither handler: it only sleeps the polling
    interval, leaves the manager as it is and goes on with the same set. *)
Theorem unchanged_devices_are_quiet :
  forall o later known listing h s,
    host_ops o = [] ->
    _running s = true ->
    list_devices o = Ok listing ->
    (forall path_,
       In path_ known <-> exists device, In (path_, Some device) listing) ->
    scan_loop (o :: later) known h s
    = match scan_loop later (map fst (open_devices listing []))
              (h ++ [EvSleep poll_interval]) s with
      | (r, s', d) => (r, s', EvSleep poll_interval :: d)
      end.
Proof.
  intros o later known listing h s Hhost Hrun Hlist Hsame.
  destruct (open_devices_facts listing [] (NoDup_nil _)) as [_ [Hkeys _]].
  cbn [scan_loop]. rewrite Hhost. cbn [for_each]. rewrite bind_ret, bind_get, Hrun.
  cbn [negb]. rewrite Hlist. cbv zeta.
  rewrite (set_minus_nil (map fst (open_devices listing [])) known).
  2:{ intros x Hx. apply Hsame. apply Hkeys in Hx. destruct Hx as [[]|Hx]. exact Hx. }
  rewrite (set_minus_nil known (map fst (open_devices listing []))).
  2:{ intros x Hx. apply Hkeys. right. now apply Hsame. }
  cbn [for_each]. rewrite !bind_ret. unfold sleep. rewrite bind_emit. reflexivity.
Qed.

Lemma host_ops_stop ops :
  forall h s r s' d,
    In HostStop ops \/ _running s = false ->
    for_each ops run_host_op h s = (r, s', d) ->
    _running s' = false.
Proof.
  induction ops as [|op ops IH]; intros h s r s' d Hwhy E; cbn [for_each] in E.
  - unfold ret in E. inversion E; subst. destruct Hwhy as [[]|H]. exact H.
  - destruct (run_host_op op h s) as [[r1 s1] d1] eqn:E1.
    destruct (run_host_op_running _ _ _ _ _ _ E1) as [-> H1].
    rewrite (bind_ok _ _ _ _ _ _ _ E1) in E.
    destruct (for_each ops run_host_op (h ++ d1) s1) as [[r2 s2] d2] eqn:E2.
    inversion E; subst. apply (IH _ _ _ _ _) with (2 := E2).
    destruct Hwhy as [[->|Hin]|Hoff].
    + right. destruct H1 as [H1|[_ H1]]; [|exact H1].
      cbn [run_host_op] in E1. unfold discard in E1.
      destruct (stop h s) as [[r3 s3] d3] eqn:E3.
      destruct (stop_runs _ _ _ _ _ E3) as [_ [Hs _]].
      inversion E1; subst. rewrite Hs. reflexivity.
    + now left.
    + right. destruct H1 as [H1|[_ H1]]; congruence.
Qed.

(** X11.  Once [stop] has been called, or when the running flag is clear
    to begin with, the loop returns at its next check: that iteration
    enumerates nothing, handles no device and does not sleep, and later
    observations are never looked at. *)
Theorem stop_request_ends_loop :
  forall o later known h s,
    In HostStop (host_ops o) \/ _running s = false ->
    scan_loop (o :: later) known h s
    = match for_each (host_ops o) run_host_op h s with
      | (_, s', d) => (Ok Stopped, s', d)
      end.
Proof.
  intros o later known h s Hwhy. cbn [scan_loop].
  destruct (for_each (host_ops o) run_host_op h s) as [[r1 s1] d1] eqn:E1.
  destruct (host_ops_running _ _ _ _ _ _ E1) as [-> _].
  pose proof (host_ops_stop _ _ _ _ _ _ Hwhy E1) as Hoff.
  rewrite (bind_ok _ _ _ _ _ _ _ E1), bind_get, Hoff. cbn [negb].
  unfold ret. now rewrite app_nil_r.
Qed.

(** X12.  An exception raised by the rules of one plugin ends device
    monitoring for every plugin: when a device appears that makes a rule
    raise, [_device_scan_loop]'s loop ends with that exception, the later
    observations are never looked at, and the running flag is still set. *)
Theorem rule_error_ends_monitoring :
  forall o later known path_ device h s before p after e,
    host_ops o = [] ->
    _running s = true ->
    list_devices o = Ok [(path_, Some device)] ->
    ~ In path_ known ->
    _plugins s = before ++ p :: after ->
    (forall q, In q before -> exists b, matches (matcher q) device = Ok b) ->
    matches (matcher p) device = Raise e ->
    exists s' d,
      scan_loop (o :: later) known h s = (Raise e, s', d)
      /\ _running s' = true.
Proof.
  intros o later known path_ device h s before p after e
         Hhost Hrun Hlist Hnew Hps Hbefore Hraise.
  destruct (connect_raises_at device h s before p after e Hps Hbefore Hraise)
    as [before' [d [E Hnames]]].
  exists (set_plugins s (before' ++ p :: after)), d. splits.
  - cbn [scan_loop]. rewrite Hhost. cbn [for_each]. rewrite bind_ret, bind_get, Hrun.
    cbn [negb]. rewrite Hlist. cbv zeta. cbn [open_devices dict_set map fst].
    rewrite (set_minus_fresh path_ known Hnew). cbn [for_each dict_get].
    rewrite String.eqb_refl. rewrite bind_assoc.
    rewrite (bind_raise _ _ _ _ _ _ _ E). reflexivity.
  - cbn. exact Hrun.
Qed.

(** *** Presets *)

Lemma apply_preset_body_skip device_name settings h p (x : unit) :
  handles_preset device_name p = false ->
  apply_preset_body device_name settings h (p, x) = (Ok None, (p, x), []).
Proof.
  intros H. unfold apply_preset_body. rewrite bind_plugin.
  fold (handles_preset device_name p). now rewrite H.
Qed.

Lemma apply_preset_body_hit device_name settings h p (x : unit) :
  handles_preset device_name p = true ->
  exists line,
    apply_preset_body device_name settings h (p, x)
    = (Ok (Some tt), (p, x),
       [EvCall (name p) (panel_instance p) (on_preset_loaded settings); EvPrint line]).
Proof.
  intros H. unfold apply_preset_body. rewrite bind_plugin.
  fold (handles_preset device_name p). rewrite H.
  unfold try_except, bind. rewrite call_panel_run.
  destruct (behaviour (panel_class p) h (on_preset_loaded settings));
    unfold print, emit, ret; cbn [app]; eexists; reflexivity.
Qed.

Lemma get_preset_body_skip device_name h p (x : unit) :
  handles_preset device_name p = false ->
  get_preset_body device_name h (p, x) = (Ok None, (p, x), []).
Proof.
  intros H. unfold get_preset_body. rewrite bind_plugin.
  fold (handles_preset device_name p). now rewrite H.
Qed.

Lemma get_preset_body_hit device_name h p (x : unit) :
  handles_preset device_name p = true ->
  get_preset_body device_name h (p, x)
  = match behaviour (panel_class p) h get_preset_settings with
    | Returns =>
        (Ok (Some (preset_settings (panel_class p) h)), (p, x),
         [EvCall (name p) (panel_instance p) get_preset_settings])
    | Raises e =>
        (Ok None, (p, x),
         [EvCall (name p) (panel_instance p) get_preset_settings;
          EvPrint ("[PluginManager] Error getting preset settings from "
                   ++ device_name ++ ": " ++ str_exn e)%string])
    end.
Proof.
  intros H. unfold get_preset_body. rewrite bind_plugin.
  fold (handles_preset device_name p). rewrite H.
  unfold try_except, bind, call_get_preset_settings. cbn [fst].
  destruct (behaviour (panel_class p) h get_preset_settings); reflexivity.
Qed.

Lemma skipped_records {R} (body : M (LoadedPlugin * unit) (option R)) device_name ps h :
  (forall h1 p x, handles_preset device_name p = false ->
                  body h1 (p, x) = (Ok None, (p, x), [])) ->
  Forall (fun q => handles_preset device_name q = false) ps ->
  for_plugins body ps h tt = (Ok None, (ps, tt), []).
Proof.
  intros Hskip Hall. apply for_plugins_idle. intros p Hp. apply Hskip.
  rewrite Forall_forall in Hall. now apply Hall.
Qed.

(** X13.  [apply_plugin_preset_settings] hands the settings to the first
    record, in registry order, that has a panel with the given
    [preset_device_name], and to no other: exactly one [on_preset_loaded]
    call and one log line, whether the call returns or raises, later
    records with the same name never being called.  When no record
    qualifies, no plugin code runs and one line is logged.  The manager is
    unchanged and nothing is raised either way. *)
Theorem preset_goes_to_first_match :
  forall device_name settings h s,
    (forall before p after,
       _plugins s = before ++ p :: after ->
       Forall (fun q => handles_preset device_name q = false) before ->
       handles_preset device_name p = true ->
       exists line,
         apply_plugin_preset_settings device_name settings h s
         = (Ok tt, s,
            [EvCall (name p) (panel_instance p) (on_preset_loaded settings);
             EvPrint line]))
    /\ (Forall (fun q => handles_preset device_name q = false) (_plugins s) ->
        exists line,
          apply_plugin_preset_settings device_name settings h s
          = (Ok tt, s, [EvPrint line])).
Proof.
  intros device_name settings h s. split.
  - intros before p after Hps Hbefore Hp.
    destruct (apply_preset_body_hit device_name settings h p tt Hp) as [line Hhit].
    exists line. unfold apply_plugin_preset_settings, bind at 1, with_plugins.
    rewrite Hps, for_plugins_app.
    rewrite (skipped_records _ device_name before h
               (apply_preset_body_skip device_name settings) Hbefore).
    rewrite app_nil_r. cbn [for_plugins]. rewrite Hhit. cbn [fst app].
    rewrite <- Hps, set_plugins_same. reflexivity.
  - intros Hall. eexists.
    unfold apply_plugin_preset_settings, bind at 1, with_plugins.
    rewrite (skipped_records _ device_name (_plugins s) h
               (apply_preset_body_skip device_name settings) Hall).
    rewrite set_plugins_same. cbn [fst app]. rewrite bind_get.
    unfold print, emit. reflexivity.
Qed.

Lemma get_preset_loop_same device_name ps h r ps' x' d :
  for_plugins (get_preset_body device_name) ps h tt = (r, (ps', x'), d) ->
  ps' = ps.
Proof.
  intros E.
  pose proof (for_plugins_Ran (get_preset_body device_name) T_preset
                (get_preset_body_runs device_name) ps h tt r ps' x' d E) as HR.
  now destruct (Ran_preset_same _ _ _ _ _ HR).
Qed.

(** X14.  [get_plugin_preset_settings] returns what the first qualifying
    record's [get_preset_settings] returns, calling no later record; a
    qualifying record whose call raises is logged and passed over, the
    search going on with the records after it; with no qualifying record the
    result is the empty dict and no plugin code runs.  The manager is
    unchanged in every case. *)
Theorem preset_settings_from_first_answer :
  forall device_name h s,
    (Forall (fun q => handles_preset device_name q = false) (_plugins s) ->
     get_plugin_preset_settings device_name h s = (Ok [], s, []))
    /\ (forall before p after,
          _plugins s = before ++ p :: after ->
          Forall (fun q => handles_preset device_name q = false) before ->
          handles_preset device_name p = true ->
          let call := EvCall (name p) (panel_instance p) get_preset_settings in
          match behaviour (panel_class p) h get_preset_settings with
          | Returns =>
              get_plugin_preset_settings device_name h s
              = (Ok (preset_settings (panel_class p) h), s, [call])
          | Raises e =>
              exists line,
                get_plugin_preset_settings device_name h s
                = match get_plugin_preset_settings device_name
                          (h ++ [call; EvPrint line]) (set_plugins s after) with
                  | (r, _, d) => (r, s, call :: EvPrint line :: d)
                  end
          end).
Proof.
  intros device_name h s. split.
  - intros Hall. unfold get_plugin_preset_settings, bind at 1, with_plugins.
    rewrite (skipped_records _ device_name (_plugins s) h
               (get_preset_body_skip device_name) Hall).
    now rewrite set_plugins_same.
  - intros before p after Hps Hbefore Hp call.
    pose proof (get_preset_body_hit device_name h p tt Hp) as Hhit.
    destruct (behaviour (panel_class p) h get_preset_settings) as [|e].
    + unfold get_plugin_preset_settings, bind at 1, with_plugins.
      rewrite Hps, for_plugins_app.
      rewrite (skipped_records _ device_name before h
                 (get_preset_body_skip device_name) Hbefore).
      rewrite app_nil_r. cbn [for_plugins]. rewrite Hhit. cbn [fst app].
      rewrite <- Hps, set_plugins_same. reflexivity.
    + exists ("[PluginManager] Error getting preset settings from "
              ++ device_name ++ ": " ++ str_exn e)%string.
      unfold get_plugin_preset_settings, bind, with_plugins.
      rewrite Hps, for_plugins_app.
      rewrite (skipped_records _ device_name before h
                 (get_preset_body_skip device_name) Hbefore).
      rewrite app_nil_r. cbn [for_plugins]. rewrite Hhit.
      cbn [_plugins set_plugins]. fold call.
      match goal with |- context [for_plugins _ after ?h1 tt] =>
        destruct (for_plugins (get_preset_body device_name) after h1 tt)
          as [[r1 [after' x1]] d1] eqn:E1 end.
      pose proof (get_preset_loop_same _ _ _ _ _ _ _ E1) as ->.
      pose proof (for_plugins_Ran (get_preset_body device_name) T_preset
                    (get_preset_body_runs device_name) _ _ _ _ _ _ _ E1) as HR.
      destruct (Ran_preset_same _ _ _ _ _ HR) as [_ [o ->]].
      rewrite <- Hps, set_plugins_same. cbn [fst].
      destruct o; unfold ret; cbn [app]; rewrite ?app_nil_r; reflexivity.
Qed.

(** *** Handlers at the edges *)

(** A loop whose body maps each record by [f] and whose events project to
    [g] of the record. *)
Lemma for_plugins_pointwise {R A} (body : M (LoadedPlugin * unit) (option R))
    (f : LoadedPlugin -> LoadedPlugin) (proj : Event -> list A)
    (g : LoadedPlugin -> list A) ps :
  (forall h p, In p ps ->
     exists d, body h (p, tt) = (Ok None, (f p, tt), d) /\ flat_map proj d = g p) ->
  forall h,
    exists d,
      for_plugins body ps h tt = (Ok None, (map f ps, tt), d)
      /\ flat_map proj d = flat_map g ps.
Proof.
  induction ps as [|p ps IH]; intros Hbody h; cbn [for_plugins map flat_map].
  - exists []. auto.
  - destruct (Hbody h p (or_introl eq_refl)) as [d1 [E1 Hd1]]. rewrite E1.
    destruct (IH (fun h1 q Hq => Hbody h1 q (or_intror Hq)) (h ++ d1))
      as [d2 [E2 Hd2]].
    rewrite E2. exists (d1 ++ d2). split; [reflexivity|].
    now rewrite flat_map_app, Hd1, Hd2.
Qed.

Lemma flat_map_single {A} (l : list A) : flat_map (fun x => [x]) l = l.
Proof. induction l as [|x l IH]; cbn; [reflexivity | now rewrite IH]. Qed.

Lemma connected_body_pending self device h p b :
  _button_callback self = None ->
  panel_instance p = None ->
  matches (matcher p) device = Ok b ->
  connected_body self device h (p, tt)
  = (Ok None, ((if b then add_device p device else p), tt),
     if b then [matched_line p device] else []).
Proof.
  intros Hcb Hpanel Hm.
  destruct (connected_body self device h (p, tt)) as [[r [p' []]] d] eqn:E.
  apply connected_body_runs in E.
  inversion E; subst; try congruence.
  - assert (b = false) by congruence. now subst b.
  - assert (b = true) by congruence. now subst b.
Qed.

Lemma connect_pending_loop self device ps :
  _button_callback self = None ->
  (forall q, In q ps -> panel_instance q = None) ->
  forall h,
    exists r ps' d,
      for_plugins (connected_body self device) ps h tt = (r, (ps', tt), d)
      /\ plugin_calls d = []
      /\ Forall (fun ev => exists line, ev = EvPrint line) d
      /\ (forall q, In q ps' -> panel_instance q = None)
      /\ map name ps' = map name ps.
Proof.
  intros Hcb. induction ps as [|p ps IH]; intros Hpanels h; cbn [for_plugins].
  - exists (Ok None), [], []. splits; auto.
  - assert (Hp : panel_instance p = None) by (apply Hpanels; now left).
    assert (Hps : forall q, In q ps -> panel_instance q = None)
      by (intros q Hq; apply Hpanels; now right).
    destruct (matches (matcher p) device) as [b|e] eqn:Hm.
    + rewrite (connected_body_pending self device h p b Hcb Hp Hm).
      match goal with |- context [for_plugins _ ps ?h1 tt] =>
        destruct (IH Hps h1) as [r [ps' [d [E [Hcalls [Hprints [Hnone Hnames]]]]]]] end.
      rewrite E. eexists _, _, _. split; [reflexivity|]. splits.
      * unfold plugin_calls in *. rewrite flat_map_app, Hcalls.
        destruct b; reflexivity.
      * apply Forall_app. split; [|exact Hprints].
        destruct b; [|constructor]. constructor; [|constructor].
        unfold matched_line. eauto.
      * intros q [<-|Hq]; [destruct b; exact Hp | now apply Hnone].
      * cbn [map]. rewrite Hnames. destruct b; reflexivity.
    + rewrite (connected_body_raises self device h p tt e Hm).
      exists (Raise e), (p :: ps), []. splits; auto.
Qed.

(** X15.  Until the host has supplied its callback through
    [get_plugin_panels], a connect never reaches plugin code: whatever the
    rules do, no panel is constructed, no method of a plugin is called,
    nothing is dispatched, and all it emits are log lines.  When moreover
    no rule of the registry raises on the device, the connect returns, and
    what it does is exactly this: every record whose rules match gets the
    device appended and one log line is printed for it. *)
Theorem connect_before_callback_only_records :
  forall device h s,
    _button_callback s = None ->
    (forall q, In q (_plugins s) -> panel_instance q = None) ->
    (exists r ps' d,
       _handle_device_connected device h s = (r, set_plugins s ps', d)
       /\ plugin_calls d = []
       /\ Forall (fun ev => exists line, ev = EvPrint line) d
       /\ (forall q, In q ps' -> panel_instance q = None)
       /\ map name ps' = map name (_plugins s))
    /\ ((forall q, In q (_plugins s) -> exists b, matches (matcher q) device = Ok b) ->
        _handle_device_connected device h s
        = (Ok tt,
           set_plugins s
             (map (fun p => if yields_true (matches (matcher p) device)
                            then add_device p device else p)
                  (_plugins s)),
           flat_map (fun p => if yields_true (matches (matcher p) device)
                              then [matched_line p device] else [])
             (_plugins s))).
Proof.
  intros device h s Hcb Hpanels. split.
  - destruct (connect_pending_loop s device (_plugins s) Hcb Hpanels h)
      as [r [ps' [d [E [Hcalls [Hprints [Hnone Hnames]]]]]]].
    unfold _handle_device_connected. rewrite bind_get. unfold bind, with_plugins.
    rewrite E. unfold ret.
    destruct r as [o|e]; eexists _, ps', _; (split; [reflexivity|]);
      rewrite ?app_nil_r; splits; auto.
  - intros Hrules.
    unfold _handle_device_connected. rewrite bind_get. unfold bind, with_plugins.
    destruct (for_plugins_pointwise (connected_body s device)
                (fun p => if yields_true (matches (matcher p) device)
                          then add_device p device else p)
                (fun ev => [ev])
                (fun p => if yields_true (matches (matcher p) device)
                          then [matched_line p device] else [])
                (_plugins s)) with (h := h) as [d [E Hd]].
    { intros h1 p Hp. destruct (Hrules p Hp) as [b Hb].
      rewrite (connected_body_pending s device h1 p b Hcb (Hpanels p Hp) Hb).
      rewrite Hb. destruct b; cbn [yields_true]; eexists; (split; [reflexivity|]);
        apply flat_map_single. }
    rewrite E. rewrite flat_map_single in Hd. subst d.
    unfold ret. now rewrite app_nil_r.
Qed.

Lemma disconnect_loop_skips {X} path_ devs :
  forall h (p : LoadedPlugin) (x : X),
    Forall (fun di => info_path di <> path_) devs ->
    for_each devs (disconnect_device path_) h (p, x) = (Ok tt, (p, x), []).
Proof.
  induction devs as [|di devs IH]; intros h p x Hall; [reflexivity|].
  inversion Hall as [|? ? Hdi Hrest]; subst.
  rewrite for_each_cons, (disconnect_device_skips path_ di h p x Hdi).
  rewrite app_nil_r, (IH h p x Hrest). reflexivity.
Qed.

(** X16.  A disconnect for a path that no record holds does nothing at
    all: the manager is unchanged, no plugin code is called, nothing is
    printed. *)
Theorem unknown_path_disconnect_is_noop :
  forall path_ h s,
    (forall q, In q (_plugins s) ->
       Forall (fun di => info_path di <> path_) (connected_devices q)) ->
    _handle_device_disconnected path_ h s = (Ok tt, s, []).
Proof.
  intros path_ h s Hnone. unfold _handle_device_disconnected, bind, with_plugins.
  rewrite for_plugins_idle.
  - now rewrite set_plugins_same.
  - intros p Hp. unfold disconnected_body. rewrite bind_plugin.
    unfold bind. rewrite (disconnect_loop_skips path_ _ h p tt (Hnone p Hp)).
    reflexivity.
Qed.

(** X17.  [stop] clears the running flag and calls [shutdown] exactly once
    on each panel, in registry order, whether or not an earlier [shutdown]
    raised; it makes no other call into plugin code, never raises, and
    leaves every record, its panel included, in the registry. *)
Theorem stop_shuts_each_panel_once :
  forall h s,
    exists d,
      stop h s = (Ok tt, set_running s false, d)
      /\ plugin_calls d
         = map (fun p => (name p, panel_instance p, shutdown))
             (filter (fun p => truthy (panel_instance p)) (_plugins s)).
Proof.
  intros h s. unfold stop. rewrite bind_get, bind_put. unfold bind, with_plugins.
  cbn [_plugins set_running].
  destruct (for_plugins_pointwise stop_body (fun p => p)
              (fun ev => match ev with EvCall m i c => [(m, i, c)] | _ => [] end)
              (fun p => if truthy (panel_instance p)
                        then [(name p, panel_instance p, shutdown)] else [])
              (_plugins s)) with (h := h) as [d [E Hd]].
  { intros h1 p Hp.
    destruct (stop_body h1 (p, tt)) as [[r [p' []]] d1] eqn:E1.
    destruct (stop_body_runs _ _ _ _ _ _ _ E1) as [-> [-> Hshut]].
    exists d1. split; [reflexivity|].
    inversion Hshut as [Hi|i Hi|i msg Hi]; rewrite Hi; reflexivity. }
  rewrite E, map_id. exists d. unfold ret. rewrite app_nil_r.
  split; [now destruct s|].
  unfold plugin_calls. rewrite Hd.
  clear. induction (_plugins s) as [|p ps IH]; [reflexivity|].
  cbn [flat_map filter]. destruct (truthy (panel_instance p)); cbn [app map];
    now rewrite IH.
Qed.

Lemma Replayed_calls n i devs notes :
  Replayed n i devs notes ->
  calls_of n notes = map (fun di => (i, on_device_connected di)) devs
  /\ forall event m, dispatched event m notes = [].
Proof.
  intros H. induction H as [|di devs evs _ [IHc IHd]|di devs evs msg _ [IHc IHd]].
  - auto.
  - split.
    + unfold calls_of in *. cbn [flat_map map]. rewrite String.eqb_refl.
      cbn [app]. now rewrite IHc.
    + intros event m. unfold dispatched in *. cbn [flat_map]. apply IHd.
  - split.
    + unfold calls_of in *. cbn [flat_map map]. rewrite String.eqb_refl.
      cbn [app]. now rewrite IHc.
    + intros event m. unfold dispatched in *. cbn [flat_map]. apply IHd.
Qed.

(** X18.  [_instantiate_plugin_panel] replays every device the record
    already holds, in order, and an [on_device_connected] that raises does
    not stop it: when the constructor and [active] return, the panel is
    stored, the calls are the constructor, [active(-2)], one
    [on_device_connected] per device and, if there is a device,
    [active(1)]; the panel is announced once and no load error is
    reported. *)
Theorem replay_survives_notification_errors :
  forall (self : PluginManager) h p (x : unit),
    behaviour (panel_class p) h (construct_call self p) = Returns ->
    (forall h1, behaviour (panel_class p) h1 (active (-2)) = Returns) ->
    (forall h1, behaviour (panel_class p) h1 (active 1) = Returns) ->
    exists evs,
      _instantiate_plugin_panel self h (p, x)
      = (Ok tt, (set_panel_instance p (Some (length h)), x), evs)
      /\ calls_of (name p) evs
         = (None, construct_call self p)
           :: (Some (length h), active (-2))
           :: map (fun di => (Some (length h), on_device_connected di))
                (connected_devices p)
           ++ (if 0 <? len (connected_devices p)
               then [(Some (length h), active 1)] else [])
      /\ panel_available (name p) evs = [ArgPanel (Some (length h))]
      /\ load_errors (name p) evs = [].
Proof.
  intros self h p x Hctor Hinit Hact.
  destruct (instantiate_runs self h p x) as [p' [evs [E I]]].
  inversion I as [e He|e Hc He|e notes h1 HR Hne He|notes HR]; subst;
    try congruence.
  eexists. split; [exact E|].
  destruct (Replayed_calls _ _ _ _ HR) as [Hcalls Hdisp].
  unfold panel_available, load_errors.
  splits.
  - unfold calls_of in *. cbn [flat_map]. rewrite String.eqb_refl. cbn [app].
    do 2 f_equal. rewrite !flat_map_app, Hcalls. f_equal.
    destruct (0 <? len (connected_devices p)); cbn [flat_map app];
      rewrite ?String.eqb_refl; reflexivity.
  - unfold dispatched in *. cbn [flat_map app].
    rewrite !flat_map_app, Hdisp. cbn [app].
    destruct (0 <? len (connected_devices p)); cbn [flat_map app];
      rewrite !String.eqb_refl; reflexivity.
  - unfold dispatched in *. cbn [flat_map app].
    rewrite !flat_map_app, Hdisp. cbn [app].
    destruct (0 <? len (connected_devices p)); cbn [flat_map app];
      reflexivity.
Qed.

(** *** What the panel queries return *)

Lemma has_devices {A} (l : list A) : (0 <? len l) = true <-> l <> [].
Proof.
  destruct l; cbn; split; intros H; try reflexivity; try discriminate.
  now contradiction H.
Qed.

Lemma instantiate_init_raises {X} self h (p : LoadedPlugin) (x : X) e :
  behaviour (panel_class p) h (construct_call self p) = Returns ->
  behaviour (panel_class p) (h ++ [EvCall (name p) None (construct_call self p)])
    (active (-2)) = Raises e ->
  _instantiate_plugin_panel self h (p, x)
  = (Ok tt, (set_panel_instance p (Some (length h)), x),
     EvCall (name p) None (construct_call self p)
     :: EvCall (name p) (Some (length h)) (active (-2))
     :: instantiation_failed p e).
Proof.
  intros Hc Hi. unfold _instantiate_plugin_panel, try_except.
  rewrite bind_plugin. fold (construct_call self p).
  unfold bind at 1. unfold construct_panel. cbn [fst snd]. rewrite Hc.
  unfold bind at 1. rewrite call_panel_run.
  cbn [name panel_class panel_instance set_panel_instance]. rewrite Hi.
  reflexivity.
Qed.

Lemma panels_body_carried self h p acc r p' acc' d :
  panels_body self h (p, acc) = (r, (p', acc'), d) ->
  r = Ok None
  /\ panel_title p' = panel_title p
  /\ connected_devices p' = connected_devices p
  /\ (panel_instance p <> None -> p' = p /\ d = [])
  /\ (connected_devices p = [] -> p' = p /\ d = [])
  /\ acc' = if 0 <? len (connected_devices p)
            then match panel_instance p' with
                 | Some i => dict_set (panel_title p) i acc
                 | None => acc
                 end
            else acc.
Proof.
  unfold panels_body. rewrite bind_plugin. unfold when at 1.
  destruct (0 <? len (connected_devices p)) eqn:Hlen.
  - assert (Hne : connected_devices p <> []) by (now apply has_devices).
    unfold when. destruct (panel_instance p) as [i|] eqn:Ei; cbn [is_none].
    + rewrite bind_assoc, bind_ret, bind_assoc, bind_plugin. rewrite Ei.
      rewrite bind_assoc, bind_carried. unfold bind, set_carried, ret. cbn.
      intros E; inversion E; subst p' acc' r d. rewrite Ei. splits; auto.
    + rewrite bind_assoc.
      destruct (instantiate_runs self h p acc) as [p1 [evs [E I]]].
      rewrite (bind_ok _ _ _ _ _ _ _ E). rewrite bind_assoc, bind_plugin.
      assert (Ht : panel_title p1 = panel_title p) by (destruct I; reflexivity).
      assert (Hd : connected_devices p1 = connected_devices p)
        by (destruct I; reflexivity).
      destruct (panel_instance p1) as [i|] eqn:E1.
      * rewrite bind_assoc, bind_carried. unfold bind, set_carried, ret. cbn.
        rewrite !app_nil_r. rewrite Ht.
        intros E'; inversion E'; subst p' acc' r d. rewrite E1.
        splits; auto; intros; contradiction.
      * rewrite bind_ret. unfold ret. rewrite !app_nil_r.
        intros E'; inversion E'; subst p' acc' r d. rewrite E1.
        splits; auto; intros; contradiction.
  - rewrite bind_ret. unfold ret. intros E; inversion E; subst p' acc' r d.
    splits; auto.
Qed.

Lemma panels_loop_facts self ps :
  forall h acc r ps' acc' d,
    for_plugins (panels_body self) ps h acc = (r, (ps', acc'), d) ->
    NoDup (map fst acc) ->
    r = Ok None
    /\ NoDup (map fst acc')
    /\ (forall t,
          In t (map fst acc')
          <-> In t (map fst acc)
              \/ exists q, In q ps' /\ connected_devices q <> []
                           /\ panel_instance q <> None /\ panel_title q = t)
    /\ (forall t i,
          In (t, i) acc' ->
          In (t, i) acc
          \/ exists q, In q ps' /\ connected_devices q <> []
                       /\ panel_instance q = Some i /\ panel_title q = t).
Proof.
  induction ps as [|p ps IH]; intros h acc r ps' acc' d E Hnd; cbn [for_plugins] in E.
  - inversion E; subst. splits; auto.
    intros t. split; [auto|]. intros [H|[q [[] _]]]. exact H.
  - destruct (panels_body self h (p, acc)) as [[r1 [p1 acc1]] d1] eqn:E1.
    destruct (panels_body_carried _ _ _ _ _ _ _ _ E1)
      as [-> [Ht [Hd [_ [_ Hacc]]]]].
    destruct (for_plugins (panels_body self) ps (h ++ d1) acc1)
      as [[r2 [ps2 acc2]] d2] eqn:E2.
    inversion E; subst r ps' acc' d.
    assert (Hstep :
      NoDup (map fst acc1)
      /\ (forall t, In t (map fst acc1)
                    <-> In t (map fst acc)
                        \/ (connected_devices p1 <> [] /\ panel_instance p1 <> None
                            /\ panel_title p1 = t))
      /\ (forall t i, In (t, i) acc1 ->
                      In (t, i) acc
                      \/ (connected_devices p1 <> [] /\ panel_instance p1 = Some i
                          /\ panel_title p1 = t))).
    { rewrite Hd, Ht.
      destruct (0 <? len (connected_devices p)) eqn:Hlen.
      - apply has_devices in Hlen.
        destruct (panel_instance p1) as [i|]; subst acc1.
        + splits.
          * now apply dict_set_NoDup.
          * intros t. rewrite dict_set_keys_in. split.
            -- intros [->|H]; [right; splits; auto; discriminate | now left].
            -- intros [H|[_ [_ H]]]; [now right | now left].
          * intros t j H. destruct (dict_set_In _ _ _ _ _ H) as [[-> ->]|H'];
              [right; splits; auto | now left].
        + splits; auto.
          * intros t. split; [auto|]. intros [H|[_ [H _]]]; [exact H | now contradiction H].
      - assert (Hnil : connected_devices p = []).
        { destruct (connected_devices p); [reflexivity | discriminate]. }
        subst acc1. rewrite Hnil. splits; auto.
        intros t. split; [auto|]. intros [H|[H _]]; [exact H | now contradiction H]. }
    destruct Hstep as [Hnd1 [Hkeys1 Hvals1]].
    destruct (IH _ _ _ _ _ _ E2 Hnd1) as [Hr [Hnd2 [Hkeys2 Hvals2]]].
    splits; [exact Hr | exact Hnd2 | |].
    + intros t. rewrite Hkeys2, Hkeys1. split.
      * intros [[H|[Ha [Hb Hc]]]|[q [Hq H]]].
        -- now left.
        -- right. exists p1. splits; auto. now left.
        -- right. exists q. split; [now right | exact H].
      * intros [H|[q [[<-|Hq] [Ha [Hb Hc]]]]].
        -- left. now left.
        -- left. right. auto.
        -- right. exists q. auto.
    + intros t i H. destruct (Hvals2 t i H) as [H1|[q [Hq H1]]].
      * destruct (Hvals1 t i H1) as [H0|[Ha [Hb Hc]]]; [now left|].
        right. exists p1. splits; auto. now left.
      * right. exists q. split; [now right | exact H1].
Qed.

(** X19.  The dict [get_plugin_panels] returns holds exactly the records
    that, when it returns, have a device and a panel: its keys are their
    panel titles, each title once, and every panel in it is the panel of
    such a record.  The callback passed in is stored, and the call never
    raises. *)
Theorem returned_panels_are_current :
  forall cb h s,
    let '(r, s', d) := get_plugin_panels cb h s in
    exists panels,
      r = Ok panels
      /\ _button_callback s' = Some cb
      /\ NoDup (map fst panels)
      /\ (forall t,
            In t (map fst panels)
            <-> exists q, In q (_plugins s') /\ connected_devices q <> []
                          /\ panel_instance q <> None /\ panel_title q = t)
      /\ (forall t i,
            In (t, i) panels ->
            exists q, In q (_plugins s') /\ connected_devices q <> []
                      /\ panel_instance q = Some i /\ panel_title q = t).
Proof.
  intros cb h s. unfold get_plugin_panels.
  rewrite bind_get, bind_put, bind_get. unfold bind, with_plugins.
  cbn [_plugins set_button_callback].
  destruct (for_plugins (panels_body (set_button_callback s (Some cb))) (_plugins s) h [])
    as [[r [ps' acc']] d] eqn:E.
  destruct (panels_loop_facts _ _ _ _ _ _ _ _ E (NoDup_nil _))
    as [-> [Hnd [Hkeys Hvals]]].
  unfold ret. cbn [snd]. exists acc'. splits; auto.
  - intros t. rewrite Hkeys. cbn [map In _plugins set_plugins]. split.
    + intros [[]|H]. exact H.
    + auto.
  - intros t i H. destruct (Hvals t i H) as [[]|H']. exact H'.
Qed.

Lemma panels_keys_kept self ps h acc r ps' acc' d t :
  for_plugins (panels_body self) ps h acc = (r, (ps', acc'), d) ->
  NoDup (map fst acc) ->
  In t (map fst acc) -> In t (map fst acc').
Proof.
  intros E Hnd Hin.
  destruct (panels_loop_facts _ _ _ _ _ _ _ _ E Hnd) as [_ [_ [Hkeys _]]].
  apply Hkeys. now left.
Qed.

(** X20.  A panel whose constructor returned but whose first [active(-2)]
    raised is reported to the host as a load error ("Failed to instantiate
    panel") and nevertheless kept in the record and returned by the same
    [get_plugin_panels] call under its title. *)
Theorem half_built_panel_is_returned :
  forall cb h s before p after e,
    _plugins s = before ++ p :: after ->
    connected_devices p <> [] ->
    panel_instance p = None ->
    (forall h1, behaviour (panel_class p) h1
                  (construct_call (set_button_callback s (Some cb)) p) = Returns) ->
    (forall h1, behaviour (panel_class p) h1 (active (-2)) = Raises e) ->
    exists panels s' d i,
      get_plugin_panels cb h s = (Ok panels, s', d)
      /\ In (panel_title p) (map fst panels)
      /\ In (set_panel_instance p (Some i)) (_plugins s')
      /\ In (EvDispatch "plugin-load-error" (name p)
               (ArgMessage ("Failed to instantiate panel: " ++ str_exn e)%string)) d.
Proof.
  intros cb h s before p after e Hps Hdev Hnone Hctor Hinit.
  unfold get_plugin_panels. rewrite bind_get, bind_put, bind_get.
  unfold bind, with_plugins. cbn [_plugins set_button_callback].
  set (self := set_button_callback s (Some cb)) in *.
  rewrite Hps, for_plugins_app.
  destruct (for_plugins (panels_body self) before h [])
    as [[r1 [before' acc1]] d1] eqn:E1.
  destruct (panels_loop_facts _ _ _ _ _ _ _ _ E1 (NoDup_nil _)) as [-> [Hnd1 _]].
  cbn [for_plugins].
  assert (Hbody : panels_body self (h ++ d1) (p, acc1)
                  = (Ok None,
                     (set_panel_instance p (Some (length (h ++ d1))),
                      dict_set (panel_title p) (length (h ++ d1)) acc1),
                     EvCall (name p) None (construct_call self p)
                     :: EvCall (name p) (Some (length (h ++ d1))) (active (-2))
                     :: instantiation_failed p e)).
  { unfold panels_body. rewrite bind_plugin. unfold when at 1.
    rewrite (proj2 (has_devices _) Hdev). unfold when. rewrite Hnone. cbn [is_none].
    rewrite bind_assoc.
    rewrite (bind_ok _ _ _ _ _ _ _
               (instantiate_init_raises self (h ++ d1) p acc1 e (Hctor _) (Hinit _))).
    rewrite bind_assoc, bind_plugin. cbn [panel_instance set_panel_instance].
    rewrite bind_assoc, bind_carried. unfold bind, set_carried, ret. cbn [fst snd].
    rewrite !app_nil_r. reflexivity. }
  rewrite Hbody.
  match goal with |- context [for_plugins _ after ?h1 ?a1] =>
    destruct (for_plugins (panels_body self) after h1 a1)
      as [[r3 [after' acc3]] d3] eqn:E3 end.
  assert (Hnd2 : NoDup (map fst (dict_set (panel_title p) (length (h ++ d1)) acc1)))
    by (now apply dict_set_NoDup).
  destruct (panels_loop_facts _ _ _ _ _ _ _ _ E3 Hnd2) as [-> _].
  unfold ret. cbn [snd]. eexists _, _, _, (length (h ++ d1)).
  split; [reflexivity|]. splits.
  - eapply panels_keys_kept; [exact E3 | exact Hnd2 |].
    apply dict_set_keys_in. now left.
  - cbn [_plugins set_plugins]. apply in_or_app. right. now left.
  - rewrite app_nil_r. apply in_or_app. right. apply in_or_app. left.
    unfold instantiation_failed. cbn [In]. auto.
Qed.

Lemma panels_body_settled self h p acc :
  (connected_devices p <> [] -> panel_instance p <> None) ->
  exists acc',
    panels_body self h (p, acc) = (Ok None, (p, acc'), []).
Proof.
  intros Hset.
  destruct (panels_body self h (p, acc)) as [[r [p' acc']] d] eqn:E.
  destruct (panels_body_carried _ _ _ _ _ _ _ _ E) as [-> [_ [_ [Hpanel [Hnil _]]]]].
  exists acc'.
  destruct (connected_devices p) as [|di l] eqn:Hd.
  - destruct (Hnil eq_refl) as [-> ->]. reflexivity.
  - destruct Hpanel as [-> ->]; [|reflexivity]. apply Hset. discriminate.
Qed.

(** X21.  When every record that has a device already has its panel,
    [get_plugin_panels] only stores the callback and reads: no panel is
    constructed, no plugin code is called, nothing is dispatched or
    printed, and the records are unchanged. *)
Theorem settled_panels_query_is_quiet :
  forall cb h s,
    (forall q, In q (_plugins s) ->
       connected_devices q <> [] -> panel_instance q <> None) ->
    exists panels,
      get_plugin_panels cb h s = (Ok panels, set_button_callback s (Some cb), []).
Proof.
  intros cb h s Hset. unfold get_plugin_panels.
  rewrite bind_get, bind_put, bind_get. unfold bind, with_plugins.
  cbn [_plugins set_button_callback].
  set (self := set_button_callback s (Some cb)).
  assert (Hloop : forall ps acc,
            (forall q, In q ps -> connected_devices q <> [] -> panel_instance q <> None) ->
            exists acc', for_plugins (panels_body self) ps h acc
                         = (Ok None, (ps, acc'), [])).
  { induction ps as [|p ps IH]; intros acc Hps; cbn [for_plugins].
    - eauto.
    - destruct (panels_body_settled self h p acc (Hps p (or_introl eq_refl)))
        as [acc1 E1].
      rewrite E1. rewrite app_nil_r.
      destruct (IH acc1 (fun q Hq => Hps q (or_intror Hq))) as [acc2 E2].
      rewrite E2. eauto. }
  destruct (Hloop (_plugins s) [] Hset) as [acc' E]. rewrite E.
  exists acc'. unfold ret. cbn [snd app].
  change (_plugins s) with (_plugins self). now rewrite set_plugins_same.
Qed.

Lemma active_fold_facts ps :
  forall acc,
    NoDup (map fst acc) ->
    let acc' :=
      fold_left
        (fun panels p =>
           match panel_instance p with
           | Some instance =>
               if 0 <? len (connected_devices p)
               then dict_set (preset_device_name (panel_class p)) instance panels
               else panels
           | None => panels
           end) ps acc in
    NoDup (map fst acc')
    /\ (forall k,
          In k (map fst acc')
          <-> In k (map fst acc)
              \/ exists q, In q ps /\ connected_devices q <> []
                           /\ panel_instance q <> None
                           /\ preset_device_name (panel_class q) = k)
    /\ (forall k i,
          In (k, i) acc' ->
          In (k, i) acc
          \/ exists q, In q ps /\ connected_devices q <> []
                       /\ panel_instance q = Some i
                       /\ preset_device_name (panel_class q) = k).
Proof.
  induction ps as [|p ps IH]; intros acc Hnd; cbn [fold_left].
  - splits; auto. intros k. split; [auto|]. intros [H|[q [[] _]]]. exact H.
  - match goal with |- context [fold_left ?f ps ?a] =>
      set (acc1 := a); destruct (IH acc1) as [Hnd2 [Hkeys2 Hvals2]] end.
    { subst acc1. destruct (panel_instance p); [|assumption].
      destruct (0 <? len (connected_devices p)); [|assumption].
      now apply dict_set_NoDup. }
    assert (Hkeys1 : forall k,
              In k (map fst acc1)
              <-> In k (map fst acc)
                  \/ (connected_devices p <> [] /\ panel_instance p <> None
                      /\ preset_device_name (panel_class p) = k)).
    { intros k. subst acc1. destruct (panel_instance p) as [i|].
      - destruct (0 <? len (connected_devices p)) eqn:Hlen.
        + apply has_devices in Hlen. rewrite dict_set_keys_in. split.
          * intros [->|H]; [right; splits; auto; discriminate | now left].
          * intros [H|[_ [_ H]]]; [now right | now left].
        + split; [auto|]. intros [H|[H _]]; [exact H|].
          apply has_devices in H. congruence.
      - split; [auto|]. intros [H|[_ [H _]]]; [exact H | now contradiction H]. }
    assert (Hvals1 : forall k i,
              In (k, i) acc1 ->
              In (k, i) acc
              \/ (connected_devices p <> [] /\ panel_instance p = Some i
                  /\ preset_device_name (panel_class p) = k)).
    { intros k i. subst acc1. destruct (panel_instance p) as [j|]; [|auto].
      destruct (0 <? len (connected_devices p)) eqn:Hlen; [|auto].
      apply has_devices in Hlen. intros H.
      destruct (dict_set_In _ _ _ _ _ H) as [[-> ->]|H']; [right; auto | now left]. }
    splits; [exact Hnd2 | |].
    + intros k. rewrite Hkeys2, Hkeys1. split.
      * intros [[H|[Ha [Hb Hc]]]|[q [Hq H]]].
        -- now left.
        -- right. exists p. splits; auto. now left.
        -- right. exists q. split; [now right | exact H].
      * intros [H|[q [[<-|Hq] [Ha [Hb Hc]]]]].
        -- left. now left.
        -- left. right. auto.
        -- right. exists q. auto.
    + intros k i H. destruct (Hvals2 k i H) as [H1|[q [Hq H1]]].
      * destruct (Hvals1 k i H1) as [H0|[Ha [Hb Hc]]]; [now left|].
        right. exists p. splits; auto. now left.
      * right. exists q. split; [now right | exact H1].
Qed.

(** X22.  [get_active_plugins] and [has_active_plugins] only read.  The
    dict of the first holds exactly the records that have both a panel and
    a device, keyed by the panel's preset name; the second is [True]
    exactly when some record has a device, panel or not.  So a non-empty
    dict implies [True], but not conversely. *)
Theorem active_plugins_are_live :
  forall h s,
    exists panels,
      get_active_plugins h s = (Ok panels, s, [])
      /\ NoDup (map fst panels)
      /\ (forall k,
            In k (map fst panels)
            <-> exists q, In q (_plugins s) /\ connected_devices q <> []
                          /\ panel_instance q <> None
                          /\ preset_device_name (panel_class q) = k)
      /\ (forall k i,
            In (k, i) panels ->
            exists q, In q (_plugins s) /\ connected_devices q <> []
                      /\ panel_instance q = Some i
                      /\ preset_device_name (panel_class q) = k)
      /\ (has_active_plugins h s = (Ok true, s, [])
          <-> exists q, In q (_plugins s) /\ connected_devices q <> [])
      /\ (panels <> [] -> has_active_plugins h s = (Ok true, s, [])).
Proof.
  intros h s. unfold get_active_plugins, has_active_plugins.
  rewrite !bind_get. unfold ret.
  destruct (active_fold_facts (_plugins s) [] (NoDup_nil _)) as [Hnd [Hkeys Hvals]].
  cbv zeta in Hnd, Hkeys, Hvals.
  eexists. split; [reflexivity|].
  assert (Hany : existsb (fun p => 0 <? len (connected_devices p)) (_plugins s) = true
                 <-> exists q, In q (_plugins s) /\ connected_devices q <> []).
  { rewrite existsb_exists. split; intros [q [Hq H]]; exists q; split; auto;
      now apply has_devices. }
  splits.
  - exact Hnd.
  - intros k. rewrite Hkeys. cbn [map In]. split; [intros [[]|H]; exact H | auto].
  - intros k i H. destruct (Hvals k i H) as [[]|H']. exact H'.
  - rewrite <- Hany. split.
    + intros E. now inversion E.
    + intros ->. reflexivity.
  - intros Hne.
    match type of Hne with ?l <> [] => destruct l as [|[k i] rest] eqn:El end;
      [now contradiction Hne|].
    destruct (Hvals k i (or_introl eq_refl)) as [[]|[q [Hq [Hd _]]]].
    assert (Hex : exists q, In q (_plugins s) /\ connected_devices q <> [])
      by (exists q; auto).
    apply Hany in Hex. now rewrite Hex.
Qed.
End Foxblat.

(** ** Where the handlers fall short of the specification *)

(** C1 fails on the code.  The wheel has a device and no panel, and the
    first [active(-2)] of its panel class raises.  The panel query
    constructs the panel and stores it in the record before that call; the
    handler of [_instantiate_plugin_panel] then reports "Failed to
    instantiate panel" but does not withdraw the instance.  The panel is
    returned by the query under its title, and the next connect of a
    matching device notifies it and sets it active: a panel has been
    instantiated and set active for which "panel available" is never
    emitted. *)
Theorem unannounced_panel_is_kept :
  exists s1 d1 s2 d2,
    get_plugin_panels 7%nat [] stuck_manager = (Ok [("wheel", 0%nat)], s1, d1)
    /\ constructions "wheel" d1
       = [construct_call (set_button_callback stuck_manager (Some 7%nat)) stuck_plugin]
    /\ load_errors "wheel" d1
       = [ArgMessage ("Failed to instantiate panel: " ++ str_exn init_failed)%string]
    /\ panel_available "wheel" d1 = []
    /\ map panel_instance (_plugins s1) = [Some 0%nat; None]
    /\ _handle_device_connected literal_search spare_wheel d1 s1 = (Ok tt, s2, d2)
    /\ calls_of "wheel" d2
       = [(Some 0%nat, on_device_connected (device_info_of spare_wheel));
          (Some 0%nat, active 1)]
    /\ constructions "wheel" d2 = []
    /\ panel_available "wheel" d2 = [].
Proof.
  eexists _, _, _, _. split; [vm_compute; reflexivity|].
  splits; [..|vm_compute; reflexivity| | |]; vm_compute; reflexivity.
Qed.


(** C7 fails on the code.  The device matches the rules of the wheel and of
    the pedals.  On connect, with a plugin between them whose rule is
    malformed, the exception of [matches] leaves the handler after the
    wheel: the wheel has the device, the pedals never get it.  On
    disconnect, with both holding the device, the exception of the wheel's
    [active(-1)] leaves the handler after the wheel: the wheel has lost the
    device, the pedals keep it. *)
Theorem shared_device_not_delivered :
  (matches literal_search (matcher wheel_plugin) acme_wheel = Ok true
   /\ matches literal_search (matcher pedals_plugin) acme_wheel = Ok true
   /\ exists s' d,
        _handle_device_connected literal_search acme_wheel [] misconfigured_manager
        = (Raise invalid_literal, s', d)
        /\ map connected_devices (_plugins s') = [[acme_info]; []; []])
  /\ (exists s' d,
        _handle_device_disconnected "/dev/input/event7" [] fragile_manager
        = (Raise deactivation_failed, s', d)
        /\ map connected_devices (_plugins fragile_manager) = [[acme_info]; [acme_info]]
        /\ map connected_devices (_plugins s') = [[]; [acme_info]]).
Proof.
  splits.
  - vm_compute. reflexivity.
  - vm_compute. reflexivity.
  - eexists _, _. split; vm_compute; reflexivity.
  - eexists _, _. split; [vm_compute; reflexivity|]. split; vm_compute; reflexivity.
Qed.

(** ** The statements at the scenario of the specification *)

(** C8 as first stated fails: the sleep after a failed enumeration is not
    longer than the sleep of a normal iteration; both are three seconds. *)
Lemma backoff_not_longer :
  (exists r s,
     _device_scan_loop literal_search [failed_scan; empty_scan] [] wheel_manager
     = (r, s,
        [EvSleep startup_delay;
         listing_error (mkExn OtherException "device subsystem unavailable");
         EvSleep error_backoff;
         EvSleep poll_interval]))
  /\ ~ (poll_interval < error_backoff).
Proof.
  split.
  - eexists; eexists. vm_compute. reflexivity.
  - vm_compute. discriminate.
Qed.

Lemma ready_registry_ok : registry_ok ready_manager.
Proof.
  unfold registry_ok. cbn. repeat constructor; cbn; intuition discriminate.
Qed.

Lemma scenario_rules_evaluate (s : PluginManager) :
  map matcher (_plugins s) = map matcher (_plugins ready_manager) ->
  forall q, In q (_plugins s) ->
    exists b, matches literal_search (matcher q) acme_wheel = Ok b.
Proof.
  intros Hm q Hq. apply (in_map matcher) in Hq. rewrite Hm in Hq.
  cbn in Hq. destruct Hq as [<-|[<-|[]]]; eexists; vm_compute; reflexivity.
Qed.

Lemma well_behaved_quiet : quiet wheel_plugin.
Proof. intros h c. reflexivity. Qed.

Lemma panel_lifecycle_witness :
  exists p' i,
    find_plugin "wheel"
      (_plugins (snd (fst (run_op literal_search (OpConnect acme_wheel) []
                             ready_manager)))) = Some p'
    /\ panel_instance p' = Some i
    /\ panel_available "wheel"
         (snd (run_op literal_search (OpConnect acme_wheel) [] ready_manager))
       = [ArgPanel (Some i)].
Proof.
  destruct (panel_lifecycle literal_search (OpConnect acme_wheel) [] ready_manager
              (fst (fst (run_op literal_search (OpConnect acme_wheel) [] ready_manager)))
              (snd (fst (run_op literal_search (OpConnect acme_wheel) [] ready_manager)))
              (snd (run_op literal_search (OpConnect acme_wheel) [] ready_manager))
              "wheel" wheel_plugin)
    as [p' (Hf & _ & _ & Hconnect & _)].
  - exact ready_registry_ok.
  - reflexivity.
  - vm_compute. reflexivity.
  - destruct (Hconnect acme_wheel eq_refl eq_refl) as [i [Hi Ha]].
    + discriminate.
    + vm_compute. reflexivity.
    + apply scenario_rules_evaluate. reflexivity.
    + exact well_behaved_quiet.
    + exists p', i. auto.
Defined.

Lemma vid_pid_rule_matches_witness :
  matches literal_search (matcher wheel_plugin) acme_wheel = Ok true
  /\ (matches literal_search (matcher wheel_plugin) racing_wheel = Ok true
      <-> dev_vendor racing_wheel = 0x1234 /\ dev_product racing_wheel = 0x5678).
Proof.
  assert (Dv : denotes (IdStr "0x1234") 0x1234).
  { constructor. apply (hex_prefixed "x" ["1"; "2"; "3"; "4"]%char); auto; discriminate. }
  assert (Dp : denotes (IdStr "0x5678") 0x5678).
  { constructor. apply (hex_prefixed "x" ["5"; "6"; "7"; "8"]%char); auto; discriminate. }
  split.
  - refine (proj1 (proj2 (vid_pid_rule_matches literal_search (matcher wheel_plugin)
                            [] wheel_rule [] acme_wheel
                            (IdStr "0x1234") (IdStr "0x5678") 0x1234 0x5678
                            eq_refl (Forall_nil _) eq_refl eq_refl Dv Dp)) _).
    vm_compute. auto.
  - refine (proj2 (proj2 (proj2 (proj2 (proj2 (proj2
              (vid_pid_rule_matches literal_search (matcher wheel_plugin)
                 [] wheel_rule [] racing_wheel
                 (IdStr "0x1234") (IdStr "0x5678") 0x1234 0x5678
                 eq_refl (Forall_nil _) eq_refl eq_refl Dv Dp)))))) _ _);
      vm_compute; discriminate.
Defined.


Lemma panel_survives_last_disconnect_witness :
  In (EvCall "wheel" (Some 0%nat) (active (-1)))
    (snd (_handle_device_disconnected "/dev/input/event7" [] active_manager))
  /\ exists p2,
       find_plugin "wheel"
         (_plugins (snd (fst (_handle_device_connected literal_search acme_wheel []
            (snd (fst (_handle_device_disconnected "/dev/input/event7" []
                         active_manager))))))) = Some p2
       /\ panel_instance p2 = Some 0%nat.
Proof.
  pose (after := _handle_device_disconnected "/dev/input/event7" [] active_manager).
  pose (back := _handle_device_connected literal_search acme_wheel [] (snd (fst after))).
  destruct (panel_survives_last_disconnect literal_search "/dev/input/event7" []
              active_manager (fst (fst after)) (snd (fst after)) (snd after)
              "wheel" (with_panel well_behaved 0 wheel_plugin) 0%nat
              (mkLoadedPlugin "wheel" wheel_metadata well_behaved
                 (mkMatcher "wheel" [wheel_rule]) "/cfg/plugins/wheel" (Some 0%nat) []))
    as [[Hcall _] Hnext].
  - reflexivity.
  - reflexivity.
  - discriminate.
  - vm_compute. reflexivity.
  - vm_compute. reflexivity.
  - reflexivity.
  - split; [exact Hcall|].
    destruct (Hnext acme_wheel [] (fst (fst back)) (snd (fst back)) (snd back))
      as [p2 (Hf2 & Hi2 & _)].
    + unfold registry_ok. vm_compute. repeat constructor; cbn; intuition discriminate.
    + vm_compute. reflexivity.
    + apply scenario_rules_evaluate. vm_compute. reflexivity.
    + vm_compute. reflexivity.
    + exists p2. auto.
Defined.

Lemma device_shared_between_plugins_witness :
  (exists p', find_plugin "wheel"
                (_plugins (snd (fst (_handle_device_connected literal_search
                                       acme_wheel [] ready_manager)))) = Some p'
              /\ connected_devices p' = [acme_info])
  /\ (exists p', find_plugin "pedals"
                   (_plugins (snd (fst (_handle_device_connected literal_search
                                          acme_wheel [] ready_manager)))) = Some p'
                 /\ connected_devices p' = [acme_info])
  /\ (exists p', find_plugin "pedals"
                   (_plugins (snd (fst (_handle_device_disconnected
                                          "/dev/input/event7" [] active_manager))))
                 = Some p'
                 /\ connected_devices p' = []).
Proof.
  pose (joined := _handle_device_connected literal_search acme_wheel [] ready_manager).
  pose (left := _handle_device_disconnected "/dev/input/event7" [] active_manager).
  destruct (proj1 (device_shared_between_plugins literal_search) acme_wheel []
              ready_manager (fst (fst joined)) (snd (fst joined)) (snd joined))
    as [_ Hadd].
  { apply scenario_rules_evaluate. reflexivity. }
  { vm_compute. reflexivity. }
  destruct (proj2 (device_shared_between_plugins literal_search) "/dev/input/event7" []
              active_manager (fst (fst left)) (snd (fst left)) (snd left))
    as [_ Hdrop].
  { intros q h1 [<-|[<-|[]]]; reflexivity. }
  { vm_compute. reflexivity. }
  splits.
  - destruct (Hadd "wheel" wheel_plugin eq_refl) as [p' [Hf Hd]]. exists p'. auto.
  - destruct (Hadd "pedals" pedals_plugin eq_refl) as [p' [Hf Hd]]. exists p'. auto.
  - destruct (Hdrop "pedals" (with_panel well_behaved 1 pedals_plugin) eq_refl)
      as [p' [Hf [Hd _]]]. exists p'. auto.
Defined.

Lemma enumeration_failure_retries_witness :
  scan_loop literal_search [failed_scan] [] [] wheel_manager
  = (Ok StillRunning, wheel_manager,
     [listing_error (mkExn OtherException "device subsystem unavailable");
      EvSleep error_backoff])
  /\ (fst (fst (scan_loop literal_search [failed_scan; failed_scan] [] [] wheel_manager))
      = Ok StillRunning).
Proof.
  split.
  - rewrite (proj1 (proj2 (enumeration_failure_retries literal_search))
               failed_scan [] [] [] wheel_manager wheel_manager []
               (mkExn OtherException "device subsystem unavailable")
               eq_refl eq_refl eq_refl).
    reflexivity.
  - destruct (proj2 (proj2 (enumeration_failure_retries literal_search))
                [failed_scan; failed_scan] [] [] wheel_manager
                (fst (fst (scan_loop literal_search [failed_scan; failed_scan] [] []
                             wheel_manager)))
                (snd (fst (scan_loop literal_search [failed_scan; failed_scan] [] []
                             wheel_manager)))
                (snd (scan_loop literal_search [failed_scan; failed_scan] [] []
                        wheel_manager)))
      as [Hrun|[Hstop _]].
    + repeat constructor; eexists; reflexivity.
    + vm_compute. reflexivity.
    + exact Hrun.
    + vm_compute in Hstop. discriminate Hstop.
Defined.

Lemma panel_instance_stable_witness :
  Forall2 keeps_panel (_plugins wheel_manager)
    (_plugins (snd (fst (run_ops literal_search wheel_session [] wheel_manager))))
  /\ Forall (constructs_only_without_panel (_plugins ready_manager))
       (snd (run_op literal_search (OpConnect acme_wheel) [] ready_manager))
  /\ In (EvCall "wheel" (Some 0%nat) shutdown) (snd (stop [] active_manager)).
Proof.
  splits.
  - apply (proj1 (panel_instance_stable literal_search) wheel_session [] wheel_manager
             (fst (fst (run_ops literal_search wheel_session [] wheel_manager)))
             (snd (fst (run_ops literal_search wheel_session [] wheel_manager)))
             (snd (run_ops literal_search wheel_session [] wheel_manager))).
    vm_compute. reflexivity.
  - apply (proj1 (proj2 (panel_instance_stable literal_search))
             (OpConnect acme_wheel) [] ready_manager
             (fst (fst (run_op literal_search (OpConnect acme_wheel) [] ready_manager)))
             (snd (fst (run_op literal_search (OpConnect acme_wheel) [] ready_manager)))).
    vm_compute. reflexivity.
  - destruct (proj2 (proj2 (panel_instance_stable literal_search)) [] active_manager
                (fst (fst (stop [] active_manager))) (snd (fst (stop [] active_manager)))
                (snd (stop [] active_manager))) as (_ & _ & Hshut).
    + vm_compute. reflexivity.
    + apply (Hshut (with_panel well_behaved 0 wheel_plugin) 0%nat).
      * now left.
      * reflexivity.
Defined.

(** ** [int(s, 16)] on examples *)

Example int16_prefixed : int_base16 "0x046d" = Ok 1133.
Proof. reflexivity. Qed.

Example int16_bare : int_base16 "046D" = Ok 1133.
Proof. reflexivity. Qed.

Example int16_decimal_looking : int_base16 "1133" = Ok 4403.
Proof. reflexivity. Qed.

Example int16_sign_space_underscore : int_base16 " -0X_1f_f " = Ok (-511).
Proof. reflexivity. Qed.

Example int16_rejects :
  map (fun s => is_ok (int_base16 s))
    [""; "0x"; "zz"; "1__2"; "12_"; "_12"; "0x__12"; "+ 12"; "12 3"]
  = [false; false; false; false; false; false; false; false; false].
Proof. reflexivity. Qed.

Example search_anywhere_ignoring_case :
  literal_search "Wheel" "Racing WHEEL Pro" IGNORECASE = Ok true
  /\ literal_search "Wheel" "Racing WHEEL Pro" 0 = Ok false.
Proof. split; reflexivity. Qed.

(** The connect event of the scenario, in full: the device is added, the
    panel is constructed, initialised inactive, told of the device, set
    active, and announced once. *)
Example wheel_scenario :
  _handle_device_connected literal_search acme_wheel []
    (mkManager "/cfg" "/cfg/plugins" [wheel_plugin] true (Some 7%nat))
  = (Ok tt,
     mkManager "/cfg" "/cfg/plugins"
       [mkLoadedPlugin "wheel" wheel_metadata well_behaved
          (mkMatcher "wheel" [wheel_rule]) "/cfg/plugins/wheel"
          (Some 1%nat) [acme_info]]
       true (Some 7%nat),
     [EvPrint "[PluginManager] Device matched plugin 'wheel': ACME Wheel";
      EvCall "wheel" None
        (Construct "wheel" (Some 7%nat) (mkContext "/cfg/plugins/wheel" "/cfg"));
      EvCall "wheel" (Some 1%nat) (active (-2));
      EvCall "wheel" (Some 1%nat) (on_device_connected acme_info);
      EvCall "wheel" (Some 1%nat) (active 1);
      EvDispatch "plugin-panel-available" "wheel" (ArgPanel (Some 1%nat))]).
Proof. vm_compute. reflexivity. Qed.

(** The same device disappearing later: the panel is told, set inactive,
    and kept. *)
Example wheel_unplugged :
  _handle_device_disconnected "/dev/input/event7" []
    (mkManager "/cfg" "/cfg/plugins" [with_panel well_behaved 1 wheel_plugin]
       true (Some 7%nat))
  = (Ok tt,
     mkManager "/cfg" "/cfg/plugins"
       [mkLoadedPlugin "wheel" wheel_metadata well_behaved
          (mkMatcher "wheel" [wheel_rule]) "/cfg/plugins/wheel" (Some 1%nat) []]
       true (Some 7%nat),
     [EvPrint "[PluginManager] Device disconnected from plugin 'wheel': ACME Wheel";
      EvCall "wheel" (Some 1%nat) (on_device_disconnected acme_info);
      EvCall "wheel" (Some 1%nat) (active (-1))]).
Proof. vm_compute. reflexivity. Qed.

Lemma matches_is_any_rule_witness :
  matches literal_search (mkMatcher "both" [pedals_rule; wheel_rule]) racing_wheel
  = matches literal_search (mkMatcher "both" [wheel_rule; pedals_rule]) racing_wheel.
Proof.
  refine (proj2 (matches_is_any_rule literal_search
                   (mkMatcher "both" [wheel_rule; pedals_rule]) racing_wheel _)
            (mkMatcher "both" [pedals_rule; wheel_rule]) (perm_swap _ _ _)).
  intros r [<-|[<-|[]]]; eexists; vm_compute; reflexivity.
Defined.

Lemma one_sided_rules_never_match_witness :
  matches literal_search (mkMatcher "vendor" [vendor_only_rule]) acme_wheel = Ok false.
Proof.
  apply (one_sided_rules_never_match literal_search).
  intros r [<-|[]]. split; [right|]; reflexivity.
Defined.

Lemma malformed_id_raises_witness :
  matches literal_search (mkMatcher "shifter" [vendor_only_rule; shifter_rule])
    acme_wheel
  = Raise invalid_literal.
Proof.
  refine (proj1 (malformed_id_raises literal_search
                   (mkMatcher "shifter" [vendor_only_rule; shifter_rule])
                   [vendor_only_rule] shifter_rule [] acme_wheel "logitech"
                   invalid_literal eq_refl _ _) (IdInt 1) eq_refl eq_refl).
  - repeat constructor.
  - vm_compute. reflexivity.
Defined.

Lemma connect_aborts_on_rule_error_witness :
  exists before' d,
    _handle_device_connected literal_search acme_wheel [] misconfigured_manager
    = (Raise invalid_literal,
       set_plugins misconfigured_manager (before' ++ [shifter_plugin; pedals_plugin]), d)
    /\ map name before' = ["wheel"].
Proof.
  apply (connect_aborts_on_rule_error literal_search acme_wheel [] misconfigured_manager
           [wheel_plugin] shifter_plugin [pedals_plugin] invalid_literal eq_refl).
  - intros q [<-|[]]. eexists. vm_compute. reflexivity.
  - vm_compute. reflexivity.
Defined.

Lemma reload_replaces_record_witness :
  map name (_plugins (snd (fst (_load_plugin "wheel" "/cfg/plugins/wheel" wheel_bundle
                                  [] active_manager))))
  = map name (_plugins active_manager)
  /\ (exists p,
        find_plugin "wheel"
          (_plugins (snd (fst (_load_plugin "wheel" "/cfg/plugins/wheel" wheel_bundle
                                 [] active_manager))))
        = Some p
        /\ panel_instance p = None /\ connected_devices p = [])
  /\ forall n,
       calls_of n (snd (_load_plugin "wheel" "/cfg/plugins/wheel" wheel_bundle
                          [] active_manager))
       = [].
Proof.
  apply (reload_replaces_record "wheel" "/cfg/plugins/wheel" wheel_bundle []
           active_manager _ _ (with_panel well_behaved 0 wheel_plugin)).
  - reflexivity.
  - vm_compute. reflexivity.
Defined.

Lemma first_crash_ends_discovery_witness :
  exists s1 d1,
    _discover_plugins (Some [wheel_bundle]) [] (new_manager "/cfg") = (Ok tt, s1, d1)
    /\ _discover_plugins (Some ([wheel_bundle] ++ function_factory_bundle :: [pedals_bundle]))
         [] (new_manager "/cfg")
       = (Raise not_a_class, s1, d1).
Proof.
  apply (first_crash_ends_discovery [wheel_bundle] function_factory_bundle [pedals_bundle]
           [] (new_manager "/cfg") not_a_class).
  - intros b0 [<-|[]] _. vm_compute. reflexivity.
  - reflexivity.
  - vm_compute. reflexivity.
Defined.

Lemma unchanged_devices_are_quiet_witness :
  scan_loop literal_search [wheel_scan] ["/dev/input/event7"] [] active_manager
  = (Ok StillRunning, active_manager, [EvSleep poll_interval]).
Proof.
  rewrite (unchanged_devices_are_quiet literal_search wheel_scan [] ["/dev/input/event7"]
             [("/dev/input/event7", Some acme_wheel)] [] active_manager
             eq_refl eq_refl eq_refl).
  - reflexivity.
  - intros path_. split.
    + intros [<-|[]]. exists acme_wheel. now left.
    + intros [device [H|[]]]. inversion H. now left.
Defined.

Lemma stop_request_ends_loop_witness :
  scan_loop literal_search [stop_scan; wheel_scan] [] [] active_manager
  = match for_each [HostStop] (run_host_op) [] active_manager with
    | (_, s', d) => (Ok Stopped, s', d)
    end.
Proof.
  apply (stop_request_ends_loop literal_search stop_scan [wheel_scan] [] []
           active_manager).
  left. left. reflexivity.
Defined.

Lemma rule_error_ends_monitoring_witness :
  exists s' d,
    scan_loop literal_search [wheel_scan; empty_scan] [] [] misconfigured_manager
    = (Raise invalid_literal, s', d)
    /\ _running s' = true.
Proof.
  apply (rule_error_ends_monitoring literal_search wheel_scan [empty_scan] []
           "/dev/input/event7" acme_wheel [] misconfigured_manager
           [wheel_plugin] shifter_plugin [pedals_plugin] invalid_literal
           eq_refl eq_refl eq_refl).
  - intros [].
  - reflexivity.
  - intros q [<-|[]]. eexists. vm_compute. reflexivity.
  - vm_compute. reflexivity.
Defined.

Lemma preset_goes_to_first_match_witness :
  exists line,
    apply_plugin_preset_settings "wheel-preset" [] [] active_manager
    = (Ok tt, active_manager,
       [EvCall "wheel" (Some 0%nat) (on_preset_loaded []); EvPrint line]).
Proof.
  exact (proj1 (preset_goes_to_first_match "wheel-preset" [] [] active_manager)
           [] (with_panel well_behaved 0 wheel_plugin)
           [with_panel well_behaved 1 pedals_plugin]
           eq_refl (Forall_nil _) eq_refl).
Defined.

Lemma preset_settings_from_first_answer_witness :
  exists line,
    get_plugin_preset_settings "wheel-preset" [] preset_manager
    = match get_plugin_preset_settings "wheel-preset"
              ([] ++ [EvCall "wheel" (Some 0%nat) get_preset_settings; EvPrint line])
              (set_plugins preset_manager [with_panel well_behaved 1 pedals_plugin]) with
      | (r, _, d) =>
          (r, preset_manager,
           EvCall "wheel" (Some 0%nat) get_preset_settings :: EvPrint line :: d)
      end.
Proof.
  exact (proj2 (preset_settings_from_first_answer "wheel-preset" [] preset_manager)
           [] (with_panel raises_on_get_preset 0 wheel_plugin)
           [with_panel well_behaved 1 pedals_plugin]
           eq_refl (Forall_nil _) eq_refl).
Defined.

Lemma connect_before_callback_only_records_witness :
  _handle_device_connected literal_search acme_wheel [] wheel_manager
  = (Ok tt,
     set_plugins wheel_manager
       [add_device wheel_plugin acme_wheel; add_device pedals_plugin acme_wheel],
     [matched_line wheel_plugin acme_wheel; matched_line pedals_plugin acme_wheel]).
Proof.
  refine (proj2 (connect_before_callback_only_records literal_search acme_wheel []
                   wheel_manager eq_refl _) _).
  - intros q [<-|[<-|[]]]; reflexivity.
  - apply scenario_rules_evaluate. reflexivity.
Defined.

Lemma unknown_path_disconnect_is_noop_witness :
  _handle_device_disconnected "/dev/input/event9" [] active_manager
  = (Ok tt, active_manager, []).
Proof.
  apply unknown_path_disconnect_is_noop.
  intros q [<-|[<-|[]]]; (constructor; [discriminate | constructor]).
Defined.

Lemma replay_survives_notification_errors_witness :
  exists evs,
    _instantiate_plugin_panel ready_manager [] (waiting_plugin, tt)
    = (Ok tt, (set_panel_instance waiting_plugin (Some 0%nat), tt), evs)
    /\ calls_of "wheel" evs
       = [(None, construct_call ready_manager waiting_plugin);
          (Some 0%nat, active (-2));
          (Some 0%nat, on_device_connected acme_info);
          (Some 0%nat, on_device_connected pedal_info);
          (Some 0%nat, active 1)]
    /\ panel_available "wheel" evs = [ArgPanel (Some 0%nat)]
    /\ load_errors "wheel" evs = [].
Proof.
  apply (replay_survives_notification_errors ready_manager [] waiting_plugin tt).
  - reflexivity.
  - intros h1. reflexivity.
  - intros h1. reflexivity.
Defined.

Lemma half_built_panel_is_returned_witness :
  exists panels s' d i,
    get_plugin_panels 7%nat [] stuck_manager = (Ok panels, s', d)
    /\ In (panel_title stuck_plugin) (map fst panels)
    /\ In (set_panel_instance stuck_plugin (Some i)) (_plugins s')
    /\ In (EvDispatch "plugin-load-error" (name stuck_plugin)
             (ArgMessage ("Failed to instantiate panel: " ++ str_exn init_failed)%string))
          d.
Proof.
  apply (half_built_panel_is_returned 7%nat [] stuck_manager [] stuck_plugin
           [pedals_plugin] init_failed eq_refl).
  - discriminate.
  - reflexivity.
  - intros h1. reflexivity.
  - intros h1. reflexivity.
Defined.

Lemma settled_panels_query_is_quiet_witness :
  exists panels,
    get_plugin_panels 7%nat [] active_manager
    = (Ok panels, set_button_callback active_manager (Some 7%nat), []).
Proof.
  apply settled_panels_query_is_quiet.
  intros q [<-|[<-|[]]] _; discriminate.
Defined.
